(** * Wellness tracker backend: a shallow embedding of the service layer

    The development follows the Express backend of the tracker:
    [dashboard.service] (statistics and AI analysis) and the dashboard
    controller, [deepseek.service] (summaries with their fallback
    tiers), [goals.service] and the goals controller, [mood.service] and
    the mood controller, [meditation.service], [journal.service], and
    [auth.service] with the auth controller and the auth middleware.

    Conventions of the embedding.
    - JavaScript numbers that the services compute with are integers
      ([Z]) where the code only counts or stores integers, and exact
      rationals ([Q]) where it divides; [NaN] is a constructor of its own.
    - Strings are [string]s of 8-bit characters; the character classes of
      the regular expressions ([\s], case folding) are the ASCII ones.
    - A value that may be [undefined]/[null] is an [option].
    - A [throw] is a result of its own ([Throw]), caught where the source
      has a [catch].
    - The tables [goals], [mood_entries], [meditation_sessions] and
      [meditation_runs] are finite maps from the primary key to the row;
      the table [users] is the list of its rows with the counter of the
      next identifier. *)

From Stdlib Require Import ZArith QArith Qround Lia Lqa Bool Ascii DecimalString.
From stdpp Require Import base option list gmap strings.

Local Open Scope Z_scope.

(** ** JavaScript numbers and [Math] *)

Module Js.

(** The outcome of arithmetic that may produce [NaN]. *)
Inductive Num : Type :=
| NaN : Num
| Fin : Q -> Num.

(** [Math.round]: the integer nearest to the argument, ties towards
    plus infinity. *)
Definition Math_round (q : Q) : Z := Qfloor (q + (1 # 2)).

(** Comparisons with [NaN] are false. *)
Definition num_lt (a : Num) (b : Q) : bool :=
  match a with
  | NaN => false
  | Fin q => if Qlt_le_dec q b then true else false
  end.

Definition num_gt (a : Num) (b : Q) : bool :=
  match a with
  | NaN => false
  | Fin q => if Qlt_le_dec b q then true else false
  end.

(** [x || d] on an integer that may be missing: [undefined] and [0] are
    falsy. *)
Definition or_int (x : option Z) (d : Z) : Z :=
  match x with
  | Some v => if v =? 0 then d else v
  | None => d
  end.

(** [a?.length || 0] on an array that may be [null]/[undefined]. *)
Definition length_or_0 {A} (a : option (list A)) : nat :=
  match a with
  | Some l => length l
  | None => 0%nat
  end.

(** [a?.filter(p).length || 0]. *)
Definition count_or_0 {A} (p : A -> bool) (a : option (list A)) : nat :=
  match a with
  | Some l => length (List.filter p l)
  | None => 0%nat
  end.

(** ** Results of code that may throw *)

Inductive Result (A : Type) : Type :=
| Return : A -> Result A
| Throw : string -> Result A.
Arguments Return {A} _.
Arguments Throw {A} _.

Definition bind {A B} (r : Result A) (k : A -> Result B) : Result B :=
  match r with
  | Return a => k a
  | Throw e => Throw e
  end.

(** [try { body } catch (e) { handler }]. *)
Definition try_catch {A} (body : Result A) (handler : string -> Result A) : Result A :=
  match body with
  | Return a => Return a
  | Throw e => handler e
  end.

#[global] Instance result_ret : MRet Result := @Return.
#[global] Instance result_bind : MBind Result := fun A B k r => bind r k.

(** ** Strings *)

Definition dquote : ascii := "034".
Definition squote : ascii := "039".
Definition backslash : ascii := "092".
Definition dq : string := String dquote "".

Definition code (c : ascii) : nat := nat_of_ascii c.

(** The ASCII members of the class [\s], which [trim] strips as well. *)
Definition is_space (c : ascii) : bool :=
  match code c with
  | 9%nat | 10%nat | 11%nat | 12%nat | 13%nat | 32%nat => true
  | _ => false
  end.

Definition is_digit (c : ascii) : bool :=
  (48 <=? code c)%nat && (code c <=? 57)%nat.

Definition lower_char (c : ascii) : ascii :=
  if (65 <=? code c)%nat && (code c <=? 90)%nat then ascii_of_nat (code c + 32) else c.

Fixpoint toLowerCase (s : string) : string :=
  match s with
  | EmptyString => EmptyString
  | String c s' => String (lower_char c) (toLowerCase s')
  end.

(** [s.includes(sub)]. *)
Fixpoint includes (s sub : string) : bool :=
  String.prefix sub s ||
  match s with
  | EmptyString => false
  | String _ s' => includes s' sub
  end.

Fixpoint trimStart (s : string) : string :=
  match s with
  | String c s' => if is_space c then trimStart s' else s
  | EmptyString => EmptyString
  end.

(** [trimEnd]: a character is kept when something other than white space
    follows it or it is not white space itself. *)
Fixpoint trimEnd (s : string) : string :=
  match s with
  | EmptyString => EmptyString
  | String c s' =>
      match trimEnd s' with
      | EmptyString => if is_space c then EmptyString else String c EmptyString
      | t => String c t
      end
  end.

Definition trim (s : string) : string := trimEnd (trimStart s).

(** A non-empty string is truthy. *)
Definition nonempty (s : string) : bool :=
  match s with
  | EmptyString => false
  | String _ _ => true
  end.

Definition cons_head (c : ascii) (pieces : list string) : list string :=
  match pieces with
  | x :: xs => String c x :: xs
  | [] => [String c EmptyString]
  end.

(** [s.split(sep)] for a separator that is one character of the class
    [p] (a one-character string, or a regular expression [[...]]). *)
Fixpoint split_on (p : ascii -> bool) (s : string) : list string :=
  match s with
  | EmptyString => [EmptyString]
  | String c s' =>
      if p c then EmptyString :: split_on p s' else cons_head c (split_on p s')
  end.

(** [s.split(/[...]+/)]: the separator is a maximal run of characters
    of the class; [in_sep] tells that the previous character was one. *)
Fixpoint split_runs (p : ascii -> bool) (in_sep : bool) (s : string) : list string :=
  match s with
  | EmptyString => [EmptyString]
  | String c s' =>
      if p c then
        (if in_sep then split_runs p true s' else EmptyString :: split_runs p true s')
      else cons_head c (split_runs p false s')
  end.

(** [s.replace(/[...]/g, '')]. *)
Fixpoint remove_chars (p : ascii -> bool) (s : string) : string :=
  match s with
  | EmptyString => EmptyString
  | String c s' => if p c then remove_chars p s' else String c (remove_chars p s')
  end.

Definition is_char (a : ascii) (c : ascii) : bool := Ascii.eqb a c.

Definition is_quote (c : ascii) : bool := is_char squote c || is_char dquote c.
Definition is_terminator (c : ascii) : bool :=
  is_char "." c || is_char "!" c || is_char "?" c.

(** The pattern matches at the head of [s], letters compared without
    case. *)
Fixpoint prefix_ci (pat s : string) : bool :=
  match pat, s with
  | EmptyString, _ => true
  | String a pat', String c s' => Ascii.eqb (lower_char a) (lower_char c) && prefix_ci pat' s'
  | String _ _, EmptyString => false
  end.

(** [s.replace(/pat\s*/gi, '')]: scanning from the left, every match of
    [pat] and the white space after it is dropped. [skip] counts the
    characters of the current match still to drop, [eat] tells that a
    match has just ended. *)
Fixpoint remove_fence (pat : string) (skip : nat) (eat : bool) (s : string) : string :=
  match s with
  | EmptyString => EmptyString
  | String c s' =>
      match skip with
      | S k => remove_fence pat k eat s'
      | O =>
          if eat && is_space c then remove_fence pat 0 true s'
          else if prefix_ci pat s then remove_fence pat (String.length pat - 1) true s'
          else String c (remove_fence pat 0 false s')
      end
  end.

Definition fence : string := "```".
Definition fence_json : string := "```json".

(** [.replace(/```json\s*/gi, '').replace(/```\s*/g, '')]. *)
Definition strip_fences (s : string) : string :=
  remove_fence fence 0 false (remove_fence fence_json 0 false s).

(** [s.replace(/^[^{]*/, '')]. *)
Fixpoint drop_until_open (s : string) : string :=
  match s with
  | EmptyString => EmptyString
  | String c s' => if is_char "{" c then s else drop_until_open s'
  end.

(** The part of [s] up to and including its last closing brace, if it
    has one. *)
Fixpoint upto_last_close (s : string) : option string :=
  match s with
  | EmptyString => None
  | String c s' =>
      match upto_last_close s' with
      | Some t => Some (String c t)
      | None => if is_char "}" c then Some (String c EmptyString) else None
      end
  end.

(** [s.replace(/[^}]*$/, '')]. *)
Definition drop_after_close (s : string) : string :=
  default EmptyString (upto_last_close s).

(** [s.match(/\{[\s\S]*\}/)]: from the first opening brace to the last
    closing brace after it. *)
Definition match_braces (s : string) : option string :=
  upto_last_close (drop_until_open s).

(** Decimal rendering of an integer. *)
Definition show_int (z : Z) : string := NilZero.string_of_int (Z.to_int z).
Definition show_nat (n : nat) : string := show_int (Z.of_nat n).

(** ** Values and [JSON] *)

(** The values that cross the service boundaries: what [JSON.parse]
    produces, plus [undefined]. An object is the list of its own
    properties in insertion order. *)
#[warnings="-register-all"]
Inductive JsVal : Type :=
| JUndefined : JsVal
| JNull : JsVal
| JBool : bool -> JsVal
| JNum : Q -> JsVal
| JStr : string -> JsVal
| JArr : list JsVal -> JsVal
| JObj : list (string * JsVal) -> JsVal.

(** Truthiness. *)
Definition truthy (v : JsVal) : bool :=
  match v with
  | JUndefined | JNull => false
  | JBool b => b
  | JNum q => negb (Qeq_bool q 0)
  | JStr s => nonempty s
  | JArr _ | JObj _ => true
  end.

(** [a || b]. *)
Definition or_else (a b : JsVal) : JsVal := if truthy a then a else b.

(** The last binding of a key wins, as when a property is assigned
    twice. *)
Fixpoint lookup_prop (k : string) (props : list (string * JsVal)) : JsVal :=
  match props with
  | [] => JUndefined
  | (k', v) :: rest =>
      match lookup_prop k rest with
      | JUndefined => if String.eqb k k' then v else JUndefined
      | later => later
      end
  end.

(** [v.k] for the property names the services read ([summary],
    [suggestions], [sentiment], ...), none of which is a built-in
    property of an array or of a primitive: reading from [null] or
    [undefined] throws, reading from a primitive or an array gives
    [undefined]. *)
Definition get (v : JsVal) (k : string) : Result JsVal :=
  match v with
  | JUndefined | JNull => Throw "TypeError: cannot read properties of null or undefined"
  | JObj props => Return (lookup_prop k props)
  | _ => Return JUndefined
  end.

(** [typeof v === 'object' && v !== null]. *)
Definition is_object (v : JsVal) : bool :=
  match v with
  | JArr _ | JObj _ => true
  | _ => false
  end.

(** *** [JSON.parse] *)

Definition is_json_ws (c : ascii) : bool :=
  match code c with
  | 9%nat | 10%nat | 13%nat | 32%nat => true
  | _ => false
  end.

Fixpoint skip_ws (s : string) : string :=
  match s with
  | String c s' => if is_json_ws c then skip_ws s' else s
  | EmptyString => EmptyString
  end.

Definition hex_value (c : ascii) : option nat :=
  let n := code c in
  if is_digit c then Some (n - 48)%nat
  else if (97 <=? n)%nat && (n <=? 102)%nat then Some (n - 87)%nat
  else if (65 <=? n)%nat && (n <=? 70)%nat then Some (n - 55)%nat
  else None.

(** The character of a [\uXXXX] escape; a code unit above 255 has no
    8-bit character and is rendered as a question mark. *)
Definition unicode_escape (h1 h2 h3 h4 : ascii) : option ascii :=
  a ← hex_value h1; b ← hex_value h2; c ← hex_value h3; d ← hex_value h4;
  let n := (((a * 16 + b) * 16 + c) * 16 + d)%nat in
  Some (if (n <? 256)%nat then ascii_of_nat n else "?"%char).

Definition simple_escape (e : ascii) : option ascii :=
  if is_char dquote e then Some dquote
  else if is_char backslash e then Some backslash
  else if is_char "/" e then Some "/"%char
  else if is_char "b" e then Some "008"%char
  else if is_char "f" e then Some "012"%char
  else if is_char "n" e then Some "010"%char
  else if is_char "r" e then Some "013"%char
  else if is_char "t" e then Some "009"%char
  else None.

Definition push (c : ascii) (r : option (string * string)) : option (string * string) :=
  match r with
  | Some (str, rest) => Some (String c str, rest)
  | None => None
  end.

(** The characters of a string literal after its opening quote, up to
    the closing quote: the decoded string and what follows it. *)
Fixpoint parse_string (s : string) : option (string * string) :=
  match s with
  | EmptyString => None
  | String c s' =>
      if is_char dquote c then Some (EmptyString, s')
      else if is_char backslash c then
        match s' with
        | String e s'' =>
            match simple_escape e with
            | Some d => push d (parse_string s'')
            | None =>
                if is_char "u" e then
                  match s'' with
                  | String h1 (String h2 (String h3 (String h4 rest))) =>
                      match unicode_escape h1 h2 h3 h4 with
                      | Some d => push d (parse_string rest)
                      | None => None
                      end
                  | _ => None
                  end
                else None
            end
        | EmptyString => None
        end
      else if (code c <? 32)%nat then None
      else push c (parse_string s')
  end.

(** A maximal run of digits: their values and what follows. *)
Fixpoint take_digits (s : string) : list Z * string :=
  match s with
  | String c s' =>
      if is_digit c then
        let '(ds, rest) := take_digits s' in (Z.of_nat (code c - 48) :: ds, rest)
      else ([], s)
  | EmptyString => ([], EmptyString)
  end.

Definition digits_value (ds : list Z) : Z := foldl (fun acc d => acc * 10 + d) 0 ds.

(** The integer part of a number: a single zero, or digits that do not
    start with zero. *)
Definition parse_int_part (s : string) : option (Z * string) :=
  match s with
  | String c s' =>
      if is_char "0" c then Some (0, s')
      else match take_digits s with
           | ([], _) => None
           | (ds, rest) => Some (digits_value ds, rest)
           end
  | EmptyString => None
  end.

Definition parse_fraction (s : string) : option (Q * string) :=
  match s with
  | String c s' =>
      if is_char "." c then
        match take_digits s' with
        | ([], _) => None
        | (ds, rest) =>
            Some (inject_Z (digits_value ds) / inject_Z (10 ^ Z.of_nat (length ds)), rest)%Q
        end
      else Some (0%Q, s)
  | EmptyString => Some (0%Q, s)
  end.

Definition parse_exponent (s : string) : option (Z * string) :=
  match s with
  | String c s' =>
      if is_char "e" c || is_char "E" c then
        let '(sign, s'') :=
          match s' with
          | String d t => if is_char "-" d then (-1, t) else if is_char "+" d then (1, t) else (1, s')
          | EmptyString => (1, s')
          end in
        match take_digits s'' with
        | ([], _) => None
        | (ds, rest) => Some (sign * digits_value ds, rest)
        end
      else Some (0, s)
  | EmptyString => Some (0, s)
  end.

Definition parse_number (s : string) : option (Q * string) :=
  let '(sign, s1) :=
    match s with
    | String c s' => if is_char "-" c then ((-1)%Q, s') else (1%Q, s)
    | EmptyString => (1%Q, s)
    end in
  '(i, s2) ← parse_int_part s1;
  '(f, s3) ← parse_fraction s2;
  '(e, s4) ← parse_exponent s3;
  Some (Qred (sign * (inject_Z i + f) * Qpower (10 # 1) e), s4)%Q.

(** What follows [word] at the head of the text. *)
Fixpoint strip_prefix (word s : string) : option string :=
  match word, s with
  | EmptyString, _ => Some s
  | String a word', String c s' => if Ascii.eqb a c then strip_prefix word' s' else None
  | String _ _, EmptyString => None
  end.

(** A literal name at the head of the text. *)
Definition expect (word : string) (v : JsVal) (s : string) : option (JsVal * string) :=
  rest ← strip_prefix word s; Some (v, rest).

(** The recursive descent over values, array elements and object
    members. [fuel] bounds the number of nested calls; [JSON_parse]
    starts with more than any text can use. *)
Fixpoint parse_value (fuel : nat) (s : string) : option (JsVal * string) :=
  match fuel with
  | O => None
  | S n =>
      match skip_ws s with
      | EmptyString => None
      | String c r =>
          if is_char "{" c then
            match skip_ws r with
            | String c' r' =>
                if is_char "}" c' then Some (JObj [], r')
                else '(ms, rest) ← parse_members n (String c' r'); Some (JObj ms, rest)
            | EmptyString => None
            end
          else if is_char "[" c then
            match skip_ws r with
            | String c' r' =>
                if is_char "]" c' then Some (JArr [], r')
                else '(vs, rest) ← parse_elements n (String c' r'); Some (JArr vs, rest)
            | EmptyString => None
            end
          else if is_char dquote c then
            '(str, rest) ← parse_string r; Some (JStr str, rest)
          else if is_char "t" c then expect "true" (JBool true) (String c r)
          else if is_char "f" c then expect "false" (JBool false) (String c r)
          else if is_char "n" c then expect "null" JNull (String c r)
          else '(q, rest) ← parse_number (String c r); Some (JNum q, rest)
      end
  end
with parse_elements (fuel : nat) (s : string) : option (list JsVal * string) :=
  match fuel with
  | O => None
  | S n =>
      '(v, r) ← parse_value n s;
      match skip_ws r with
      | String c r' =>
          if is_char "," c then '(vs, rest) ← parse_elements n r'; Some (v :: vs, rest)
          else if is_char "]" c then Some ([v], r')
          else None
      | EmptyString => None
      end
  end
with parse_members (fuel : nat) (s : string) : option (list (string * JsVal) * string) :=
  match fuel with
  | O => None
  | S n =>
      match skip_ws s with
      | String q r =>
          if is_char dquote q then
            '(k, r1) ← parse_string r;
            match skip_ws r1 with
            | String c r2 =>
                if is_char ":" c then
                  '(v, r3) ← parse_value n r2;
                  match skip_ws r3 with
                  | String c' r4 =>
                      if is_char "," c' then
                        '(ms, rest) ← parse_members n r4; Some ((k, v) :: ms, rest)
                      else if is_char "}" c' then Some ([(k, v)], r4)
                      else None
                  | EmptyString => None
                  end
                else None
            | EmptyString => None
            end
          else None
      | EmptyString => None
      end
  end.

(** [JSON.parse(s)]; [None] stands for the [SyntaxError] it throws. *)
Definition JSON_parse (s : string) : option JsVal :=
  match parse_value (2 * String.length s + 2) s with
  | Some (v, rest) =>
      match skip_ws rest with
      | EmptyString => Some v
      | String _ _ => None
      end
  | None => None
  end.

(** [JSON.parse] inside a [try]. *)
Definition JSON_parse_result (s : string) : Result JsVal :=
  match JSON_parse s with
  | Some v => Return v
  | None => Throw "SyntaxError: not valid JSON"
  end.

(** *** [parseInt] *)

Fixpoint take_hex (s : string) : list Z :=
  match s with
  | String c s' =>
      match hex_value c with
      | Some d => Z.of_nat d :: take_hex s'
      | None => []
      end
  | EmptyString => []
  end.

Definition hex_digits_value (ds : list Z) : Z := foldl (fun acc d => acc * 16 + d) 0 ds.

(** [parseInt(s)] without a radix: leading white space, a sign, then
    hexadecimal digits after [0x] and decimal digits otherwise; [None]
    is [NaN]. *)
Definition parseInt_string (s : string) : option Z :=
  let s1 := trimStart s in
  let '(sign, s2) :=
    match s1 with
    | String c r => if is_char "-" c then (-1, r) else if is_char "+" c then (1, r) else (1, s1)
    | EmptyString => (1, s1)
    end in
  if prefix_ci "0x" s2 then
    match take_hex (String.substring 2 (String.length s2 - 2) s2) with
    | [] => None
    | ds => Some (sign * hex_digits_value ds)
    end
  else
    match take_digits s2 with
    | ([], _) => None
    | (ds, _) => Some (sign * digits_value ds)
    end.

(** [parseInt(v)]: the argument is turned into a string first. A
    number (one that prints without an exponent) loses its fraction, an
    array stands for its first element, every other value prints as a
    word and gives [NaN]. *)
Fixpoint parseInt (v : JsVal) : option Z :=
  match v with
  | JStr s => parseInt_string s
  | JNum q => Some (if Qlt_le_dec q 0 then Qceiling q else Qfloor q)
  | JArr (x :: _) => parseInt x
  | _ => None
  end.

(** *** [JSON.stringify] *)

Definition hex_digit (n : nat) : ascii :=
  if (n <? 10)%nat then ascii_of_nat (48 + n) else ascii_of_nat (87 + n).

Definition escape_char (c : ascii) : string :=
  if is_char dquote c then String backslash (String dquote "")
  else if is_char backslash c then String backslash (String backslash "")
  else if is_char "008" c then String backslash "b"
  else if is_char "012" c then String backslash "f"
  else if is_char "010" c then String backslash "n"
  else if is_char "013" c then String backslash "r"
  else if is_char "009" c then String backslash "t"
  else if (code c <? 32)%nat
  then String backslash (String "u" (String "0" (String "0"
         (String (hex_digit (code c / 16)) (String (hex_digit (code c mod 16)) "")))))
  else String c "".

Fixpoint escape_string (s : string) : string :=
  match s with
  | EmptyString => EmptyString
  | String c s' => escape_char c +:+ escape_string s'
  end.

Definition quote (s : string) : string := dq +:+ escape_string s +:+ dq.

Section Stringify.

(** The rendering of a number ([Number.prototype.toString]) is left
    open: nothing below depends on how a fraction is printed. *)
Variable number_to_string : Q -> string.

(** [JSON.stringify(v)] of a value that is not [undefined] at the top;
    inside an array [undefined] is written [null], inside an object the
    property is left out. *)
Fixpoint JSON_stringify (v : JsVal) : string :=
  match v with
  | JUndefined => "null"
  | JNull => "null"
  | JBool true => "true"
  | JBool false => "false"
  | JNum q => number_to_string q
  | JStr s => quote s
  | JArr vs => "[" +:+ String.concat "," (List.map JSON_stringify vs) +:+ "]"
  | JObj props =>
      "{" +:+ String.concat ","
               ((fix members (l : list (string * JsVal)) : list string :=
                   match l with
                   | [] => []
                   | (_, JUndefined) :: l' => members l'
                   | (k, v') :: l' => (quote k +:+ ":" +:+ JSON_stringify v') :: members l'
                   end) props)
      +:+ "}"
  end.

(** [String(v)] for a primitive. *)
Definition to_String (v : JsVal) : string :=
  match v with
  | JUndefined => "undefined"
  | JNull => "null"
  | JBool true => "true"
  | JBool false => "false"
  | JNum q => number_to_string q
  | JStr s => s
  | JArr _ | JObj _ => "[object Object]"
  end.

End Stringify.

End Js.

(** ** [deepseek.service] *)

Module DeepSeek.
Import Js.

(** [process.env.DEEPSEEK_MOCK]. *)
Record Env : Type := mkEnv {
  DEEPSEEK_MOCK : option string
}.

(** The response of [client.chatCompletion]: any of the parts that the
    service checks may be missing. *)
Record Message : Type := mkMessage { content : option string }.
Record Choice : Type := mkChoice { message : option Message }.
Record ChatCompletion : Type := mkChatCompletion { choices : option (list (option Choice)) }.

(** One call of the provider: the promise is rejected (also by the
    timeout) or resolved. *)
Inductive Attempt : Type :=
| Rejected : string -> Attempt
| Resolved : option ChatCompletion -> Attempt.

(** The provider, as the outcome of its n-th call (from 1), and
    [this.client], which is [null] when no token is configured. *)
Record Service : Type := mkService {
  client : bool;
  chatCompletion : nat -> Attempt
}.

(** The option that steers control flow; the other options are handed
    to the provider. *)
Record Options : Type := mkOptions {
  retries : option Z
}.

Record Analysis : Type := mkAnalysis {
  wordCount : nat;
  sentenceCount : nat;
  positiveSignals : nat;
  negativeSignals : nat
}.

(** The object returned by [generateSummary]; a key that a tier does
    not set reads as falsy. *)
Record SummaryResult : Type := mkSummaryResult {
  success : bool;
  summary : JsVal;
  sentiment : string;
  provider : string;
  error : option string;
  fallback : bool;
  extracted : bool;
  analysis : option Analysis
}.

Definition validSentiments : list string := ["positive"; "neutral"; "negative"].

Definition array_includes (l : list string) (x : string) : bool :=
  existsb (String.eqb x) l.

(** [v.toLowerCase()]: only a string has the method. *)
Definition call_toLowerCase (v : JsVal) : Result string :=
  match v with
  | JStr s => Return (toLowerCase s)
  | JUndefined | JNull => Throw "TypeError: cannot read properties of null or undefined"
  | _ => Throw "TypeError: toLowerCase is not a function"
  end.

(** The sentiment read off the summary text of a parsed response. *)
Definition sentiment_of_summary (summaryLower : string) : string :=
  if includes summaryLower "positive" || includes summaryLower "good" || includes summaryLower "happy"
  then "positive"
  else if includes summaryLower "negative" || includes summaryLower "bad" || includes summaryLower "sad"
  then "negative"
  else "neutral".

Definition extractManually (responseText : string) : SummaryResult :=
  let lines := List.filter (fun line => nonempty (trim line)) (split_on (is_char "010") responseText) in
  let summary : option string :=
    foldl (fun summary line =>
             if includes (toLowerCase line) "summary" && includes line ":"
             then Some (remove_chars is_quote
                          (trim (String.concat ":" (List.tail (split_on (is_char ":") line)))))
             else summary)
          None lines in
  let lowerResponse := toLowerCase responseText in
  let sentiment :=
    if includes lowerResponse "positive" then "positive"
    else if includes lowerResponse "negative" then "negative"
    else "neutral" in
  {| success := true;
     summary := JStr (match summary with
                      | Some s => if nonempty s then s else "Unable to extract summary from response"
                      | None => "Unable to extract summary from response"
                      end);
     sentiment := sentiment;
     provider := "deepseek";
     error := None;
     fallback := false;
     extracted := true;
     analysis := None |}.

(** The response without code fences, without what precedes the first
    opening brace and what follows the last closing brace. *)
Definition cleanResponse (responseText : string) : string :=
  trim (drop_after_close (drop_until_open (strip_fences responseText))).

(** The body of the [try] in [parseResponse]. *)
Definition parseResponse_try (responseText : string) : Result SummaryResult :=
  let cleanedResponse := cleanResponse responseText in
  match match_braces cleanedResponse with
  | Some jsonMatch =>
      parsed ← JSON_parse_result jsonMatch;
      raw ← get parsed "sentiment";
      sentiment ← (if truthy raw then call_toLowerCase raw else Return "neutral");
      sentiment ← (if array_includes validSentiments sentiment then Return sentiment
                   else text ← get parsed "summary";
                        summaryLower ← call_toLowerCase (or_else text (JStr ""));
                        Return (sentiment_of_summary summaryLower));
      text ← get parsed "summary";
      Return {| success := true;
                summary := or_else text (JStr "Summary not available");
                sentiment := sentiment;
                provider := "deepseek";
                error := None;
                fallback := false;
                extracted := false;
                analysis := None |}
  | None => Throw "No valid JSON found in response"
  end.

Definition parseResponse (responseText : string) : SummaryResult :=
  match parseResponse_try responseText with
  | Return r => r
  | Throw _ => extractManually responseText
  end.

Definition positiveWords : list string :=
  ["happy"; "good"; "great"; "excellent"; "wonderful"; "amazing"; "love"; "joy"; "excited";
   "grateful"; "pleased"; "delighted"; "thrilled"; "optimistic"; "cheerful"; "fantastic";
   "awesome"; "brilliant"; "perfect"; "satisfied"; "proud"; "accomplished"; "successful";
   "relaxed"; "peaceful"].

Definition negativeWords : list string :=
  ["sad"; "bad"; "terrible"; "awful"; "hate"; "angry"; "frustrated"; "stressed"; "worried";
   "disappointed"; "upset"; "depressed"; "anxious"; "overwhelmed"; "miserable"; "horrible";
   "disgusting"; "annoyed"; "irritated"; "exhausted"; "tired"; "difficult"; "challenging";
   "tough"].

Definition generateFallbackSummary (text : string) (error : option string) : SummaryResult :=
  let words := length (split_runs is_space false text) in
  let sentences :=
    length (List.filter (fun s => nonempty (trim s)) (split_runs is_terminator false text)) in
  let lowerText := toLowerCase text in
  let positiveCount := length (List.filter (includes lowerText) positiveWords) in
  let negativeCount := length (List.filter (includes lowerText) negativeWords) in
  let sentiment :=
    if (negativeCount <? positiveCount)%nat then "positive"
    else if (positiveCount <? negativeCount)%nat then "negative"
    else "neutral" in
  let firstSentence := trim (List.hd EmptyString (split_on is_terminator text)) in
  let summary :=
    "Journal entry with " +:+ show_nat words +:+ " words and " +:+ show_nat sentences
    +:+ " sentence" +:+ (if (sentences =? 1)%nat then "" else "s") +:+ ". "
    +:+ (if (50 <? String.length firstSentence)%nat
         then String.substring 0 50 firstSentence +:+ "..."
         else firstSentence)
    +:+ " "
    +:+ (if String.eqb sentiment "positive" then "Shows generally positive emotions and experiences."
         else if String.eqb sentiment "negative" then "Reflects some challenges or difficult emotions."
         else "Maintains a balanced, neutral tone.") in
  {| success := true;
     summary := JStr summary;
     sentiment := sentiment;
     provider := "deepseek-fallback";
     error := error;
     fallback := true;
     extracted := false;
     analysis := Some {| wordCount := words;
                         sentenceCount := sentences;
                         positiveSignals := positiveCount;
                         negativeSignals := negativeCount |} |}.

(** [options.retries >= 0 ? options.retries + 1 : 2]. *)
Definition maxAttempts (options : Options) : nat :=
  match retries options with
  | Some r => if 0 <=? r then Z.to_nat (r + 1) else 2%nat
  | None => 2%nat
  end.

(** The retry loop: [remaining] calls are left, the next one is call
    number [attempt]. It yields [chatCompletion] and [lastError]. *)
Fixpoint retry_loop (svc : Service) (remaining attempt : nat) (lastError : option string)
    : option ChatCompletion * option string :=
  match remaining with
  | O => (None, lastError)
  | S k =>
      match chatCompletion svc attempt with
      | Resolved c => (c, lastError)
      | Rejected err => retry_loop svc k (S attempt) (Some err)
      end
  end.

(** The message of the first choice, when the response has the
    expected shape. *)
Definition first_message (c : option ChatCompletion) : option Message :=
  c ← c; cs ← choices c; ch ← List.hd None cs; message ch.

Section Summary.

Variable number_to_string : Q -> string.

Definition mock_summary : SummaryResult :=
  {| success := true;
     summary := JStr (JSON_stringify number_to_string
                        (JObj [("summary", JStr "Mock summary: consistent progress and steady mood.");
                               ("sentiment", JStr "neutral")]));
     sentiment := "neutral";
     provider := "mock";
     error := None;
     fallback := false;
     extracted := false;
     analysis := None |}.

(** The body of the [try] in [generateSummary], after the mock
    shortcut. *)
Definition generateSummary_try (svc : Service) (text : string) (options : Options)
    : Result SummaryResult :=
  if negb (client svc) then Return (generateFallbackSummary text None)
  else
    let '(completion, lastError) := retry_loop svc (maxAttempts options) 1 None in
    match first_message completion with
    | None =>
        Throw ("Invalid DeepSeek response shape"
               +:+ match lastError with Some e => ": " +:+ e | None => "" end)
    | Some msg =>
        let responseText := trim (default EmptyString (content msg)) in
        Return (parseResponse responseText)
    end.

Definition generateSummary (env : Env) (svc : Service) (text : string) (options : Options)
    : SummaryResult :=
  if bool_decide (DEEPSEEK_MOCK env = Some "true") then mock_summary
  else
    match generateSummary_try svc text options with
    | Return r => r
    | Throw e => generateFallbackSummary text (Some e)
    end.

(** What [testService] returns, without the duration it measures. *)
Record TestResult : Type := mkTestResult {
  t_success : bool;
  t_error : option string;
  t_summary : option JsVal;
  t_sentiment : option string;
  t_fallback : bool
}.

Definition testText : string :=
  "Today was a really good day! I accomplished a lot and feel very happy about my progress.".

(** [testService()]: [generateSummary] does not throw, so the [catch]
    is not entered. *)
Definition testService (env : Env) (svc : Service) : TestResult :=
  if negb (client svc) then
    {| t_success := false;
       t_error := Some "DeepSeek client not initialized (check HF_TOKEN)";
       t_summary := None;
       t_sentiment := None;
       t_fallback := false |}
  else
    let result := generateSummary env svc testText (mkOptions None) in
    {| t_success := success result
                    && negb (match error result with Some e => nonempty e | None => false end);
       t_error := None;
       t_summary := Some (summary result);
       t_sentiment := Some (sentiment result);
       t_fallback := fallback result |}.

End Summary.

End DeepSeek.

(** ** HTTP responses *)

Module Http.

(** [res.status(code).json(body)]. *)
Record Response (Body : Type) : Type := mkResponse {
  status : Z;
  body : Body
}.
Arguments mkResponse {Body} _ _.
Arguments status {Body} _.
Arguments body {Body} _.

End Http.

(** ** [goals.service] and the goals controller *)

Module Goals.
Import Js Http.

(** A row of the table [goals], without its primary key. [completed]
    is the [TINYINT] column, [tags] the JSON column ([null] or the
    stored text). *)
Record Goal : Type := mkGoal {
  user_id : Z;
  title : string;
  note : option string;
  created_at : string;
  due_at : option string;
  completed : Z;
  completed_at : option string;
  priority : string;
  tags : JsVal
}.

(** The table, keyed by [id]. *)
Abbreviation Table := (gmap Z Goal).

(** The fields of an update; [None] is [undefined] (the key is absent),
    [Some None] is [null]. *)
Record Changes : Type := mkChanges {
  c_title : option string;
  c_note : option (option string);
  c_due_at : option (option string);
  c_completed : option JsVal;
  c_completed_at : option (option string);
  c_priority : option string;
  c_tags : option JsVal
}.

(** [SELECT * FROM goals WHERE id = ? AND user_id = ? LIMIT 1], then
    [rows[0] || null]. *)
Definition getGoalById (db : Table) (id userId : Z) : option Goal :=
  match db !! id with
  | Some g => if Z.eqb (user_id g) userId then Some g else None
  | None => None
  end.

Definition no_fields (ch : Changes) : bool :=
  match c_title ch, c_note ch, c_due_at ch, c_completed ch, c_completed_at ch,
        c_priority ch, c_tags ch with
  | None, None, None, None, None, None, None => true
  | _, _, _, _, _, _, _ => false
  end.

Section Service.

Variable number_to_string : Q -> string.

(** The [SET] clause: every field that is not [undefined] is assigned. *)
Definition assign (ch : Changes) (g : Goal) : Goal :=
  {| user_id := user_id g;
     title := default (title g) (c_title ch);
     note := default (note g) (c_note ch);
     created_at := created_at g;
     due_at := default (due_at g) (c_due_at ch);
     completed := match c_completed ch with
                  | Some v => if truthy v then 1 else 0
                  | None => completed g
                  end;
     completed_at := default (completed_at g) (c_completed_at ch);
     priority := default (priority g) (c_priority ch);
     tags := match c_tags ch with
             | Some t => if truthy t then JStr (JSON_stringify number_to_string t) else JNull
             | None => tags g
             end |}.

(** [UPDATE goals SET ... WHERE id = ? AND user_id = ?]. *)
Definition sql_update (db : Table) (id userId : Z) (ch : Changes) : Table :=
  match db !! id with
  | Some g => if Z.eqb (user_id g) userId then <[id := assign ch g]> db else db
  | None => db
  end.

Definition updateGoal (db : Table) (id userId : Z) (ch : Changes) : Table * option Goal :=
  if no_fields ch then (db, getGoalById db id userId)
  else
    let db' := sql_update db id userId ch in
    (db', getGoalById db' id userId).

(** [DELETE FROM goals WHERE id = ? AND user_id = ?], then
    [affectedRows > 0]. *)
Definition deleteGoal (db : Table) (id userId : Z) : Table * bool :=
  match db !! id with
  | Some g => if Z.eqb (user_id g) userId then (delete id db, true) else (db, false)
  | None => (db, false)
  end.

(** [parseTagsValue] of the controller. *)
Definition parseTagsValue (raw : JsVal) : JsVal :=
  match raw with
  | JUndefined | JNull => JNull
  | JArr _ | JObj _ => raw
  | JStr text =>
      let parts :=
        List.filter nonempty (List.map trim (split_on (is_char ",") text)) in
      let fallback := match parts with
                      | [] => JNull
                      | _ => JArr (List.map JStr parts)
                      end in
      match JSON_parse text with
      | Some parsed =>
          match parsed with
          | JArr _ | JObj _ | JNull => parsed
          | _ => fallback
          end
      | None => fallback
      end
  | _ => JNull
  end.

Definition with_tags (g : Goal) (t : JsVal) : Goal :=
  {| user_id := user_id g; title := title g; note := note g; created_at := created_at g;
     due_at := due_at g; completed := completed g; completed_at := completed_at g;
     priority := priority g; tags := t |}.

(** The JSON bodies the controller sends. *)
Inductive Body : Type :=
| goal_body : Z -> Goal -> Body
| message_body : string -> Body
| deleted_body : Body.

(** [getOne]. *)
Definition getOne (db : Table) (userId id : Z) : Response Body :=
  match getGoalById db id userId with
  | None => mkResponse 404 (message_body "Not found")
  | Some goal => mkResponse 200 (goal_body id (with_tags goal (parseTagsValue (tags goal))))
  end.

(** [update]: the handler of [PUT /api/goals/:id]. *)
Definition update (db : Table) (userId id : Z) (reqBody : Changes) : Table * Response Body :=
  let payload :=
    {| c_title := c_title reqBody; c_note := c_note reqBody; c_due_at := c_due_at reqBody;
       c_completed := c_completed reqBody; c_completed_at := c_completed_at reqBody;
       c_priority := c_priority reqBody;
       c_tags := option_map parseTagsValue (c_tags reqBody) |} in
  let '(db', updated) := updateGoal db id userId payload in
  match updated with
  | None => (db', mkResponse 404 (message_body "Not found or not allowed"))
  | Some goal => (db', mkResponse 200 (goal_body id (with_tags goal (parseTagsValue (tags goal)))))
  end.

(** [remove]. *)
Definition remove (db : Table) (userId id : Z) : Table * Response Body :=
  let '(db', ok) := deleteGoal db id userId in
  if ok then (db', mkResponse 200 deleted_body)
  else (db', mkResponse 404 (message_body "Not found")).

(** [x || null] on a text that may be missing. *)
Definition or_null (s : option string) : option string :=
  match s with
  | Some t => if nonempty t then Some t else None
  | None => None
  end.

(** [createGoal(userId, { title, note, due_at, priority = 'medium',
    tags = null })]. [insertId] is the identifier [AUTO_INCREMENT]
    gives the new row and [now] its [created_at]; the columns
    [completed] and [completed_at] take their defaults. *)
Definition createGoal (db : Table) (insertId : Z) (now : string) (userId : Z) (title : string)
    (note due_at priority : option string) (tags : JsVal) : Table * option Goal :=
  let tagsJson := if truthy tags then JStr (JSON_stringify number_to_string tags) else JNull in
  let row := {| user_id := userId;
                title := title;
                note := or_null note;
                created_at := now;
                due_at := or_null due_at;
                completed := 0;
                completed_at := None;
                priority := default "medium" priority;
                tags := tagsJson |} in
  let db' := <[insertId := row]> db in
  (db', getGoalById db' insertId userId).

(** The body of [POST /api/goals]; [None] is a key that is absent,
    [JUndefined] an absent [tags]. *)
Record NewGoal : Type := mkNewGoal {
  n_title : option string;
  n_note : option string;
  n_due_at : option string;
  n_priority : option string;
  n_tags : JsVal
}.

(** [create]: the handler of [POST /api/goals]. *)
Definition create (db : Table) (insertId : Z) (now : string) (userId : Z) (reqBody : NewGoal)
    : Table * Response Body :=
  match or_null (n_title reqBody) with
  | None => (db, mkResponse 400 (message_body "Title is required"))
  | Some title =>
      let tags := parseTagsValue (n_tags reqBody) in
      let '(db', created) :=
        createGoal db insertId now userId title (n_note reqBody) (n_due_at reqBody)
                   (n_priority reqBody) tags in
      match created with
      | Some goal =>
          (db', mkResponse 201 (goal_body insertId (with_tags goal (parseTagsValue (Goals.tags goal)))))
      | None => (db', mkResponse 500 (message_body "Cannot set properties of null (setting 'tags')"))
      end
  end.

End Service.

End Goals.

(** ** [mood.service] *)

Module Mood.
Import Js.

(** A row of [mood_entries] without its primary key; a column is
    [None] when it holds [NULL]. *)
Record Row : Type := mkRow {
  user_id : Z;
  score : option Z;
  energy : option Z;
  intensity : option Z;
  emoji : option string;
  note : option string;
  date : option string;
  tags : JsVal;
  created_at : option string;
  updated_at : option string
}.

Abbreviation Table := (gmap string Row).

(** The body of [POST /api/mood/entries]. *)
Record Payload : Type := mkPayload {
  p_id : option string;
  p_score : JsVal;
  p_energy : JsVal;
  p_intensity : JsVal;
  p_emoji : option string;
  p_note : option string;
  p_date : option string;
  p_tags : JsVal
}.

(** The entry as sent to the frontend. *)
Record Entry : Type := mkEntry {
  e_id : string;
  e_score : Z;
  e_energy : Z;
  e_intensity : Z;
  e_emoji : option string;
  e_note : option string;
  e_date : option string;
  e_tags : list JsVal;
  e_createdAt : option string;
  e_updatedAt : option string
}.

(** The value the driver hands over for an integer column. *)
Definition column (c : option Z) : JsVal :=
  match c with
  | Some z => JNum (inject_Z z)
  | None => JNull
  end.

(** The tags of a row as an array: a text is parsed, a parse error and
    anything that is not an array give the empty array. *)
Definition read_tags (raw : JsVal) : list JsVal :=
  let tags :=
    if truthy raw then
      match raw with
      | JStr text => default (JArr []) (JSON_parse text)
      | other => other
      end
    else JArr [] in
  match tags with
  | JArr items => items
  | _ => []
  end.

Definition truthy_string (s : option string) : option string :=
  match s with
  | Some t => if nonempty t then Some t else None
  | None => None
  end.

Section Service.

(** Dates go through [Date]: [toISOString] of a text that is no date
    throws a [RangeError], which is [None] here. *)
Variable toMySQLDateTime_of : string -> option string.
Variable fromMySQLDateTime_of : string -> string.
Variable number_to_string : Q -> string.

Definition toMySQLDateTime (isoString : option string) : Result (option string) :=
  match truthy_string isoString with
  | None => Return None
  | Some iso =>
      match toMySQLDateTime_of iso with
      | Some d => Return (Some d)
      | None => Throw "RangeError: Invalid time value"
      end
  end.

Definition fromMySQLDateTime (mysqlDateTime : option string) : option string :=
  option_map fromMySQLDateTime_of (truthy_string mysqlDateTime).

Definition sanitizeEntry (entry : option (string * Row)) : option Entry :=
  match entry with
  | None => None
  | Some (id, row) =>
      Some {| e_id := id;
              e_score := or_int (parseInt (column (score row))) 1;
              e_energy := or_int (parseInt (column (energy row))) 3;
              e_intensity := or_int (parseInt (column (intensity row))) 3;
              e_emoji := emoji row;
              e_note := note row;
              e_date := fromMySQLDateTime (date row);
              e_tags := read_tags (tags row);
              e_createdAt := fromMySQLDateTime (created_at row);
              e_updatedAt := fromMySQLDateTime (updated_at row) |}
  end.

Definition getEntry (db : Table) (id : string) (userId : Z) : option Entry :=
  sanitizeEntry
    (match db !! id with
     | Some row => if Z.eqb (user_id row) userId then Some (id, row) else None
     | None => None
     end).

(** [createEntry(userId, payload)]. [fresh] is the identifier [genId]
    draws, [now] the time stamp the table gives the new row; inserting
    an identifier twice is an error of the database. *)
Definition createEntry (db : Table) (fresh now : string) (userId : Z) (payload : Payload)
    : Result (Table * option Entry) :=
  let entryId := default fresh (truthy_string (p_id payload)) in
  let tags := match p_tags payload with
              | JArr items => JStr (JSON_stringify number_to_string (JArr items))
              | _ => JNull
              end in
  date ← toMySQLDateTime (p_date payload);
  let row := {| user_id := userId;
                score := Some (or_int (parseInt (p_score payload)) 1);
                energy := Some (or_int (parseInt (p_energy payload)) 3);
                intensity := Some (or_int (parseInt (p_intensity payload)) 3);
                emoji := Some (default "😐" (truthy_string (p_emoji payload)));
                note := truthy_string (p_note payload);
                date := date;
                tags := tags;
                created_at := Some now;
                updated_at := None |} in
  match db !! entryId with
  | Some _ => Throw "ER_DUP_ENTRY"
  | None =>
      let db' := <[entryId := row]> db in
      Return (db', getEntry db' entryId userId)
  end.

(** The fields of an update; [None] is [undefined] (the key is absent),
    [Some None] is [null]. *)
Record Changes : Type := mkChanges {
  c_score : option JsVal;
  c_energy : option JsVal;
  c_intensity : option JsVal;
  c_emoji : option (option string);
  c_note : option (option string);
  c_date : option (option string);
  c_tags : option JsVal
}.

Definition no_fields (changes : Changes) : bool :=
  match c_score changes, c_energy changes, c_intensity changes, c_emoji changes,
        c_note changes, c_date changes, c_tags changes with
  | None, None, None, None, None, None, None => true
  | _, _, _, _, _, _, _ => false
  end.

(** What the table does to [updated_at] when a row is updated, given
    the row before and the row with the new values. *)
Variable on_update : Row -> Row -> option string.

(** The [SET] clause of [updateEntry]; [date'] is the converted date
    when the field is given. *)
Definition assign (changes : Changes) (date' : option (option string)) (row : Row) : Row :=
  {| user_id := user_id row;
     score := match c_score changes with
              | Some v => Some (or_int (parseInt v) 1)
              | None => score row
              end;
     energy := match c_energy changes with
               | Some v => Some (or_int (parseInt v) 3)
               | None => energy row
               end;
     intensity := match c_intensity changes with
                  | Some v => Some (or_int (parseInt v) 3)
                  | None => intensity row
                  end;
     emoji := default (emoji row) (c_emoji changes);
     note := match c_note changes with
             | Some n => truthy_string n
             | None => note row
             end;
     date := default (date row) date';
     tags := match c_tags changes with
             | Some (JArr items) => JStr (JSON_stringify number_to_string (JArr items))
             | Some _ => JNull
             | None => tags row
             end;
     created_at := created_at row;
     updated_at := updated_at row |}.

Definition stamp (old new : Row) : Row :=
  {| user_id := user_id new; score := score new; energy := energy new;
     intensity := intensity new; emoji := emoji new; note := note new; date := date new;
     tags := tags new; created_at := created_at new; updated_at := on_update old new |}.

(** [updateEntry(id, userId, changes)]: the parameters are computed
    first (the date may throw), then [UPDATE ... WHERE id = ? AND
    user_id = ?], then [affectedRows > 0 ? getEntry(id, userId) : null].
    [affectedRows] is taken to count the rows that the [WHERE] clause
    matches, as the driver reports them when it asks the server for
    found rows. *)
Definition updateEntry (db : Table) (id : string) (userId : Z) (changes : Changes)
    : Result (Table * option Entry) :=
  if no_fields changes then Return (db, getEntry db id userId)
  else
    date' ← match c_date changes with
            | Some d => d' ← toMySQLDateTime d; Return (Some d')
            | None => Return None
            end;
    match db !! id with
    | Some row =>
        if Z.eqb (user_id row) userId then
          let db' := <[id := stamp row (assign changes date' row)]> db in
          Return (db', getEntry db' id userId)
        else Return (db, None)
    | None => Return (db, None)
    end.

(** [DELETE FROM mood_entries WHERE id = ? AND user_id = ?], then
    [affectedRows > 0]. *)
Definition deleteEntry (db : Table) (id : string) (userId : Z) : Table * bool :=
  match db !! id with
  | Some row => if Z.eqb (user_id row) userId then (delete id db, true) else (db, false)
  | None => (db, false)
  end.

End Service.

End Mood.

(** ** The mood controller *)

Module MoodController.
Import Js Http.

(** The JSON bodies the controller sends. *)
Inductive Body : Type :=
| entry_body : option Mood.Entry -> Body
| message_body : string -> Body
| deleted_body : Body.

Section Controller.

Variable toMySQLDateTime_of : string -> option string.
Variable fromMySQLDateTime_of : string -> string.
Variable number_to_string : Q -> string.
Variable on_update : Mood.Row -> Mood.Row -> option string.

(** [getEntry]. *)
Definition getEntry (db : Mood.Table) (userId : Z) (id : string) : Response Body :=
  match Mood.getEntry fromMySQLDateTime_of db id userId with
  | None => mkResponse 404 (message_body "Entry not found")
  | Some entry => mkResponse 200 (entry_body (Some entry))
  end.

(** [createEntry]: the handler of [POST /api/mood/entries]. An error of
    the service is answered with status 500 and its message. *)
Definition createEntry (db : Mood.Table) (fresh now : string) (userId : Z) (body : Mood.Payload)
    : Mood.Table * Response Body :=
  if negb (truthy (Mood.p_score body)) || negb (bool_decide (is_Some (Mood.truthy_string (Mood.p_date body))))
  then (db, mkResponse 400 (message_body "Score and date are required"))
  else
    match Mood.createEntry toMySQLDateTime_of fromMySQLDateTime_of number_to_string
                           db fresh now userId body with
    | Return (db', created) => (db', mkResponse 201 (entry_body created))
    | Throw e => (db, mkResponse 500 (message_body e))
    end.

(** [updateEntry]: the handler of [PUT /api/mood/entries/:id]. *)
Definition updateEntry (db : Mood.Table) (userId : Z) (id : string) (changes : Mood.Changes)
    : Mood.Table * Response Body :=
  match Mood.updateEntry toMySQLDateTime_of fromMySQLDateTime_of number_to_string on_update
                         db id userId changes with
  | Return (db', None) => (db', mkResponse 404 (message_body "Entry not found"))
  | Return (db', Some updated) => (db', mkResponse 200 (entry_body (Some updated)))
  | Throw e => (db, mkResponse 500 (message_body e))
  end.

(** [deleteEntry]. *)
Definition deleteEntry (db : Mood.Table) (userId : Z) (id : string) : Mood.Table * Response Body :=
  let '(db', deleted) := Mood.deleteEntry db id userId in
  if deleted then (db', mkResponse 200 deleted_body)
  else (db', mkResponse 404 (message_body "Entry not found")).

End Controller.

End MoodController.

(** ** [meditation.service] *)

Module Meditation.
Import Js.

(** A row of [meditation_sessions] without its primary key. The
    sessions that come with the application have no owner: their
    [user_id] is [NULL]. The two time stamps are taken to behave as
    those of [journal_entries]: [created_at] is set when the row is
    inserted, [updated_at] is [NULL] until the table sets it. *)
Record SessionRow : Type := mkSessionRow {
  s_user_id : option Z;
  s_title : string;
  s_minutes : option Z;
  s_description : option string;
  s_custom : Z;
  s_created_at : option string;
  s_updated_at : option string
}.

Abbreviation Sessions := (gmap string SessionRow).

(** A session as sent to the frontend. *)
Record Session : Type := mkSession {
  id : string;
  title : string;
  minutes : Z;
  description : option string;
  custom : bool;
  userId : option Z;
  createdAt : option string;
  updatedAt : option string
}.

(** The argument of [createSession]: [JUndefined] is a key that is
    absent. *)
Record NewSession : Type := mkNewSession {
  n_id : option string;
  n_title : string;
  n_minutes : JsVal;
  n_description : option string;
  n_custom : JsVal
}.

(** The fields of an update of a session; [None] is [undefined]. *)
Record SessionChanges : Type := mkSessionChanges {
  c_title : option string;
  c_minutes : option JsVal;
  c_description : option (option string);
  c_custom : option JsVal
}.

Definition no_fields (changes : SessionChanges) : bool :=
  match c_title changes, c_minutes changes, c_description changes, c_custom changes with
  | None, None, None, None => true
  | _, _, _, _ => false
  end.

(** The comparison [user_id = ?] of SQL: it holds of no row when either
    side is [NULL]. *)
Definition sql_eq (column param : option Z) : bool :=
  match column, param with
  | Some a, Some b => Z.eqb a b
  | _, _ => false
  end.

(** [user_id IS NULL OR user_id = ?]. *)
Definition visible (row : SessionRow) (userId : option Z) : bool :=
  match s_user_id row with
  | None => true
  | Some _ => sql_eq (s_user_id row) userId
  end.

(** A row of [meditation_runs] without its primary key. *)
Record RunRow : Type := mkRunRow {
  r_user_id : Z;
  r_session_id : option string;
  r_session_title : option string;
  r_started_at : option string;
  r_ended_at : option string;
  r_planned_minutes : option Z;
  r_actual_seconds : option Z;
  r_completed : Z;
  r_note : option string;
  r_created_at : option string
}.

Abbreviation Runs := (gmap string RunRow).

(** A run as sent to the frontend. *)
Record Run : Type := mkRun {
  run_id : string;
  sessionId : option string;
  sessionTitle : option string;
  startedAt : option string;
  endedAt : option string;
  plannedMinutes : Z;
  actualSeconds : Z;
  completed : bool;
  note : option string;
  run_createdAt : option string
}.

(** The body of [POST /api/meditation/runs]. *)
Record NewRun : Type := mkNewRun {
  p_id : option string;
  p_session_id : option string;
  p_session_title : option string;
  p_started_at : option string;
  p_ended_at : option string;
  p_planned_minutes : JsVal;
  p_actual_seconds : JsVal;
  p_completed : JsVal;
  p_note : option string
}.

Section Service.

Variable toMySQLDateTime_of : string -> option string.
Variable fromMySQLDateTime_of : string -> string.

(** What the table does to [updated_at] when a session is updated. *)
Variable on_update : SessionRow -> SessionRow -> option string.

Definition toMySQLDateTime (isoString : option string) : Result (option string) :=
  Mood.toMySQLDateTime toMySQLDateTime_of isoString.

Definition fromMySQLDateTime (mysqlDateTime : option string) : option string :=
  Mood.fromMySQLDateTime fromMySQLDateTime_of mysqlDateTime.

Definition sanitizeSession (session : option (string * SessionRow)) : option Session :=
  match session with
  | None => None
  | Some (sessionId, row) =>
      Some {| id := sessionId;
              title := s_title row;
              minutes := or_int (parseInt (Mood.column (s_minutes row))) 0;
              description := s_description row;
              custom := negb (Z.eqb (s_custom row) 0);
              userId := s_user_id row;
              createdAt := fromMySQLDateTime (s_created_at row);
              updatedAt := fromMySQLDateTime (s_updated_at row) |}
  end.

(** [SELECT * FROM meditation_sessions WHERE id = ? AND (user_id IS NULL
    OR user_id = ?) LIMIT 1]. *)
Definition getSession (db : Sessions) (sessionId : string) (user : option Z) : option Session :=
  sanitizeSession
    (match db !! sessionId with
     | Some row => if visible row user then Some (sessionId, row) else None
     | None => None
     end).

(** [createSession(userId, { id, title, minutes = 10, description = null,
    custom = 1 })]. [fresh] is the identifier [genId] draws and [now]
    the time stamp the table gives the new row; inserting an identifier
    twice is an error of the database. *)
Definition createSession (db : Sessions) (fresh now : string) (user : option Z)
    (payload : NewSession) : Result (Sessions * option Session) :=
  let sessionId := default fresh (Mood.truthy_string (n_id payload)) in
  let minutes := match n_minutes payload with JUndefined => JNum 10 | v => v end in
  let numMinutes := or_int (parseInt minutes) 10 in
  let custom := match n_custom payload with JUndefined => JNum 1 | v => v end in
  let row := {| s_user_id := user;
                s_title := n_title payload;
                s_minutes := Some numMinutes;
                s_description := n_description payload;
                s_custom := if truthy custom then 1 else 0;
                s_created_at := Some now;
                s_updated_at := None |} in
  match db !! sessionId with
  | Some _ => Throw "ER_DUP_ENTRY"
  | None =>
      let db' := <[sessionId := row]> db in
      Return (db', getSession db' sessionId user)
  end.

(** The [SET] clause of [updateSession]. *)
Definition assign (changes : SessionChanges) (row : SessionRow) : SessionRow :=
  {| s_user_id := s_user_id row;
     s_title := default (s_title row) (c_title changes);
     s_minutes := match c_minutes changes with
                  | Some v => Some (or_int (parseInt v) 0)
                  | None => s_minutes row
                  end;
     s_description := default (s_description row) (c_description changes);
     s_custom := match c_custom changes with
                 | Some v => if truthy v then 1 else 0
                 | None => s_custom row
                 end;
     s_created_at := s_created_at row;
     s_updated_at := s_updated_at row |}.

Definition stamp (old new : SessionRow) : SessionRow :=
  {| s_user_id := s_user_id new; s_title := s_title new; s_minutes := s_minutes new;
     s_description := s_description new; s_custom := s_custom new;
     s_created_at := s_created_at new; s_updated_at := on_update old new |}.

(** [updateSession]: [UPDATE meditation_sessions SET ... WHERE id = ?
    AND user_id = ?], then [affectedRows > 0 ? getSession(id, userId) :
    null]. *)
Definition updateSession (db : Sessions) (sessionId : string) (user : option Z)
    (changes : SessionChanges) : Sessions * option Session :=
  if no_fields changes then (db, getSession db sessionId user)
  else
    match db !! sessionId with
    | Some row =>
        if sql_eq (s_user_id row) user then
          let db' := <[sessionId := stamp row (assign changes row)]> db in
          (db', getSession db' sessionId user)
        else (db, None)
    | None => (db, None)
    end.

(** [DELETE FROM meditation_sessions WHERE id = ? AND user_id = ?]. *)
Definition deleteSession (db : Sessions) (sessionId : string) (user : option Z) : Sessions * bool :=
  match db !! sessionId with
  | Some row => if sql_eq (s_user_id row) user then (delete sessionId db, true) else (db, false)
  | None => (db, false)
  end.

Definition sanitizeRun (run : option (string * RunRow)) : option Run :=
  match run with
  | None => None
  | Some (runId, row) =>
      Some {| run_id := runId;
              sessionId := r_session_id row;
              sessionTitle := r_session_title row;
              startedAt := fromMySQLDateTime (r_started_at row);
              endedAt := fromMySQLDateTime (r_ended_at row);
              plannedMinutes := or_int (parseInt (Mood.column (r_planned_minutes row))) 0;
              actualSeconds := or_int (parseInt (Mood.column (r_actual_seconds row))) 0;
              completed := negb (Z.eqb (r_completed row) 0);
              note := r_note row;
              run_createdAt := fromMySQLDateTime (r_created_at row) |}
  end.

(** [SELECT * FROM meditation_runs WHERE id = ? AND user_id = ? LIMIT 1]. *)
Definition getRun (db : Runs) (runId : string) (user : Z) : option Run :=
  sanitizeRun
    (match db !! runId with
     | Some row => if Z.eqb (r_user_id row) user then Some (runId, row) else None
     | None => None
     end).

(** [createRun(userId, payload)]: the two dates are converted first
    (either may throw). [fresh] is the identifier [genId] draws and
    [now] the [created_at] the table gives the new row. *)
Definition createRun (db : Runs) (fresh now : string) (user : Z) (payload : NewRun)
    : Result (Runs * option Run) :=
  let runId := default fresh (Mood.truthy_string (p_id payload)) in
  started ← toMySQLDateTime (p_started_at payload);
  ended ← toMySQLDateTime (p_ended_at payload);
  let row := {| r_user_id := user;
                r_session_id := Mood.truthy_string (p_session_id payload);
                r_session_title := Mood.truthy_string (p_session_title payload);
                r_started_at := started;
                r_ended_at := ended;
                r_planned_minutes := Some (or_int (parseInt (p_planned_minutes payload)) 0);
                r_actual_seconds := Some (or_int (parseInt (p_actual_seconds payload)) 0);
                r_completed := if truthy (p_completed payload) then 1 else 0;
                r_note := Mood.truthy_string (p_note payload);
                r_created_at := Some now |} in
  match db !! runId with
  | Some _ => Throw "ER_DUP_ENTRY"
  | None =>
      let db' := <[runId := row]> db in
      Return (db', getRun db' runId user)
  end.

(** [DELETE FROM meditation_runs WHERE id = ? AND user_id = ?]. *)
Definition deleteRun (db : Runs) (runId : string) (user : Z) : Runs * bool :=
  match db !! runId with
  | Some row => if Z.eqb (r_user_id row) user then (delete runId db, true) else (db, false)
  | None => (db, false)
  end.

End Service.

End Meditation.

(** ** [journal.service] *)

Module Journal.
Import Js.

Record Row : Type := mkRow {
  user_id : Z;
  mood : string;
  text : string;
  tags : JsVal;
  summary : option string;
  sentiment : option string;
  created_at : option string;
  updated_at : option string
}.

Record Entry : Type := mkEntry {
  e_id : string;
  e_mood : string;
  e_text : string;
  e_tags : list JsVal;
  e_summary : option string;
  e_sentiment : option string;
  e_createdAt : option string;
  e_updatedAt : option string
}.

(** A property of an object literal read with a computed key: a
    property of its own, a member inherited from [Object.prototype], or
    [undefined]. *)
Inductive Lookup : Type :=
| Own : string -> Lookup
| Inherited : Lookup
| Missing : Lookup.

Definition Object_prototype : list string :=
  ["constructor"; "__defineGetter__"; "__defineSetter__"; "hasOwnProperty"; "__lookupGetter__";
   "__lookupSetter__"; "isPrototypeOf"; "propertyIsEnumerable"; "toString"; "valueOf";
   "__proto__"; "toLocaleString"].

(** [MOOD_MAP[key]]. *)
Definition MOOD_MAP (key : string) : Lookup :=
  if String.eqb key "😊" then Own "happy"
  else if String.eqb key "😐" then Own "neutral"
  else if String.eqb key "😔" then Own "sad"
  else if existsb (String.eqb key) Object_prototype then Inherited
  else Missing.

(** [MOOD_MAP[payload.mood] || 'happy'], the parameter for the column
    [mood] in [createEntry] and [updateEntry]; a missing mood is the key
    [undefined]. An inherited member is truthy and no text: [None]. *)
Definition dbMood (mood : option string) : option string :=
  match MOOD_MAP (default "undefined" mood) with
  | Own text => Some text
  | Inherited => None
  | Missing => Some "happy"
  end.

(** [MOOD_REVERSE_MAP[mood] || happy]. *)
Definition mood_emoji (mood : string) : string :=
  if String.eqb mood "happy" then "😊"
  else if String.eqb mood "neutral" then "😐"
  else if String.eqb mood "sad" then "😔"
  else "😊".

Section Service.

Variable fromMySQLDateTime_of : string -> string.

Definition fromMySQLDateTime (mysqlDateTime : option string) : option string :=
  option_map fromMySQLDateTime_of (Mood.truthy_string mysqlDateTime).

Definition sanitizeEntry (entry : option (string * Row)) : option Entry :=
  match entry with
  | None => None
  | Some (id, row) =>
      let tags :=
        if truthy (tags row) then
          match tags row with
          | JStr text => default (JArr []) (JSON_parse text)
          | other => other
          end
        else JArr [] in
      Some {| e_id := id;
              e_mood := mood_emoji (mood row);
              e_text := text row;
              e_tags := match tags with JArr items => items | _ => [] end;
              e_summary := summary row;
              e_sentiment := sentiment row;
              e_createdAt := fromMySQLDateTime (created_at row);
              e_updatedAt := fromMySQLDateTime (updated_at row) |}
  end.

End Service.

End Journal.

(** ** [dashboard.service]: statistics *)

Module Dashboard.
Import Js.

(** The priorities: the column [priority ENUM('low','medium','high')]
    of the table [goals], the type ['low' | 'medium' | 'high'] of the
    goals page. *)
Inductive Priority : Type := low | medium | high.

(** A goal as the dashboard sees it. [completed] is the truthiness of
    the field ([getGoals] turns the column into a boolean); [priority]
    is one of the three values of the column, or [None] when the field
    is missing or empty. [calculateStats] uses the priority as the key
    of one of its three counters, so the statistics are those of goals
    of this type. *)
Record Goal : Type := mkGoal {
  title : string;
  completed : bool;
  priority : option Priority
}.

(** A mood entry. The score is an integer, as [createEntry] of the
    mood service writes it ([parseInt]) and [getMoods] reads it; it is
    [None] when the field is missing. *)
Record Mood : Type := mkMood {
  score : option Z
}.

Record MedRun : Type := mkMedRun {
  sessionTitle : option string;
  actualSeconds : option Z;
  actual_seconds : option Z
}.

Record JournalEntry : Type := mkJournalEntry {
  entry_summary : option string
}.

Record Bucket : Type := mkBucket {
  open : nat;
  done : nat
}.

Record ByPriority : Type := mkByPriority {
  bp_low : Bucket;
  bp_medium : Bucket;
  bp_high : Bucket
}.

Record Stats : Type := mkStats {
  totalGoals : nat;
  completedGoals : nat;
  openGoals : nat;
  avgMood : Num;
  totalMedMinutes : Z;
  totalMedSessions : nat;
  journalCount : nat;
  journalWithSummary : nat;
  moodCounts : list nat;
  goalsByPriority : ByPriority;
  completionRate : Z
}.

(** [moods.reduce((sum, m) => sum + m.score, 0)]: a missing score turns
    the sum into [NaN]. *)
Definition add_score (sum : Num) (m : Mood) : Num :=
  match sum, score m with
  | Fin s, Some v => Fin (s + inject_Z v)
  | _, _ => NaN
  end.

Definition avg_of (moods : option (list Mood)) : Num :=
  match moods with
  | Some (m :: ms) =>
      match foldl add_score (Fin 0) (m :: ms) with
      | Fin s => Fin (s / inject_Z (Z.of_nat (length (m :: ms))))
      | NaN => NaN
      end
  | _ => Fin 0
  end.

(** [Math.round((r.actualSeconds || r.actual_seconds || 0) / 60)]. *)
Definition run_minutes (r : MedRun) : Z :=
  Math_round (inject_Z (or_int (actualSeconds r) (or_int (actual_seconds r) 0)) / 60).

Definition sum_minutes (medRuns : option (list MedRun)) : Z :=
  match medRuns with
  | Some rs => foldl (fun sum r => sum + run_minutes r) 0 rs
  | None => 0
  end.

(** [Math.max(0, Math.min(4, (m.score || 1) - 1))]. *)
Definition bucket_index (m : Mood) : nat :=
  Z.to_nat (Z.max 0 (Z.min 4 (or_int (score m) 1 - 1))).

(** [moodCounts[idx] += 1]; the index is always one of the five slots. *)
Definition bump (counts : list nat) (idx : nat) : list nat :=
  match counts !! idx with
  | Some c => <[idx := (c + 1)%nat]> counts
  | None => counts
  end.

Definition count_moods (moods : option (list Mood)) : list nat :=
  match moods with
  | Some ms => foldl (fun counts m => bump counts (bucket_index m)) [0; 0; 0; 0; 0]%nat ms
  | None => [0; 0; 0; 0; 0]%nat
  end.

Definition bump_open (b : Bucket) : Bucket := mkBucket (open b + 1) (done b).
Definition bump_done (b : Bucket) : Bucket := mkBucket (open b) (done b + 1).

Definition tally (acc : ByPriority) (g : Goal) : ByPriority :=
  let f := if completed g then bump_done else bump_open in
  match default medium (priority g) with
  | low => mkByPriority (f (bp_low acc)) (bp_medium acc) (bp_high acc)
  | medium => mkByPriority (bp_low acc) (f (bp_medium acc)) (bp_high acc)
  | high => mkByPriority (bp_low acc) (bp_medium acc) (f (bp_high acc))
  end.

Definition by_priority (goals : option (list Goal)) : ByPriority :=
  let zero := mkBucket 0 0 in
  match goals with
  | Some gs => foldl tally (mkByPriority zero zero zero) gs
  | None => mkByPriority zero zero zero
  end.

Definition has_summary (j : JournalEntry) : bool :=
  match entry_summary j with
  | Some s => nonempty s
  | None => false
  end.

Definition round1 (n : Num) : Num :=
  match n with
  | NaN => NaN
  | Fin q => Fin (inject_Z (Math_round (q * 10)) / 10)
  end.

Definition calculateStats (goals : option (list Goal)) (moods : option (list Mood))
    (medRuns : option (list MedRun)) (journalEntries : option (list JournalEntry)) : Stats :=
  let totalGoals := length_or_0 goals in
  let completedGoals := count_or_0 completed goals in
  {| totalGoals := totalGoals;
     completedGoals := completedGoals;
     openGoals := totalGoals - completedGoals;
     avgMood := round1 (avg_of moods);
     totalMedMinutes := sum_minutes medRuns;
     totalMedSessions := length_or_0 medRuns;
     journalCount := length_or_0 journalEntries;
     journalWithSummary := count_or_0 has_summary journalEntries;
     moodCounts := count_moods moods;
     goalsByPriority := by_priority goals;
     completionRate :=
       if (0 <? totalGoals)%nat
       then Math_round (inject_Z (Z.of_nat completedGoals) / inject_Z (Z.of_nat totalGoals) * 100)
       else 0 |}.

(** ** [dashboard.service]: reading journal entries and goal tags *)

(** A journal entry as [getJournalEntries] maps it. *)
Record JournalView : Type := mkJournalView {
  v_id : string;
  v_mood : string;
  v_text : string;
  v_tags : JsVal;
  v_summary : option string;
  v_sentiment : option string;
  v_createdAt : option string;
  v_updatedAt : option string
}.

(** The callback of [rows.map] in [getJournalEntries]: [JSON.parse]
    is not guarded here. *)
Definition journal_view (entry : string * Journal.Row) : Result JournalView :=
  let '(id, row) := entry in
  tags ← (if truthy (Journal.tags row) then
            match Journal.tags row with
            | JStr text => JSON_parse_result text
            | other => Return other
            end
          else Return (JArr []));
  Return {| v_id := id;
            v_mood := Journal.mood row;
            v_text := Journal.text row;
            v_tags := tags;
            v_summary := Journal.summary row;
            v_sentiment := Journal.sentiment row;
            v_createdAt := Journal.created_at row;
            v_updatedAt := Journal.updated_at row |}.

(** [rows.map(f)] for a callback that may throw: the first exception
    ends the loop. *)
Fixpoint map_result {A B} (f : A -> Result B) (rows : list A) : Result (list B) :=
  match rows with
  | [] => Return []
  | x :: rest =>
      y ← f x;
      ys ← map_result f rest;
      Return (y :: ys)
  end.

(** [getJournalEntries]; [query] is the outcome of [pool.query], the
    rows of the user, newest first, at most twenty. *)
Definition getJournalEntries (query : Result (list (string * Journal.Row))) : list JournalView :=
  match (rows ← query; map_result journal_view rows) with
  | Return views => views
  | Throw _ => []
  end.

(** The [tags] of a goal in [getGoals], where the parse is guarded. *)
Definition goal_tags (raw : JsVal) : JsVal :=
  if truthy raw then
    match raw with
    | JStr text => default (JArr []) (JSON_parse text)
    | other => other
    end
  else JArr [].

(** [getMoods]; [query] is the outcome of [pool.query], the rows of the
    user. [Number(mood.score) || 0] turns a missing score into 0. *)
Definition getMoods (query : Result (list (string * Mood.Row))) : list Mood :=
  match query with
  | Return rows => List.map (fun entry => mkMood (Some (or_int (Mood.score (snd entry)) 0))) rows
  | Throw _ => []
  end.

(** [getMeditationRuns]: of the names the mapping tries for a field, a
    row of the table has the one of its column. *)
Definition getMeditationRuns (query : Result (list (string * Meditation.RunRow))) : list MedRun :=
  match query with
  | Return rows =>
      List.map (fun run =>
                  let seconds := or_int (Meditation.r_actual_seconds (snd run)) 0 in
                  {| sessionTitle := Mood.truthy_string (Meditation.r_session_title (snd run));
                     actualSeconds := Some seconds;
                     actual_seconds := Some seconds |}) rows
  | Throw _ => []
  end.

(** ** [dashboard.service]: AI analysis *)

(** The argument of [generateAIAnalysis]; the controller passes no
    [journalEntries]. *)
Record Data : Type := mkData {
  goals : option (list Goal);
  moods : option (list Mood);
  medRuns : option (list MedRun);
  journalEntries : option (list JournalEntry)
}.

(** What [parseAIAnalysis] and [extractInsightsManually] return. *)
Record Parsed : Type := mkParsed {
  p_summary : JsVal;
  p_suggestions : list JsVal;
  p_insights : JsVal;
  p_confidence : JsVal
}.

(** What [generateAIAnalysis] returns. *)
Record AnalysisResult : Type := mkAnalysisResult {
  summary : JsVal;
  suggestions : list JsVal;
  insights : JsVal;
  provider : JsVal;
  confidence : JsVal;
  generatedAt : string
}.

Definition nl : string := String "010" "".
Definition quoted (s : string) : string := dq +:+ s +:+ dq.

(** [a.join(', ') || 'None']. *)
Definition join_or_None (pieces : list string) : string :=
  let joined := String.concat ", " pieces in
  if nonempty joined then joined else "None".

Definition show_score (m : Mood) : string :=
  match score m with
  | Some v => show_int v
  | None => EmptyString
  end.

Definition default_list {A} (l : option (list A)) : list A := default [] l.

Definition defaultSuggestions : list JsVal :=
  [JStr "Continue your current tracking habits";
   JStr "Set specific, measurable goals";
   JStr "Maintain regular meditation practice";
   JStr "Review your progress weekly"].

Definition insights_of (mood_trend goal_progress : string) (mindfulness : JsVal) : JsVal :=
  JObj [("mood_trend", JStr mood_trend); ("goal_progress", JStr goal_progress);
        ("mindfulness", mindfulness)].

(** [extractInsightsManually(text)]: [text.toLowerCase()] throws when
    the argument is not a string. *)
Definition extractInsightsManually (text : JsVal) : Result Parsed :=
  lowerText ← DeepSeek.call_toLowerCase text;
  let summary :=
    if includes lowerText "progress" || includes lowerText "improvement"
    then "Your wellness journey demonstrates positive progress and consistent engagement with your goals."
    else if includes lowerText "challenge" || includes lowerText "difficult"
    then "Your data reveals some challenges, but also shows commitment to tracking and self-improvement."
    else "Your wellness data shows active engagement across goals, mood tracking, and mindfulness practices." in
  Return {| p_summary := JStr summary;
            p_suggestions :=
              [JStr "Review your goal completion patterns for insights";
               JStr "Consider increasing meditation frequency if possible";
               JStr "Track mood patterns to identify triggers";
               JStr "Celebrate your progress and maintain consistency"];
            p_insights := insights_of "stable" "good" (JStr "consistent");
            p_confidence := JStr "medium" |}.

Definition generateFallbackAnalysis (data : Data) (now : string) : AnalysisResult :=
  let stats := calculateStats (goals data) (moods data) (medRuns data) (journalEntries data) in
  let summary :=
    "You've been actively tracking your wellness with " +:+ show_nat (totalGoals stats)
    +:+ " goals, " +:+ show_nat (length_or_0 (moods data)) +:+ " mood entries, and "
    +:+ show_nat (totalMedSessions stats) +:+ " meditation sessions. "
    +:+ (if 70 <? completionRate stats
         then "Your goal completion rate is excellent, showing strong commitment to your objectives."
         else if 40 <? completionRate stats
         then "You're making good progress on your goals with room for continued growth."
         else "Consider reviewing your goals to ensure they're achievable and aligned with your priorities.") in
  let s1 := if (5 <? openGoals stats)%nat
            then [JStr "Focus on completing existing goals before adding new ones"] else [] in
  let s2 := if num_lt (avgMood stats) (35 # 10)
            then s1 ++ [JStr "Consider mood-boosting activities like exercise or social connection"]
            else s1 in
  let s3 := if (totalMedSessions stats <? 5)%nat
            then s2 ++ [JStr "Try incorporating more regular meditation sessions"]
            else if totalMedMinutes stats <? 60
            then s2 ++ [JStr "Consider longer meditation sessions for deeper practice"]
            else s2 in
  let s4 := if (length s3 <? 3)%nat
            then s3 ++ [JStr "Continue your consistent tracking habits";
                        JStr "Set weekly review times to assess progress";
                        JStr "Celebrate small wins along your wellness journey"]
            else s3 in
  {| summary := JStr summary;
     suggestions := take 4 s4;
     insights :=
       insights_of
         (if num_gt (avgMood stats) (35 # 10) then "positive"
          else if num_gt (avgMood stats) (25 # 10) then "stable" else "needs_attention")
         (if 60 <? completionRate stats then "excellent"
          else if 30 <? completionRate stats then "good" else "needs_focus")
         (JStr (if (10 <? totalMedSessions stats)%nat then "consistent"
                else if (3 <? totalMedSessions stats)%nat then "developing" else "beginning"));
     provider := JStr "fallback";
     confidence := JStr "medium";
     generatedAt := now |}.

Section Analysis.

(** Two coercions of the language are left open, since nothing below
    depends on them: the rendering of a number as a string, and the
    comparison [v > n] of an arbitrary value with a number. *)
Variable number_to_string : Q -> string.
Variable greater_than : JsVal -> Q -> bool.

Definition show_num (n : Num) : string :=
  match n with
  | NaN => "NaN"
  | Fin q => number_to_string q
  end.

Definition show_run (m : MedRun) : string :=
  (match sessionTitle m with
   | Some t => if nonempty t then t else "Session"
   | None => "Session"
   end)
  +:+ " (" +:+ show_int (Math_round (inject_Z (or_int (actualSeconds m) 0) / 60)) +:+ "min)".

Definition buildAnalysisPrompt (goals : option (list Goal)) (moods : option (list Mood))
    (medRuns : option (list MedRun)) (journalEntries : option (list JournalEntry)) : string :=
  let stats := calculateStats goals moods medRuns journalEntries in
  let recentMoods := take 7 (default_list moods) in
  let recentGoals := take 5 (default_list goals) in
  let recentMed := take 3 (default_list medRuns) in
  let prio := goalsByPriority stats in
  let total b := show_nat (open b + done b) in
  let count i := show_nat (List.nth i (moodCounts stats) 0%nat) in
  String.concat "" [
    "Please analyze this user's wellness data and provide insights in this exact JSON format:"; nl;
    nl;
    "{"; nl;
    "  "; quoted "summary"; ": ";
      quoted "2-3 sentence overall analysis of their wellness journey and current patterns"; ","; nl;
    "  "; quoted "suggestions"; ": ["; quoted "suggestion 1"; ", "; quoted "suggestion 2"; ", ";
      quoted "suggestion 3"; "],"; nl;
    "  "; quoted "insights"; ": {"; nl;
    "    "; quoted "mood_trend"; ": "; quoted "improving/stable/declining"; ","; nl;
    "    "; quoted "goal_progress"; ": "; quoted "excellent/good/needs_focus"; ","; nl;
    "    "; quoted "mindfulness"; ": "; quoted "consistent/sporadic/beginning"; nl;
    "  }"; nl;
    "}"; nl;
    nl;
    "User Data Analysis:"; nl;
    "- Goals: "; show_nat (totalGoals stats); " total, "; show_nat (completedGoals stats);
      " completed ("; show_int (completionRate stats); "% completion rate)"; nl;
    "- Priority breakdown: "; total (bp_high prio); " high, "; total (bp_medium prio); " medium, ";
      total (bp_low prio); " low priority goals"; nl;
    "- Recent goal titles: "; join_or_None (List.map title recentGoals); nl;
    nl;
    "- Mood tracking: "; show_nat (length_or_0 moods); " entries, average score ";
      show_num (avgMood stats); "/5"; nl;
    "- Recent mood scores: "; join_or_None (List.map show_score recentMoods); nl;
    "- Mood distribution: Score 1="; count 0%nat; ", 2="; count 1%nat; ", 3="; count 2%nat;
      ", 4="; count 3%nat; ", 5="; count 4%nat; nl;
    nl;
    "- Meditation: "; show_nat (totalMedSessions stats); " sessions, ";
      show_int (totalMedMinutes stats); " total minutes"; nl;
    "- Recent sessions: "; join_or_None (List.map show_run recentMed); nl;
    nl;
    "- Journal entries: "; show_nat (journalCount stats); " total, ";
      show_nat (journalWithSummary stats); " with AI summaries"; nl;
    nl;
    "Focus on patterns, progress, and actionable suggestions. Respond with only the JSON:" ].

(** The body of the [try] in [parseAIAnalysis]. *)
Definition parseAIAnalysis_try (aiResponse : JsVal) : Result Parsed :=
  parsed ← (if is_object aiResponse then Return aiResponse
            else match aiResponse with
                 | JStr text =>
                     match JSON_parse text with
                     | Some v => Return v
                     | None =>
                         let cleaned := trim (strip_fences text) in
                         match match_braces cleaned with
                         | Some jsonMatch => JSON_parse_result jsonMatch
                         | None => Throw "No valid JSON found in AI response"
                         end
                     end
                 | _ => Throw "Unsupported AI response type"
                 end);
  p_sum ← get parsed "summary";
  p_sug ← get parsed "suggestions";
  p_ins ← get parsed "insights";
  p_sent ← get parsed "sentiment";
  p_rate ← get parsed "completionRate";
  p_mind ← get parsed "mindfulness";
  p_conf ← get parsed "confidence";
  let summary :=
    or_else p_sum
      (JStr "Your wellness journey shows consistent engagement across multiple areas.") in
  let suggestions :=
    match p_sug with
    | JArr items => take 4 items
    | other => if truthy other then take 4 [other] else defaultSuggestions
    end in
  let insights :=
    or_else p_ins
      (insights_of
         (match p_sent with
          | JStr "positive" => "improving"
          | JStr "negative" => "declining"
          | _ => "stable"
          end)
         (if truthy p_rate
          then (if greater_than p_rate 60 then "excellent"
                else if greater_than p_rate 30 then "good" else "needs_focus")
          else "good")
         (or_else p_mind (JStr "consistent"))) in
  Return {| p_summary := summary;
            p_suggestions := suggestions;
            p_insights := insights;
            p_confidence := or_else p_conf (JStr "high") |}.

Definition parseAIAnalysis (aiResponse : JsVal) : Result Parsed :=
  try_catch (parseAIAnalysis_try aiResponse) (fun _ => extractInsightsManually aiResponse).

(** The options of the dashboard's request: no [retries]. *)
Definition analysisOptions : DeepSeek.Options := DeepSeek.mkOptions None.

(** The part of the [try] in [generateAIAnalysis] that follows the
    answer of the summary service. *)
Definition analyse (result : DeepSeek.SummaryResult) (now : string) : Result AnalysisResult :=
  if DeepSeek.success result && truthy (DeepSeek.summary result) then
    let aiPayload :=
      if is_object (DeepSeek.summary result) then DeepSeek.summary result
      else match DeepSeek.summary result with
           | JStr text =>
               match JSON_parse text with
               | Some v => v
               | None =>
                   JObj [("summary", JStr text);
                         ("sentiment", or_else (JStr (DeepSeek.sentiment result)) JNull);
                         ("providerMeta", JNull)]
               end
           | other => JObj [("summary", JStr (to_String number_to_string other))]
           end in
    parsed ← parseAIAnalysis aiPayload;
    Return {| summary := p_summary parsed;
              suggestions := p_suggestions parsed;
              insights := p_insights parsed;
              provider := or_else (JStr (DeepSeek.provider result)) (JStr "deepseek");
              confidence := or_else (p_confidence parsed) (JStr "medium");
              generatedAt := now |}
  else Throw (default "AI analysis failed" (DeepSeek.error result)).

(** The body of the [try] in [generateAIAnalysis]. *)
Definition generateAIAnalysis_try (env : DeepSeek.Env) (svc : DeepSeek.Service) (data : Data)
    (now : string) : Result AnalysisResult :=
  let analysisPrompt :=
    buildAnalysisPrompt (goals data) (moods data) (medRuns data) (journalEntries data) in
  let result := DeepSeek.generateSummary number_to_string env svc analysisPrompt analysisOptions in
  analyse result now.

Definition generateAIAnalysis (env : DeepSeek.Env) (svc : DeepSeek.Service) (data : Data)
    (now : string) : Result AnalysisResult :=
  try_catch (generateAIAnalysis_try env svc data now)
            (fun _ => Return (generateFallbackAnalysis data now)).

End Analysis.

End Dashboard.

(** ** [auth.service] and the auth controller *)

Module Auth.
Import Js Http.

(** A row of [users] as the driver returns it for [SELECT *]: an object
    with one property per column. *)
Definition User : Type := list (string * JsVal).

(** The table with its [AUTO_INCREMENT] counter. *)
Record Db : Type := mkDb {
  rows : list User;
  auto_increment : Z
}.

(** Strict equality of two values read from a row or a request, for
    the primitive values that are compared. *)
Definition same (a b : JsVal) : bool :=
  match a, b with
  | JStr x, JStr y => String.eqb x y
  | JNum x, JNum y => Qeq_bool x y
  | _, _ => false
  end.

(** [SELECT * FROM users WHERE email = ?], then [rows[0] || null]; the
    comparison of the column is taken to be equality. *)
Definition findUserByEmail (db : Db) (email : string) : option User :=
  List.find (fun u => same (lookup_prop "email" u) (JStr email)) (rows db).

Definition findUserById (db : Db) (id : JsVal) : option User :=
  List.find (fun u => same (lookup_prop "id" u) id) (rows db).

(** [const { password_hash, ...rest } = user; return rest]. *)
Definition sanitizeUser (user : option User) : option User :=
  match user with
  | None => None
  | Some u => Some (List.filter (fun kv => negb (String.eqb (fst kv) "password_hash")) u)
  end.

Definition user_json (user : option User) : JsVal :=
  match user with
  | Some u => JObj u
  | None => JNull
  end.

(** The body of a request to [register] or [login]. *)
Record Credentials : Type := mkCredentials {
  name : option string;
  email : option string;
  password : option string
}.

Definition given (s : option string) : option string := Mood.truthy_string s.

(** What the auth middleware reads of a request: the two spellings of
    the header it tries, and the cookie [token]. *)
Record Request : Type := mkRequest {
  authorization : option string;
  Authorization : option string;
  cookie_token : option string
}.

Section Controller.

(** The libraries: [bcrypt.hash], [bcrypt.compare], [jwt.sign] of the
    payload [{ id, email }], and the columns the table fills in by
    itself. *)
Variable bcrypt_hash : string -> string.
Variable bcrypt_compare : string -> JsVal -> Result bool.
Variable jwt_sign : JsVal -> JsVal -> string.
Variable column_defaults : list (string * JsVal).

Definition createUser (db : Db) (name email password : string) : Db * option User :=
  let password_hash := bcrypt_hash password in
  let userId := auto_increment db in
  let row := column_defaults
             ++ [("id", JNum (inject_Z userId)); ("name", JStr name); ("email", JStr email);
                 ("password_hash", JStr password_hash)] in
  let db' := {| rows := rows db ++ [row]; auto_increment := userId + 1 |} in
  (db', findUserById db' (JNum (inject_Z userId))).

Definition verifyPassword (user : User) (plain : string) : Result bool :=
  bcrypt_compare plain (lookup_prop "password_hash" user).

(** [generateJwt(user)] reads [user.id] and [user.email]. *)
Definition generateJwt (user : option User) : Result string :=
  match user with
  | None => Throw "TypeError: cannot read properties of null"
  | Some u => Return (jwt_sign (lookup_prop "id" u) (lookup_prop "email" u))
  end.

Definition Body : Type := list (string * JsVal).

Definition message (code : Z) (text : string) : Response Body :=
  mkResponse code [("message", JStr text)].

(** The [catch] of a handler: status 500 with the message of the error
    (outside production). *)
Definition guarded {S} (db : S) (r : Result (S * Response Body)) : S * Response Body :=
  match r with
  | Return out => out
  | Throw e => (db, message 500 e)
  end.

Definition register (db : Db) (req : Credentials) : Db * Response Body :=
  match given (name req), given (email req), given (password req) with
  | Some name, Some email, Some password =>
      match findUserByEmail db email with
      | Some _ => (db, message 409 "Email already in use")
      | None =>
          let '(db', user) := createUser db name email password in
          guarded db'
            (jwt ← generateJwt user;
             Return (db', mkResponse 201 [("message", JStr "registered"); ("token", JStr jwt);
                                          ("user", user_json (sanitizeUser user))]))
      end
  | _, _, _ => (db, message 400 "Missing fields")
  end.

Definition login (db : Db) (req : Credentials) : Response Body :=
  match given (email req), given (password req) with
  | Some email, Some password =>
      match findUserByEmail db email with
      | None => message 401 "Invalid credentials"
      | Some user =>
          snd (guarded tt
                 (ok ← verifyPassword user password;
                  if ok : bool then
                    jwt ← generateJwt (Some user);
                    Return (tt, mkResponse 200 [("token", JStr jwt);
                                                ("user", user_json (sanitizeUser (Some user)))])
                  else Return (tt, message 401 "Invalid credentials")))
      end
  | _, _ => message 400 "Missing fields"
  end.

(** [me]; [id] is [req.user.id], set by the auth middleware. *)
Definition me (db : Db) (id : JsVal) : Response Body :=
  match findUserById db id with
  | None => message 404 "Not found"
  | Some user => mkResponse 200 [("user", user_json (sanitizeUser (Some user)))]
  end.

(** [jwt.verify(token, secret)]: the payload, or an error for a token
    that is malformed, expired or signed with another secret. *)
Variable jwt_verify : string -> Result JsVal.

(** The middleware answers itself, or sets [req.user] and calls
    [next()]. *)
Inductive Outcome : Type :=
| Denied : Response Body -> Outcome
| Next : User -> Outcome.

(** [a || b] on two texts that may be missing. *)
Definition either (a b : option string) : option string :=
  match given a with
  | Some h => Some h
  | None => b
  end.

(** The middleware [auth(req, res, next)]. *)
Definition auth (db : Db) (req : Request) : Outcome :=
  let authHeader := either (authorization req) (Authorization req) in
  let token :=
    match given authHeader with
    | Some h =>
        if String.prefix "Bearer " h then List.nth_error (split_on (is_char " ") h) 1
        else given (cookie_token req)
    | None => given (cookie_token req)
    end in
  match given token with
  | None => Denied (message 401 "Missing auth token")
  | Some token =>
      match (payload ← jwt_verify token; id ← get payload "id"; Return (findUserById db id)) with
      | Return (Some user) => Next user
      | Return None => Denied (message 401 "Invalid token")
      | Throw _ => Denied (message 401 "Unauthorized")
      end
  end.

End Controller.

End Auth.

(** ** The dashboard controller *)

Module DashboardController.
Import Js Http.

(** [v.k] where [v] is truthy: a primitive and an array have no such
    property. *)
Definition prop (v : JsVal) (k : string) : JsVal :=
  match v with
  | JObj props => lookup_prop k props
  | _ => JUndefined
  end.

(** [extractUserId(req)]; [user] is [req.user], an object when the
    middleware has set it. *)
Definition extractUserId (user : option (list (string * JsVal))) : JsVal :=
  match user with
  | None => JNull
  | Some u =>
      let nested := lookup_prop "user" u in
      or_else (lookup_prop "id" u)
        (or_else (lookup_prop "userId" u)
           (or_else (lookup_prop "sub" u)
              (or_else (if truthy nested then or_else (prop nested "id") (prop nested "userId")
                        else nested)
                 JNull)))
  end.

(** The body of [POST /api/dashboard/ai/analyze]. *)
Record AnalyzeBody : Type := mkAnalyzeBody {
  b_goals : option (list Dashboard.Goal);
  b_moods : option (list Dashboard.Mood);
  b_medRuns : option (list Dashboard.MedRun)
}.

(** The JSON bodies of the handler: the two refusals, the analysis
    (summary, suggestions, insights, provider, time stamp) and the
    answer to an exception (its message, a summary and suggestions that
    are fixed). *)
Inductive Body : Type :=
| unauthorized : Body
| missing_data : Body
| analysis_body : JsVal -> list JsVal -> JsVal -> JsVal -> string -> Body
| failed_body : string -> string -> list JsVal -> Body.

Section Controller.

Variable number_to_string : Q -> string.
Variable greater_than : JsVal -> Q -> bool.

(** [generateAIAnalysis(req, res)]; [now] is the time of the request. *)
Definition generateAIAnalysis (env : DeepSeek.Env) (svc : DeepSeek.Service)
    (user : option (list (string * JsVal))) (reqBody : AnalyzeBody) (now : string)
    : Response Body :=
  if negb (truthy (extractUserId user)) then mkResponse 401 unauthorized
  else
    match b_goals reqBody, b_moods reqBody, b_medRuns reqBody with
    | Some goals, Some moods, Some medRuns =>
        let data := {| Dashboard.goals := Some goals; Dashboard.moods := Some moods;
                       Dashboard.medRuns := Some medRuns; Dashboard.journalEntries := None |} in
        match Dashboard.generateAIAnalysis number_to_string greater_than env svc data now with
        | Return analysis =>
            mkResponse 200
              (analysis_body (Dashboard.summary analysis) (Dashboard.suggestions analysis)
                             (Dashboard.insights analysis) (Dashboard.provider analysis) now)
        | Throw e =>
            mkResponse 500
              (failed_body e
                 ("AI analysis is temporarily unavailable. Your progress data shows consistent "
                  +:+ "engagement across goals, mood tracking, and meditation practices.")
                 [JStr "Continue maintaining your current tracking habits";
                  JStr "Consider setting new goals to expand your growth";
                  JStr "Review your mood patterns for insights"])
        end
    | _, _, _ => mkResponse 400 missing_data
    end.

End Controller.

End DashboardController.

(** * Sample values and the vocabulary of the properties *)

Module Samples.
Import Js.

(** A rendering of numbers to instantiate the open parameter with: the
    decimal digits of the integer part. *)
Definition render_number (q : Q) : string := show_int (Qfloor q).

(** A comparison to instantiate the open parameter with: numbers are
    compared, every other value is not greater. *)
Definition number_greater (v : JsVal) (n : Q) : bool :=
  match v with
  | JNum q => if Qlt_le_dec n q then true else false
  | _ => false
  end.

(** A date conversion to instantiate the open parameter with. *)
Definition sample_date (iso : string) : option string := Some iso.

Definition run_5k : Goals.Goal :=
  {| Goals.user_id := 8;
     Goals.title := "Run 5k";
     Goals.note := None;
     Goals.created_at := "2025-10-27 16:38:42";
     Goals.due_at := None;
     Goals.completed := 0;
     Goals.completed_at := None;
     Goals.priority := "high";
     Goals.tags := JNull |}.

Definition goals_table : Goals.Table := {[ 1 := run_5k ]}.

(** [PUT { completed: true }]. *)
Definition mark_completed : Goals.Changes :=
  {| Goals.c_title := None; Goals.c_note := None; Goals.c_due_at := None;
     Goals.c_completed := Some (JBool true); Goals.c_completed_at := None;
     Goals.c_priority := None; Goals.c_tags := None |}.

(** The payload the goals page sends when a goal is ticked off. *)
Definition toggle_completed : Goals.Changes :=
  {| Goals.c_title := None; Goals.c_note := None; Goals.c_due_at := None;
     Goals.c_completed := Some (JBool true); Goals.c_completed_at := Some (Some "2025-10-28");
     Goals.c_priority := None; Goals.c_tags := None |}.

(** A mood payload with values outside the range from 1 to 5. *)
Definition out_of_range : Mood.Payload :=
  {| Mood.p_id := Some "mood-1";
     Mood.p_score := JNum 9;
     Mood.p_energy := JNum (-2);
     Mood.p_intensity := JStr "40";
     Mood.p_emoji := None;
     Mood.p_note := None;
     Mood.p_date := Some "2025-10-27T16:38:42.277Z";
     Mood.p_tags := JNull |}.

(** A journal row whose tags column holds a text that is not JSON. *)
Definition broken_tags : Journal.Row :=
  {| Journal.user_id := 8;
     Journal.mood := "happy";
     Journal.text := "Walked to the lake.";
     Journal.tags := JStr "[walk, lake";
     Journal.summary := None;
     Journal.sentiment := None;
     Journal.created_at := Some "2025-10-27 16:38:42";
     Journal.updated_at := None |}.

Definition sound_tags : Journal.Row :=
  {| Journal.user_id := 8;
     Journal.mood := "neutral";
     Journal.text := "A quiet day.";
     Journal.tags := JStr "[]";
     Journal.summary := None;
     Journal.sentiment := None;
     Journal.created_at := Some "2025-10-26 09:00:00";
     Journal.updated_at := None |}.

(** A response whose object has a summary and no sentiment. *)
Definition happy_without_sentiment : string :=
  "{" +:+ quote "summary" +:+ ":" +:+ quote "A happy day" +:+ "}".

(** A response whose sentiment is none of the three. *)
Definition happy_and_great : string :=
  "{" +:+ quote "summary" +:+ ":" +:+ quote "A happy day" +:+ ","
      +:+ quote "sentiment" +:+ ":" +:+ quote "Great" +:+ "}".

(** A week of data. *)
Definition some_data : Dashboard.Data :=
  {| Dashboard.goals :=
       Some [Dashboard.mkGoal "Run 5k" true (Some Dashboard.high);
             Dashboard.mkGoal "Read" false None];
     Dashboard.moods :=
       Some [Dashboard.mkMood (Some 4); Dashboard.mkMood (Some 2); Dashboard.mkMood None];
     Dashboard.medRuns := Some [Dashboard.mkMedRun (Some "Breathing") (Some 600) None];
     Dashboard.journalEntries := None |}.

(** The provider is unreachable: every call is rejected. *)
Definition unreachable : DeepSeek.Service :=
  DeepSeek.mkService true (fun _ => DeepSeek.Rejected "DeepSeek request timed out").

(** Stand-ins for the password hash, its check and the token. *)
Definition sample_hash (password : string) : string := "$2a$10$" +:+ password.

Definition sample_compare (plain : string) (hash : JsVal) : Result bool :=
  match hash with
  | JStr h => Return (String.eqb h (sample_hash plain))
  | _ => Throw "Illegal arguments"
  end.

Definition sample_sign (id email : JsVal) : string := "header.payload.signature".

Definition ada : Auth.Credentials :=
  {| Auth.name := Some "Ada"; Auth.email := Some "ada@example.org";
     Auth.password := Some "correct horse" |}.

Definition no_users : Auth.Db := {| Auth.rows := []; Auth.auto_increment := 1 |}.

(** [PUT { tags: "health, running" }]: tags sent as one text. *)
Definition tagged : Goals.Changes :=
  {| Goals.c_title := None; Goals.c_note := None; Goals.c_due_at := None;
     Goals.c_completed := None; Goals.c_completed_at := None;
     Goals.c_priority := None; Goals.c_tags := Some (JStr "health, running") |}.

(** [POST { title: "Read more", tags: ["books"] }]. *)
Definition read_more : Goals.NewGoal :=
  {| Goals.n_title := Some "Read more"; Goals.n_note := None; Goals.n_due_at := None;
     Goals.n_priority := None; Goals.n_tags := JArr [JStr "books"] |}.

(** A mood entry of user 8. *)
Definition calm_evening : Mood.Row :=
  {| Mood.user_id := 8;
     Mood.score := Some 4;
     Mood.energy := Some 3;
     Mood.intensity := Some 2;
     Mood.emoji := Some "🙂";
     Mood.note := None;
     Mood.date := Some "2025-10-27 16:38:42";
     Mood.tags := JNull;
     Mood.created_at := Some "2025-10-27 16:38:42";
     Mood.updated_at := None |}.

Definition mood_table : Mood.Table := {[ "mood-1" := calm_evening ]}.

(** [PUT { score: "high" }]: a score that is no number. *)
Definition rescore : Mood.Changes :=
  {| Mood.c_score := Some (JStr "high"); Mood.c_energy := None; Mood.c_intensity := None;
     Mood.c_emoji := None; Mood.c_note := None; Mood.c_date := None; Mood.c_tags := None |}.

Definition calm_walk : Mood.Payload :=
  {| Mood.p_id := Some "mood-2";
     Mood.p_score := JNum 4;
     Mood.p_energy := JUndefined;
     Mood.p_intensity := JUndefined;
     Mood.p_emoji := None;
     Mood.p_note := None;
     Mood.p_date := Some "2025-10-28T08:00:00.000Z";
     Mood.p_tags := JArr [JStr "calm"; JStr "walk"] |}.

(** A table that stamps every update. *)
Definition touch {Row : Type} (old new : Row) : option string := Some "2025-10-28 08:00:00".

(** A session that comes with the application, and a table with it. *)
Definition breathing : Meditation.SessionRow :=
  {| Meditation.s_user_id := None;
     Meditation.s_title := "Breathing";
     Meditation.s_minutes := Some 5;
     Meditation.s_description := None;
     Meditation.s_custom := 0;
     Meditation.s_created_at := Some "2025-10-01 00:00:00";
     Meditation.s_updated_at := None |}.

Definition sessions : Meditation.Sessions := {[ "s-breathing" := breathing ]}.

Definition rename : Meditation.SessionChanges :=
  {| Meditation.c_title := Some "Mine now"; Meditation.c_minutes := None;
     Meditation.c_description := None; Meditation.c_custom := None |}.

(** A new session whose minutes are no number. *)
Definition evening : Meditation.NewSession :=
  {| Meditation.n_id := Some "s-evening";
     Meditation.n_title := "Evening";
     Meditation.n_minutes := JStr "soon";
     Meditation.n_description := None;
     Meditation.n_custom := JUndefined |}.

Definition short_run : Meditation.NewRun :=
  {| Meditation.p_id := Some "r-1";
     Meditation.p_session_id := Some "s-breathing";
     Meditation.p_session_title := Some "Breathing";
     Meditation.p_started_at := Some "2025-10-28T08:00:00.000Z";
     Meditation.p_ended_at := None;
     Meditation.p_planned_minutes := JNum 5;
     Meditation.p_actual_seconds := JStr "290";
     Meditation.p_completed := JBool true;
     Meditation.p_note := None |}.

(** A provider that rejects its first two calls and answers without a
    body from the third on. *)
Definition recovering : DeepSeek.Service :=
  DeepSeek.mkService true
    (fun n => if (n <=? 2)%nat then DeepSeek.Rejected "DeepSeek request timed out"
              else DeepSeek.Resolved None).

(** A stand-in for [jwt.verify] that accepts one token. *)
Definition sample_verify (token : string) : Result JsVal :=
  if String.eqb token "header.payload.signature"
  then Return (JObj [("id", JNum 1); ("email", JStr "ada@example.org")])
  else Throw "jwt malformed".

(** A header with the word Bearer and nothing after it, beside a cookie
    with a token. *)
Definition bearer_only : Auth.Request :=
  {| Auth.authorization := Some "Bearer "; Auth.Authorization := None;
     Auth.cookie_token := Some "header.payload.signature" |}.

End Samples.

Module Props.
Import Js Http.

(** The number of entries of a list that fall into bucket [i]. *)
Definition in_bucket (i : nat) (ms : list Dashboard.Mood) : nat :=
  length (List.filter (fun m => Nat.eqb (Dashboard.bucket_index m) i) ms).

(** [completed == true] exactly when [completed_at != null]. *)
Definition completion_in_step (g : Goals.Goal) : Prop :=
  Goals.completed g = 1 <-> Goals.completed_at g <> None.

(** The claim C4 as it is stated: after any update that sets
    [completed], the returned goal and the stored goal have [completed]
    and [completed_at] in step. *)
Definition completion_in_step_after_any_update : Prop :=
  forall (db db' : Goals.Table) (userId id : Z) (ch : Goals.Changes) (returned : Goals.Goal),
    Goals.c_completed ch <> None ->
    Goals.update Samples.render_number db userId id ch
      = (db', mkResponse 200 (Goals.goal_body id returned)) ->
    completion_in_step returned /\
    (forall stored, db' !! id = Some stored -> completion_in_step stored).

(** The claim C5 as it is stated: whatever the payload, the entry that
    [createEntry] returns has score, energy and intensity between 1 and
    5. *)
Definition values_clamped : Prop :=
  forall (db db' : Mood.Table) (fresh now : string) (userId : Z) (payload : Mood.Payload)
         (e : Mood.Entry),
    Mood.createEntry Samples.sample_date id Samples.render_number db fresh now userId payload
      = Return (db', Some e) ->
    1 <= Mood.e_score e <= 5 /\ 1 <= Mood.e_energy e <= 5 /\ 1 <= Mood.e_intensity e <= 5.

(** The tags column holds a text that is not JSON. *)
Definition malformed (raw : JsVal) : Prop :=
  exists text, raw = JStr text /\ nonempty text = true /\ JSON_parse text = None.

(** No property of the object is called [password_hash]. *)
Definition hash_free (u : Auth.User) : Prop :=
  Forall (fun kv => fst kv <> "password_hash") u.

(** A successful response carries a user object without the hash, and
    has no such property of its own. *)
Definition sends_no_hash (r : Response Auth.Body) : Prop :=
  200 <= status r < 300 ->
  exists u, lookup_prop "user" (body r) = JObj u /\ hash_free u /\
            lookup_prop "password_hash" (body r) = JUndefined.

(** One of the three sentiments. *)
Definition valid (s : string) : Prop :=
  s = "positive" \/ s = "neutral" \/ s = "negative".

(** The claim C3 as it is stated for a missing sentiment: it is
    re-derived from the summary text by keyword. *)
Definition missing_sentiment_rederived : Prop :=
  forall responseText jsonMatch props told,
    match_braces (DeepSeek.cleanResponse responseText) = Some jsonMatch ->
    JSON_parse jsonMatch = Some (JObj props) ->
    lookup_prop "sentiment" props = JUndefined ->
    lookup_prop "summary" props = JStr told ->
    DeepSeek.sentiment (DeepSeek.parseResponse responseText)
      = DeepSeek.sentiment_of_summary (toLowerCase told).

(** The text contains a double quote. *)
Fixpoint has_dquote (s : string) : bool :=
  match s with
  | EmptyString => false
  | String c s' => is_char dquote c || has_dquote s'
  end.

(** A value without a property that a text could name: not a string,
    not an object with members. *)
Definition keyless (v : JsVal) : Prop :=
  match v with
  | JStr _ => False
  | JObj (_ :: _) => False
  | _ => True
  end.

(** The summary service did not get a response it could parse: the
    provider is out of reach (no client, or every call rejected), or
    the result carries the mark of the heuristic fallback or of the
    manual extraction. *)
Definition summary_failed (env : DeepSeek.Env) (svc : DeepSeek.Service)
    (result : DeepSeek.SummaryResult) : Prop :=
  (DeepSeek.DEEPSEEK_MOCK env <> Some "true" /\
   (DeepSeek.client svc = false \/
    forall n, exists e, DeepSeek.chatCompletion svc n = DeepSeek.Rejected e)) \/
  DeepSeek.fallback result = true \/
  DeepSeek.extracted result = true.

(** A non-empty string. *)
Definition nonempty_text (v : JsVal) : Prop :=
  exists s, v = JStr s /\ s <> EmptyString.

(** The shape the dashboard promises: a summary text and one to four
    suggestions. *)
Definition well_shaped (a : Dashboard.AnalysisResult) : Prop :=
  nonempty_text (Dashboard.summary a) /\ (1 <= length (Dashboard.suggestions a) <= 4)%nat.

(** The seconds that [calculateStats] reads of a run, and their sum. *)
Definition run_seconds (r : Dashboard.MedRun) : Z :=
  or_int (Dashboard.actualSeconds r) (or_int (Dashboard.actual_seconds r) 0).

Definition total_seconds (runs : list Dashboard.MedRun) : Z :=
  foldr (fun r acc => run_seconds r + acc) 0 runs.

(** The rows that hold an email address, and the table in which no
    address is held twice. *)
Definition email_count (db : Auth.Db) (email : string) : nat :=
  length (List.filter (fun u => Auth.same (lookup_prop "email" u) (JStr email)) (Auth.rows db)).

Definition unique_emails (db : Auth.Db) : Prop :=
  forall email, (email_count db email <= 1)%nat.

(** Some character of the text is of the class [p]. *)
Fixpoint has_char (p : ascii -> bool) (s : string) : bool :=
  match s with
  | EmptyString => false
  | String c s' => p c || has_char p s'
  end.

End Props.

(** * Properties *)

(** ** Rounding *)

Module RoundFacts.
Import Js.

(** [Math.round] of a quotient of integers, by integer division. *)
Lemma Math_round_quotient (c : Z) (p : positive) :
  Math_round (inject_Z c / inject_Z (Z.pos p) * 100) = (200 * c + Z.pos p) / (2 * Z.pos p).
Proof.
  unfold Math_round.
  assert (E : (inject_Z c / inject_Z (Z.pos p) * 100 + (1 # 2) == (200 * c + Z.pos p) # (2 * p))%Q).
  { unfold Qeq, Qdiv, Qmult, Qinv, Qplus, inject_Z. simpl. lia. }
  rewrite (Qfloor_comp _ _ E). reflexivity.
Qed.

(** The quotient rounded half up is within one half of the exact
    quotient. *)
Lemma half_up_nearest (n d : Z) :
  0 < d -> let r := (2 * n + d) / (2 * d) in 2 * Z.abs (d * r - n) <= d.
Proof.
  intros Hd r.
  assert (H := Z.div_mod (2 * n + d) (2 * d) ltac:(lia)).
  assert (B := Z.mod_pos_bound (2 * n + d) (2 * d) ltac:(lia)).
  fold r in H. lia.
Qed.

End RoundFacts.

(** ** Dashboard statistics *)

Module StatsFacts.
Import Js Dashboard Props.

Lemma filter_length_le {A} (p : A -> bool) (l : list A) :
  (length (List.filter p l) <= length l)%nat.
Proof.
  induction l as [|x l IH]; simpl; [lia|].
  destruct (p x); simpl; lia.
Qed.

Lemma count_le_length {A} (p : A -> bool) (a : option (list A)) :
  (count_or_0 p a <= length_or_0 a)%nat.
Proof.
  destruct a as [l|]; simpl; [apply filter_length_le | lia].
Qed.

Lemma bucket_index_lt (m : Mood) : (bucket_index m < 5)%nat.
Proof. unfold bucket_index. lia. Qed.

(** The loop over the moods adds to every slot the number of entries of
    its bucket. *)
Lemma count_loop (ms : list Mood) : forall a b c d e : nat,
  foldl (fun counts m => bump counts (bucket_index m)) [a; b; c; d; e] ms =
  [a + in_bucket 0 ms; b + in_bucket 1 ms; c + in_bucket 2 ms; d + in_bucket 3 ms;
   e + in_bucket 4 ms]%nat.
Proof.
  induction ms as [|m ms IH]; intros a b c d e.
  - unfold in_bucket. simpl. repeat (f_equal; try lia).
  - simpl foldl.
    pose proof (bucket_index_lt m) as Hlt.
    unfold in_bucket in *. simpl List.filter.
    destruct (bucket_index m) as [|[|[|[|[|k]]]]] eqn:E; try lia;
      unfold bump; simpl; rewrite IH; simpl; repeat (f_equal; try lia).
Qed.

Lemma buckets_partition (ms : list Mood) :
  (in_bucket 0 ms + in_bucket 1 ms + in_bucket 2 ms + in_bucket 3 ms + in_bucket 4 ms
   = length ms)%nat.
Proof.
  unfold in_bucket. induction ms as [|m ms IH]; simpl; [reflexivity|].
  pose proof (bucket_index_lt m) as Hlt.
  destruct (bucket_index m) as [|[|[|[|[|k]]]]]; simpl; lia.
Qed.



End StatsFacts.

(** ** Goals: ownership and the completion fields *)

Module GoalsFacts.
Import Js Http Goals Props.

Section Facts.

Variable number_to_string : Q -> string.

Lemma getGoalById_other (db : Table) (id a : Z) (g : Goal) :
  db !! id = Some g -> user_id g <> a -> getGoalById db id a = None.
Proof.
  intros Hg Hne. unfold getGoalById. rewrite Hg.
  destruct (Z.eqb_spec (user_id g) a); [contradiction | reflexivity].
Qed.

Lemma sql_update_other (db : Table) (id a : Z) (g : Goal) (ch : Changes) :
  db !! id = Some g -> user_id g <> a -> sql_update number_to_string db id a ch = db.
Proof.
  intros Hg Hne. unfold sql_update. rewrite Hg.
  destruct (Z.eqb_spec (user_id g) a); [contradiction | reflexivity].
Qed.

Lemma updateGoal_other (db : Table) (id a : Z) (g : Goal) (ch : Changes) :
  db !! id = Some g -> user_id g <> a -> updateGoal number_to_string db id a ch = (db, None).
Proof.
  intros Hg Hne. unfold updateGoal.
  destruct (no_fields ch).
  - now rewrite (getGoalById_other db id a g).
  - rewrite (sql_update_other db id a g) by assumption.
    now rewrite (getGoalById_other db id a g).
Qed.

Lemma deleteGoal_other (db : Table) (id a : Z) (g : Goal) :
  db !! id = Some g -> user_id g <> a -> deleteGoal db id a = (db, false).
Proof.
  intros Hg Hne. unfold deleteGoal. rewrite Hg.
  destruct (Z.eqb_spec (user_id g) a); [contradiction | reflexivity].
Qed.

(** What the three operations give for an identifier that is not in
    the table. *)
Lemma getGoalById_missing (db : Table) (id a : Z) :
  db !! id = None -> getGoalById db id a = None.
Proof. intros H. unfold getGoalById. now rewrite H. Qed.

Lemma updateGoal_missing (db : Table) (id a : Z) (ch : Changes) :
  db !! id = None -> updateGoal number_to_string db id a ch = (db, None).
Proof.
  intros H. unfold updateGoal, sql_update. rewrite H.
  destruct (no_fields ch); now rewrite getGoalById_missing.
Qed.

Lemma deleteGoal_missing (db : Table) (id a : Z) :
  db !! id = None -> deleteGoal db id a = (db, false).
Proof. intros H. unfold deleteGoal. now rewrite H. Qed.

(** C6. For distinct users, a goal of the one is not found by the
    other: [getGoalById] and [updateGoal] give [null], [deleteGoal]
    gives [false], the table is left as it was, the controller answers
    404, and each answer is the one given when the table has no such row
    at all. *)
Theorem cross_user_goal_not_found (db : Table) (id a b : Z) (g : Goal) (ch : Changes) :
  a <> b -> db !! id = Some g -> user_id g = b ->
  getGoalById db id a = None /\
  updateGoal number_to_string db id a ch = (db, None) /\
  deleteGoal db id a = (db, false) /\
  getOne db a id = mkResponse 404 (message_body "Not found") /\
  update number_to_string db a id ch
    = (db, mkResponse 404 (message_body "Not found or not allowed")) /\
  remove db a id = (db, mkResponse 404 (message_body "Not found")) /\
  getOne db a id = getOne (delete id db) a id /\
  snd (update number_to_string db a id ch)
    = snd (update number_to_string (delete id db) a id ch) /\
  snd (remove db a id) = snd (remove (delete id db) a id).
Proof.
  intros Hab Hg Hb.
  assert (Hne : user_id g <> a) by congruence.
  assert (Hdel : delete id db !! id = None) by apply lookup_delete_eq.
  repeat split.
  - now apply getGoalById_other with g.
  - now apply updateGoal_other with g.
  - now apply deleteGoal_other with g.
  - unfold getOne. now rewrite (getGoalById_other db id a g).
  - unfold update. now rewrite (updateGoal_other db id a g).
  - unfold remove. now rewrite (deleteGoal_other db id a g).
  - unfold getOne. rewrite (getGoalById_other db id a g) by assumption.
    now rewrite getGoalById_missing.
  - unfold update. rewrite (updateGoal_other db id a g) by assumption.
    now rewrite updateGoal_missing.
  - unfold remove. rewrite (deleteGoal_other db id a g) by assumption.
    now rewrite deleteGoal_missing.
Qed.

(** An update that carries [completed] and [completed_at] stores both
    as given. *)
Lemma assign_completion (ch : Changes) (g : Goal) (c : JsVal) (ca : option string) :
  c_completed ch = Some c -> c_completed_at ch = Some ca ->
  completed (assign number_to_string ch g) = (if truthy c then 1 else 0) /\
  completed_at (assign number_to_string ch g) = ca.
Proof. intros Hc Hca. unfold assign. simpl. now rewrite Hc, Hca. Qed.

(** C4, amended. The service stores [completed] and [completed_at] as
    the caller sends them. After one update of a goal of the caller
    whose payload carries both fields, [completed] truthy exactly when
    [completed_at] is not [null], the stored goal and the returned goal
    have [completed == true] exactly when [completed_at != null]. *)
Theorem update_with_both_fields_in_step
    (db : Table) (userId id : Z) (g : Goal) (ch : Changes) (c : JsVal) (ca : option string) :
  getGoalById db id userId = Some g ->
  c_completed ch = Some c -> c_completed_at ch = Some ca ->
  (truthy c = true <-> ca <> None) ->
  exists db' stored returned,
    update number_to_string db userId id ch = (db', mkResponse 200 (goal_body id returned)) /\
    db' !! id = Some stored /\
    completion_in_step stored /\ completion_in_step returned.
Proof.
  intros Hg Hc Hca Hiff.
  unfold getGoalById in Hg.
  destruct (db !! id) as [g0|] eqn:Hl; [|discriminate].
  destruct (Z.eqb_spec (user_id g0) userId) as [Hu|Hu]; [|discriminate].
  injection Hg as ->.
  set (payload := {| c_title := c_title ch; c_note := c_note ch; c_due_at := c_due_at ch;
                     c_completed := c_completed ch; c_completed_at := c_completed_at ch;
                     c_priority := c_priority ch;
                     c_tags := option_map parseTagsValue (c_tags ch) |}).
  set (stored := assign number_to_string payload g).
  exists (<[id := stored]> db), stored, (with_tags stored (parseTagsValue (tags stored))).
  assert (Hstep : completion_in_step stored).
  { destruct (assign_completion payload g c ca Hc Hca) as [E1 E2].
    unfold completion_in_step, stored. rewrite E1, E2.
    destruct (truthy c); split; intros H; try lia; try (apply Hiff in H; discriminate).
    now apply Hiff. }
  assert (Hno : no_fields payload = false).
  { unfold no_fields, payload. simpl. rewrite Hc. now destruct (c_title ch), (c_note ch), (c_due_at ch). }
  assert (Hput : sql_update number_to_string db id userId payload = <[id := stored]> db).
  { unfold sql_update. rewrite Hl. destruct (Z.eqb_spec (user_id g) userId); [reflexivity | contradiction]. }
  assert (Hget : getGoalById (<[id := stored]> db) id userId = Some stored).
  { unfold getGoalById. rewrite lookup_insert_eq.
    assert (Eu : user_id stored = userId) by exact Hu.
    rewrite Eu, Z.eqb_refl. reflexivity. }
  repeat split.
  - unfold update. fold payload. unfold updateGoal. rewrite Hno, Hput, Hget. reflexivity.
  - apply lookup_insert_eq.
  - apply Hstep.
  - apply Hstep.
  - apply Hstep.
  - apply Hstep.
Qed.

End Facts.

(** C4 as stated does not hold: [PUT { completed: true }] on an open
    goal gives a goal that is completed and has no completion date. *)
Lemma completed_without_date :
  ~ completion_in_step_after_any_update.
Proof.
  intros H.
  destruct (H Samples.goals_table
              (<[1 := assign Samples.render_number Samples.mark_completed Samples.run_5k]>
                 Samples.goals_table)
              8 1 Samples.mark_completed
              (assign Samples.render_number Samples.mark_completed Samples.run_5k))
    as [[Hstep _] _].
  - discriminate.
  - vm_compute. reflexivity.
  - specialize (Hstep eq_refl). now apply Hstep.
Qed.

(** C6 at work: user 7 asks for goal 1 of user 8. *)
Lemma cross_user_goal_not_found_witness :
  getGoalById Samples.goals_table 1 7 = None /\
  updateGoal Samples.render_number Samples.goals_table 1 7 Samples.mark_completed
    = (Samples.goals_table, None) /\
  deleteGoal Samples.goals_table 1 7 = (Samples.goals_table, false).
Proof.
  destruct (cross_user_goal_not_found Samples.render_number Samples.goals_table 1 7 8
              Samples.run_5k Samples.mark_completed) as (H1 & H2 & H3 & _).
  - lia.
  - reflexivity.
  - reflexivity.
  - exact (conj H1 (conj H2 H3)).
Defined.

(** C4, amended, at work: the owner ticks off goal 1 with the payload
    of the goals page. *)
Lemma update_with_both_fields_in_step_witness :
  exists db' stored returned,
    update Samples.render_number Samples.goals_table 8 1 Samples.toggle_completed
      = (db', mkResponse 200 (goal_body 1 returned)) /\
    db' !! 1 = Some stored /\
    completion_in_step stored /\ completion_in_step returned.
Proof.
  apply (update_with_both_fields_in_step Samples.render_number Samples.goals_table 8 1
           Samples.run_5k Samples.toggle_completed (JBool true) (Some "2025-10-28")).
  - reflexivity.
  - reflexivity.
  - reflexivity.
  - simpl. split; [discriminate | reflexivity].
Defined.

End GoalsFacts.

(** ** Mood entries: defaults without a range check *)

Module MoodFacts.
Import Js Mood Props.

Lemma or_int_nonzero (x : option Z) (d : Z) : d <> 0 -> or_int x d <> 0.
Proof.
  intros Hd. unfold or_int. destruct x as [v|]; [|exact Hd].
  destruct (Z.eqb_spec v 0); assumption.
Qed.

(** A missing, unreadable or zero value gives the default, every other
    integer is kept. *)
Lemma or_int_cases (x : option Z) (d : Z) :
  (x = None \/ x = Some 0 -> or_int x d = d) /\
  (forall z, x = Some z -> z <> 0 -> or_int x d = z).
Proof.
  split.
  - intros [-> | ->]; reflexivity.
  - intros z -> Hz. unfold or_int. destruct (Z.eqb_spec z 0); [contradiction | reflexivity].
Qed.

(** An integer column reads back as the integer it holds. *)
Lemma parseInt_column (z : Z) : parseInt (column (Some z)) = Some z.
Proof.
  simpl. f_equal. destruct (Qlt_le_dec (inject_Z z) 0).
  - unfold Qceiling. rewrite <- inject_Z_opp, Qfloor_Z. lia.
  - apply Qfloor_Z.
Qed.

Lemma read_back (z : Z) (d : Z) : z <> 0 -> or_int (parseInt (column (Some z))) d = z.
Proof.
  intros Hz. rewrite parseInt_column. unfold or_int.
  destruct (Z.eqb_spec z 0); [contradiction | reflexivity].
Qed.

Section Facts.

Variable toMySQLDateTime_of : string -> option string.
Variable fromMySQLDateTime_of : string -> string.
Variable number_to_string : Q -> string.


End Facts.



End MoodFacts.

(** ** Malformed tags on the read paths *)

Module TagsFacts.
Import Js Props.

Lemma read_tags_malformed (raw : JsVal) : malformed raw -> Mood.read_tags raw = [].
Proof.
  intros (text & -> & Hne & Hparse). unfold Mood.read_tags. simpl.
  rewrite Hne, Hparse. reflexivity.
Qed.

(** [sanitizeEntry] of the mood service returns the entry with no tags. *)
Lemma mood_sanitizeEntry_malformed (fromMySQLDateTime_of : string -> string)
    (id : string) (row : Mood.Row) :
  malformed (Mood.tags row) ->
  exists e, Mood.sanitizeEntry fromMySQLDateTime_of (Some (id, row)) = Some e /\
            Mood.e_id e = id /\ Mood.e_tags e = [].
Proof.
  intros H. eexists. split; [reflexivity|]. simpl. split; [reflexivity|].
  now apply read_tags_malformed.
Qed.

(** [sanitizeEntry] of the journal service returns the entry with no
    tags. *)
Lemma journal_sanitizeEntry_malformed (fromMySQLDateTime_of : string -> string)
    (id : string) (row : Journal.Row) :
  malformed (Journal.tags row) ->
  exists e, Journal.sanitizeEntry fromMySQLDateTime_of (Some (id, row)) = Some e /\
            Journal.e_id e = id /\ Journal.e_tags e = [].
Proof.
  intros (text & Ht & Hne & Hparse).
  eexists. split; [reflexivity|]. simpl. split; [reflexivity|].
  rewrite Ht. simpl. rewrite Hne, Hparse. reflexivity.
Qed.

(** The dashboard guards the parse for the tags of a goal. *)
Lemma goal_tags_malformed (raw : JsVal) : malformed raw -> Dashboard.goal_tags raw = JArr [].
Proof.
  intros (text & -> & Hne & Hparse). unfold Dashboard.goal_tags. simpl.
  rewrite Hne, Hparse. reflexivity.
Qed.

Lemma journal_view_malformed (id : string) (row : Journal.Row) :
  malformed (Journal.tags row) -> exists msg, Dashboard.journal_view (id, row) = Throw msg.
Proof.
  intros (text & Ht & Hne & Hparse). unfold Dashboard.journal_view.
  rewrite Ht. simpl. rewrite Hne. unfold JSON_parse_result. rewrite Hparse.
  eexists. reflexivity.
Qed.

Lemma map_result_throws {A B} (f : A -> Result B) (rows : list A) (x : A) :
  In x rows -> (exists msg, f x = Throw msg) -> exists msg, Dashboard.map_result f rows = Throw msg.
Proof.
  intros Hin Hx. induction rows as [|y rows IH]; [destruct Hin|].
  simpl. destruct Hin as [->|Hin].
  - destruct Hx as [msg ->]. eexists. reflexivity.
  - destruct (f y) as [b|msg]; [|eexists; reflexivity].
    destruct (IH Hin) as [msg ->]. eexists. reflexivity.
Qed.

(** One row with malformed tags empties the whole answer of
    [getJournalEntries]. *)
Lemma getJournalEntries_malformed (rows : list (string * Journal.Row))
    (id : string) (row : Journal.Row) :
  In (id, row) rows -> malformed (Journal.tags row) ->
  Dashboard.getJournalEntries (Return rows) = [].
Proof.
  intros Hin Hbad. unfold Dashboard.getJournalEntries. simpl.
  destruct (map_result_throws Dashboard.journal_view rows (id, row) Hin
              (journal_view_malformed id row Hbad)) as [msg ->].
  reflexivity.
Qed.

(** C7. On rows of which one holds the text [[walk, lake] in its tags
    column, [sanitizeEntry] of the journal service returns that entry
    with the empty list of tags, while [getJournalEntries] of the
    dashboard returns no entry at all, neither this one nor the sound
    one next to it. *)
Theorem getJournalEntries_loses_entries :
  JSON_parse "[walk, lake" = None /\
  (exists e, Journal.sanitizeEntry id (Some ("j1", Samples.broken_tags)) = Some e /\
             Journal.e_id e = "j1" /\ Journal.e_tags e = []) /\
  Dashboard.getJournalEntries (Return [("j1", Samples.broken_tags); ("j2", Samples.sound_tags)]) = [] /\
  length (Dashboard.getJournalEntries (Return [("j2", Samples.sound_tags)])) = 1%nat.
Proof.
  split; [vm_compute; reflexivity|].
  split; [eexists; vm_compute; repeat split|].
  split; vm_compute; reflexivity.
Qed.

End TagsFacts.

(** ** The auth controller never sends the password hash *)

Module AuthFacts.
Import Js Http Auth Props.

Lemma sanitizeUser_hash_free (u : User) :
  exists u', sanitizeUser (Some u) = Some u' /\ hash_free u'.
Proof.
  eexists. split; [reflexivity|].
  unfold hash_free. apply List.Forall_forall. intros kv Hin.
  apply filter_In in Hin. destruct Hin as [_ H].
  destruct (String.eqb_spec (fst kv) "password_hash"); [discriminate | assumption].
Qed.

Lemma hash_free_lookup (u : User) : hash_free u -> lookup_prop "password_hash" u = JUndefined.
Proof.
  induction 1 as [|[k v] u Hk _ IH]; [reflexivity|].
  cbn [lookup_prop]. rewrite IH. cbn [fst] in Hk.
  destruct (String.eqb_spec "password_hash" k); [congruence | reflexivity].
Qed.

Lemma lookup_prop_app (k : string) (l1 l2 : list (string * JsVal)) :
  lookup_prop k l2 <> JUndefined -> lookup_prop k (l1 ++ l2) = lookup_prop k l2.
Proof.
  intros H. induction l1 as [|[k' v] l1 IH]; [reflexivity|].
  cbn [app lookup_prop]. rewrite IH.
  destruct (lookup_prop k l2); congruence.
Qed.

Lemma find_app_last {A} (p : A -> bool) (l : list A) (x : A) :
  p x = true -> exists y, List.find p (l ++ [x]) = Some y.
Proof.
  intros Hx. induction l as [|a l IH]; simpl.
  - rewrite Hx. eauto.
  - destruct (p a); eauto.
Qed.

Section Facts.

Variable bcrypt_hash : string -> string.
Variable bcrypt_compare : string -> JsVal -> Result bool.
Variable jwt_sign : JsVal -> JsVal -> string.
Variable column_defaults : list (string * JsVal).

Lemma createUser_found (db : Db) (name email password : string) :
  exists u, snd (createUser bcrypt_hash column_defaults db name email password) = Some u.
Proof.
  unfold createUser, findUserById. cbn [snd rows].
  apply find_app_last.
  rewrite lookup_prop_app; [|discriminate].
  cbn. apply Qeq_bool_refl.
Qed.

(** C10. Every response of [register], [login] and [me] with a status
    of success carries under [user] an object that has no property
    [password_hash]: [sanitizeUser] has removed it from the row. *)
Theorem responses_send_no_hash (db : Db) (req : Credentials) (id : JsVal) :
  sends_no_hash (snd (register bcrypt_hash jwt_sign column_defaults db req)) /\
  sends_no_hash (login bcrypt_compare jwt_sign db req) /\
  sends_no_hash (me db id).
Proof.
  split; [|split].
  - unfold register.
    destruct (given (name req)) as [name|]; [|simpl; intros ?; simpl in *; lia].
    destruct (given (email req)) as [email|]; [|simpl; intros ?; simpl in *; lia].
    destruct (given (password req)) as [password|]; [|simpl; intros ?; simpl in *; lia].
    destruct (findUserByEmail db email); [simpl; intros ?; simpl in *; lia|].
    destruct (createUser_found db name email password) as [u Hu].
    destruct (createUser bcrypt_hash column_defaults db name email password) as [db' user].
    simpl in Hu. subst user. simpl.
    intros _. simpl.
    destruct (sanitizeUser_hash_free u) as (u' & Hs & Hfree).
    injection Hs as <-. eexists. split; [reflexivity|]. split; [exact Hfree | reflexivity].
  - unfold login.
    destruct (given (email req)) as [email|]; [|simpl; intros ?; simpl in *; lia].
    destruct (given (password req)) as [password|]; [|simpl; intros ?; simpl in *; lia].
    destruct (findUserByEmail db email) as [user|]; [|simpl; intros ?; simpl in *; lia].
    destruct (verifyPassword bcrypt_compare user password) as [[|]|msg];
      simpl; intros H; simpl in *; try lia.
    destruct (sanitizeUser_hash_free user) as (u' & Hs & Hfree).
    injection Hs as <-. eexists. split; [reflexivity|]. split; [exact Hfree | reflexivity].
  - unfold me.
    destruct (findUserById db id) as [user|]; [|simpl; intros ?; simpl in *; lia].
    intros _. simpl.
    destruct (sanitizeUser_hash_free user) as (u' & Hs & Hfree).
    injection Hs as <-. eexists. split; [reflexivity|]. split; [exact Hfree | reflexivity].
Qed.

End Facts.

(** C10 at work: the response to the first registration. *)
Lemma responses_send_no_hash_witness :
  exists u,
    lookup_prop "user"
      (body (snd (register Samples.sample_hash Samples.sample_sign [] Samples.no_users
                    Samples.ada))) = JObj u /\
    hash_free u.
Proof.
  destruct (responses_send_no_hash Samples.sample_hash Samples.sample_compare
              Samples.sample_sign [] Samples.no_users Samples.ada JNull) as [H _].
  destruct H as (u & Hu & Hfree & _).
  - vm_compute. split; [discriminate | reflexivity].
  - exists u. split; [exact Hu | exact Hfree].
Defined.

End AuthFacts.

(** ** Summaries: sentiments and the mock *)

Module DeepSeekFacts.
Import Js DeepSeek Props.

Lemma includes_valid (s : string) : array_includes validSentiments s = true -> valid s.
Proof.
  unfold array_includes, validSentiments, valid. cbn [existsb].
  destruct (String.eqb_spec s "positive"); [auto|].
  destruct (String.eqb_spec s "neutral"); [auto|].
  destruct (String.eqb_spec s "negative"); [auto|].
  discriminate.
Qed.

Lemma sentiment_of_summary_valid (s : string) : valid (sentiment_of_summary s).
Proof.
  unfold sentiment_of_summary, valid.
  destruct (_ || _ || _); [auto|]. destruct (_ || _ || _); auto.
Qed.

Lemma extractManually_valid (responseText : string) :
  valid (sentiment (extractManually responseText)).
Proof.
  unfold extractManually, valid. cbn [sentiment].
  destruct (includes _ "positive"); [auto|]. destruct (includes _ "negative"); auto.
Qed.

Lemma generateFallbackSummary_valid (text : string) (error : option string) :
  valid (sentiment (generateFallbackSummary text error)).
Proof.
  unfold generateFallbackSummary, valid. cbn [sentiment].
  destruct (_ <? _)%nat; [auto|]. destruct (_ <? _)%nat; auto.
Qed.

Lemma parseResponse_try_valid (responseText : string) (r : SummaryResult) :
  parseResponse_try responseText = Return r -> valid (sentiment r).
Proof.
  unfold parseResponse_try.
  destruct (match_braces _) as [jsonMatch|]; [|discriminate].
  unfold mbind, result_bind, bind.
  destruct (JSON_parse_result jsonMatch) as [parsed|]; [|discriminate].
  destruct (get parsed "sentiment") as [raw|]; [|discriminate].
  destruct (if truthy raw then call_toLowerCase raw else Return "neutral")
    as [sent|]; [|discriminate].
  destruct (array_includes validSentiments sent) eqn:E.
  - destruct (get parsed "summary") as [text|]; [|discriminate].
    intros [= <-]. cbn [sentiment]. now apply includes_valid.
  - destruct (get parsed "summary") as [text|]; [|discriminate].
    destruct (call_toLowerCase _) as [lower|]; [|discriminate].
    intros [= <-]. cbn [sentiment]. apply sentiment_of_summary_valid.
Qed.

Lemma parseResponse_valid (responseText : string) :
  valid (sentiment (parseResponse responseText)).
Proof.
  unfold parseResponse.
  destruct (parseResponse_try responseText) as [r|] eqn:E.
  - now apply parseResponse_try_valid with responseText.
  - apply extractManually_valid.
Qed.

(** The tiers of [generateSummary]: the mock, the heuristic fallback,
    the parsed response, the manual extraction. *)
Lemma generateSummary_tiers (number_to_string : Q -> string)
    (env : Env) (svc : Service) (text : string) (options : Options) :
  let r := generateSummary number_to_string env svc text options in
  r = mock_summary number_to_string \/
  (exists error, r = generateFallbackSummary text error) \/
  (exists responseText, r = parseResponse responseText).
Proof.
  unfold generateSummary. cbv zeta.
  destruct (bool_decide _); [auto|].
  unfold generateSummary_try.
  destruct (negb (client svc)); [eauto|].
  destruct (retry_loop _ _ _ _) as [completion lastError].
  destruct (first_message completion); eauto.
Qed.

(** What [parseResponse] does once the response holds a JSON object. *)
Lemma parseResponse_object (responseText jsonMatch : string) (props : list (string * JsVal)) :
  match_braces (cleanResponse responseText) = Some jsonMatch ->
  JSON_parse jsonMatch = Some (JObj props) ->
  parseResponse_try responseText =
    (sentiment ← (if truthy (lookup_prop "sentiment" props)
                  then call_toLowerCase (lookup_prop "sentiment" props) else Return "neutral");
     sentiment ← (if array_includes validSentiments sentiment then Return sentiment
                  else summaryLower ← call_toLowerCase
                                         (or_else (lookup_prop "summary" props) (JStr ""));
                       Return (sentiment_of_summary summaryLower));
     Return {| success := true;
               summary := or_else (lookup_prop "summary" props) (JStr "Summary not available");
               sentiment := sentiment;
               provider := "deepseek";
               error := None;
               fallback := false;
               extracted := false;
               analysis := None |}).
Proof.
  intros Hm Hp. unfold parseResponse_try. rewrite Hm.
  unfold JSON_parse_result. rewrite Hp. reflexivity.
Qed.

Section Facts.

Variable number_to_string : Q -> string.

(** C3, amended. Every result of [generateSummary] has one of the three
    sentiments. When the response holds a JSON object: a sentiment that
    is missing (falsy) becomes neutral at once, without a look at the
    summary; a text that is one of the three after lower-casing is
    taken; a text that is none of them is replaced by the sentiment
    found by keyword in the summary text, neutral when no keyword
    occurs. *)
Theorem generateSummary_sentiment
    (env : Env) (svc : Service) (text : string) (options : Options) :
  valid (sentiment (generateSummary number_to_string env svc text options)) /\
  (forall responseText, valid (sentiment (parseResponse responseText))) /\
  (forall responseText, valid (sentiment (extractManually responseText))) /\
  (forall error, valid (sentiment (generateFallbackSummary text error))) /\
  (forall responseText jsonMatch props,
     match_braces (cleanResponse responseText) = Some jsonMatch ->
     JSON_parse jsonMatch = Some (JObj props) ->
     (truthy (lookup_prop "sentiment" props) = false ->
      sentiment (parseResponse responseText) = "neutral") /\
     (forall given, lookup_prop "sentiment" props = JStr given -> nonempty given = true ->
        array_includes validSentiments (toLowerCase given) = true ->
        sentiment (parseResponse responseText) = toLowerCase given) /\
     (forall given told, lookup_prop "sentiment" props = JStr given -> nonempty given = true ->
        array_includes validSentiments (toLowerCase given) = false ->
        or_else (lookup_prop "summary" props) (JStr "") = JStr told ->
        sentiment (parseResponse responseText) = sentiment_of_summary (toLowerCase told))).
Proof.
  split; [|split; [|split; [|split]]].
  - destruct (generateSummary_tiers number_to_string env svc text options)
      as [-> | [[e ->] | [t ->]]].
    + right; left; reflexivity.
    + apply generateFallbackSummary_valid.
    + apply parseResponse_valid.
  - apply parseResponse_valid.
  - apply extractManually_valid.
  - apply generateFallbackSummary_valid.
  - intros responseText jsonMatch props Hm Hp.
    pose proof (parseResponse_object responseText jsonMatch props Hm Hp) as E.
    unfold parseResponse. rewrite E. clear E.
    split; [|split].
    + intros ->. reflexivity.
    + intros given Hs Hne Hv. rewrite Hs. cbn [truthy]. rewrite Hne.
      cbn [call_toLowerCase mbind result_bind bind]. rewrite Hv. reflexivity.
    + intros given told Hs Hne Hv Ht. rewrite Hs. cbn [truthy]. rewrite Hne.
      cbn [call_toLowerCase mbind result_bind bind]. rewrite Hv, Ht. reflexivity.
Qed.

Lemma generateSummary_mock (env : Env) (svc : Service) (text : string) (options : Options) :
  DEEPSEEK_MOCK env = Some "true" ->
  generateSummary number_to_string env svc text options = mock_summary number_to_string.
Proof.
  intros H. unfold generateSummary. now rewrite bool_decide_eq_true_2.
Qed.

End Facts.

(** C3 as stated does not hold for a missing sentiment: the summary
    says happy, the keywords give positive, the result is neutral. *)
Lemma missing_sentiment_is_neutral : ~ missing_sentiment_rederived.
Proof.
  intros H.
  specialize (H Samples.happy_without_sentiment Samples.happy_without_sentiment
                [("summary", JStr "A happy day")] "A happy day").
  vm_compute in H. discriminate H; reflexivity.
Qed.

(** C3, amended, at work: no sentiment gives neutral, the sentiment
    Great is replaced by what the summary says. *)
Lemma generateSummary_sentiment_witness :
  sentiment (parseResponse Samples.happy_without_sentiment) = "neutral" /\
  sentiment (parseResponse Samples.happy_and_great) = "positive".
Proof.
  destruct (generateSummary_sentiment Samples.render_number (mkEnv None)
              (mkService false (fun _ => Rejected "offline")) "" (mkOptions None))
    as (_ & _ & _ & _ & H).
  split.
  - apply (H Samples.happy_without_sentiment Samples.happy_without_sentiment [("summary", JStr "A happy day")]);
      reflexivity.
  - apply (H Samples.happy_and_great Samples.happy_and_great
             [("summary", JStr "A happy day"); ("sentiment", JStr "Great")])
      with (given := "Great") (told := "A happy day"); reflexivity.
Defined.

End DeepSeekFacts.

(** ** Texts that [JSON.parse] rejects or reads without properties *)

Module JsonFacts.
Import Js Props.

Lemma remove_quotes_free (s : string) : has_dquote (remove_chars is_quote s) = false.
Proof.
  induction s as [|c s IH]; [reflexivity|].
  cbn [remove_chars]. unfold is_quote at 1.
  destruct (is_char dquote c) eqn:E.
  - rewrite orb_true_r. exact IH.
  - destruct (is_char squote c); cbn [orb]; [exact IH|].
    cbn [has_dquote]. now rewrite E, IH.
Qed.

Lemma has_dquote_skip_ws (s : string) : has_dquote s = false -> has_dquote (skip_ws s) = false.
Proof.
  induction s as [|c s IH]; [reflexivity|].
  intros H. cbn [skip_ws]. destruct (is_json_ws c); [|exact H].
  apply IH. cbn [has_dquote] in H. now apply orb_false_elim in H.
Qed.

(** One step of each of the three parsers. *)
Lemma parse_members_S (n : nat) (s : string) :
  parse_members (S n) s =
  match skip_ws s with
  | String q r =>
      if is_char dquote q then
        parse_string r ≫= fun '(k, r1) =>
        match skip_ws r1 with
        | String c r2 =>
            if is_char ":" c then
              parse_value n r2 ≫= fun '(v, r3) =>
              match skip_ws r3 with
              | String c' r4 =>
                  if is_char "," c' then
                    parse_members n r4 ≫= fun '(ms, rest) => Some ((k, v) :: ms, rest)
                  else if is_char "}" c' then Some ([(k, v)], r4)
                  else None
              | EmptyString => None
              end
            else None
        | EmptyString => None
        end
      else None
  | EmptyString => None
  end.
Proof. reflexivity. Qed.

Lemma parse_value_S (n : nat) (s : string) :
  parse_value (S n) s =
  match skip_ws s with
  | EmptyString => None
  | String c r =>
      if is_char "{" c then
        match skip_ws r with
        | String c' r' =>
            if is_char "}" c' then Some (JObj [], r')
            else parse_members n (String c' r') ≫= fun '(ms, rest) => Some (JObj ms, rest)
        | EmptyString => None
        end
      else if is_char "[" c then
        match skip_ws r with
        | String c' r' =>
            if is_char "]" c' then Some (JArr [], r')
            else parse_elements n (String c' r') ≫= fun '(vs, rest) => Some (JArr vs, rest)
        | EmptyString => None
        end
      else if is_char dquote c then
        parse_string r ≫= fun '(str, rest) => Some (JStr str, rest)
      else if is_char "t" c then expect "true" (JBool true) (String c r)
      else if is_char "f" c then expect "false" (JBool false) (String c r)
      else if is_char "n" c then expect "null" JNull (String c r)
      else parse_number (String c r) ≫= fun '(q, rest) => Some (JNum q, rest)
  end.
Proof. reflexivity. Qed.

(** Without a double quote there is no key, hence no member. *)
Lemma parse_members_quote_free (fuel : nat) (s : string) :
  has_dquote s = false -> parse_members fuel s = None.
Proof.
  intros H. destruct fuel as [|n]; [reflexivity|].
  rewrite parse_members_S.
  apply has_dquote_skip_ws in H.
  destruct (skip_ws s) as [|q r]; [reflexivity|].
  cbn [has_dquote] in H. apply orb_false_elim in H as [-> _]. reflexivity.
Qed.

Lemma parse_value_quote_free (fuel : nat) (s : string) (v : JsVal) (rest : string) :
  has_dquote s = false -> parse_value fuel s = Some (v, rest) -> keyless v.
Proof.
  intros H. destruct fuel as [|n]; [discriminate|].
  rewrite parse_value_S.
  apply has_dquote_skip_ws in H.
  destruct (skip_ws s) as [|c r]; [discriminate|].
  cbn [has_dquote] in H. apply orb_false_elim in H as [Hc Hr].
  destruct (is_char "{" c).
  { pose proof (has_dquote_skip_ws r Hr) as Hr'.
    destruct (skip_ws r) as [|c' r']; [discriminate|].
    destruct (is_char "}" c'); [intros [= <- _]; exact I|].
    now rewrite parse_members_quote_free. }
  destruct (is_char "[" c).
  { destruct (skip_ws r) as [|c' r']; [discriminate|].
    destruct (is_char "]" c'); [intros [= <- _]; exact I|].
    destruct (parse_elements n (String c' r')) as [[vs rest']|]; [|discriminate].
    intros [= <- _]. exact I. }
  rewrite Hc.
  unfold expect.
  destruct (is_char "t" c); [destruct (strip_prefix _ _); [intros [= <- _]; exact I | discriminate]|].
  destruct (is_char "f" c); [destruct (strip_prefix _ _); [intros [= <- _]; exact I | discriminate]|].
  destruct (is_char "n" c); [destruct (strip_prefix _ _); [intros [= <- _]; exact I | discriminate]|].
  destruct (parse_number (String c r)) as [[q rest']|]; [|discriminate].
  intros [= <- _]. exact I.
Qed.

Lemma JSON_parse_quote_free (s : string) (v : JsVal) :
  has_dquote s = false -> JSON_parse s = Some v -> keyless v.
Proof.
  intros H. unfold JSON_parse.
  destruct (parse_value _ s) as [[v' rest]|] eqn:E; [|discriminate].
  destruct (skip_ws rest); [|discriminate].
  intros [= <-]. now apply parse_value_quote_free with (2 * String.length s + 2)%nat s rest.
Qed.

(** A text that starts with a capital J is not JSON. *)
Lemma JSON_parse_J (rest : string) : JSON_parse (String "J" rest) = None.
Proof.
  unfold JSON_parse.
  assert (E : forall fuel, parse_value fuel (String "J" rest) = None).
  { intros [|n]; [reflexivity|]. vm_compute. reflexivity. }
  now rewrite E.
Qed.

End JsonFacts.

(** ** The fuel of [JSON_parse] is enough *)

Module JsonFuel.
Import Js JsonFacts.
Local Open Scope nat_scope.

Lemma skip_ws_length (s : string) : String.length (skip_ws s) <= String.length s.
Proof.
  induction s as [|c s IH]; [reflexivity|].
  cbn [skip_ws]. destruct (is_json_ws c); cbn [String.length]; lia.
Qed.

Lemma skip_ws_cons (s : string) (c : ascii) (r : string) :
  skip_ws s = String c r -> String.length r < String.length s.
Proof.
  intros H. pose proof (skip_ws_length s) as L. rewrite H in L. cbn [String.length] in L. lia.
Qed.

Lemma push_length (c : ascii) (r : option (string * string)) (str rest : string) :
  push c r = Some (str, rest) -> exists str', r = Some (str', rest).
Proof. destruct r as [[a b]|]; [|discriminate]. intros [= _ <-]. eauto. Qed.

Lemma parse_string_consumes_upto (n : nat) : forall s str rest,
  String.length s <= n -> parse_string s = Some (str, rest) -> String.length rest < String.length s.
Proof.
  induction n as [|n IH]; intros s str rest Hn.
  - destruct s; [discriminate | cbn in Hn; lia].
  - destruct s as [|c s']; [discriminate|].
    cbn [parse_string]. cbn [String.length] in Hn.
    destruct (is_char dquote c); [intros [= _ <-]; cbn; lia|].
    destruct (is_char backslash c).
    + destruct s' as [|e s'']; [discriminate|]. cbn [String.length] in Hn.
      destruct (simple_escape e).
      * intros H. apply push_length in H as [str' H].
        apply IH in H; cbn [String.length] in *; lia.
      * destruct (is_char "u" e); [|discriminate].
        destruct s'' as [|h1 [|h2 [|h3 [|h4 t]]]]; try discriminate.
        destruct (unicode_escape h1 h2 h3 h4); [|discriminate].
        intros H. apply push_length in H as [str' H].
        cbn [String.length] in Hn.
        apply IH in H; cbn [String.length] in *; lia.
    + destruct (code c <? 32); [discriminate|].
      intros H. apply push_length in H as [str' H].
      apply IH in H; cbn [String.length] in *; lia.
Qed.

Lemma parse_string_consumes (s str rest : string) :
  parse_string s = Some (str, rest) -> String.length rest < String.length s.
Proof. apply parse_string_consumes_upto with (String.length s). lia. Qed.

Lemma take_digits_length (s : string) : String.length (snd (take_digits s)) <= String.length s.
Proof.
  induction s as [|c s IH]; [reflexivity|].
  cbn [take_digits]. destruct (is_digit c); [|reflexivity].
  destruct (take_digits s) as [ds rest]. cbn [snd String.length] in *. lia.
Qed.

Lemma strip_prefix_length (word s rest : string) :
  strip_prefix word s = Some rest -> String.length rest + String.length word = String.length s.
Proof.
  revert s. induction word as [|a word IH]; intros s.
  - intros [= <-]. cbn. lia.
  - destruct s as [|c s]; [discriminate|]. cbn [strip_prefix].
    destruct (Ascii.eqb a c); [|discriminate].
    intros H. apply IH in H. cbn [String.length]. lia.
Qed.

Lemma parse_number_consumes (s : string) (q : Q) (rest : string) :
  parse_number s = Some (q, rest) -> String.length rest < String.length s.
Proof.
  unfold parse_number.
  assert (Hint : forall s1 i s2, parse_int_part s1 = Some (i, s2) -> String.length s2 < String.length s1).
  { intros s1 i s2. unfold parse_int_part. destruct s1 as [|c s1']; [discriminate|].
    destruct (is_char "0" c); [intros [= _ <-]; cbn; lia|].
    pose proof (take_digits_length s1') as L.
    cbn [take_digits]. destruct (is_digit c); [|discriminate].
    destruct (take_digits s1') as [ds r]. cbn [snd] in L.
    intros [= _ <-]. cbn [String.length]. lia. }
  assert (Hfrac : forall s2 f s3, parse_fraction s2 = Some (f, s3) -> String.length s3 <= String.length s2).
  { intros s2 f s3. unfold parse_fraction. destruct s2 as [|c s2']; [intros [= _ <-]; lia|].
    destruct (is_char "." c); [|intros [= _ <-]; lia].
    pose proof (take_digits_length s2') as L.
    destruct (take_digits s2') as [[|d ds] r]; [discriminate|].
    intros [= _ <-]. cbn [snd String.length] in *. lia. }
  assert (Hexp : forall s3 e s4, parse_exponent s3 = Some (e, s4) -> String.length s4 <= String.length s3).
  { intros s3 e s4. unfold parse_exponent. destruct s3 as [|c s3']; [intros [= _ <-]; lia|].
    destruct (_ || _); [|intros [= _ <-]; lia].
    destruct s3' as [|d t].
    - cbn. discriminate.
    - destruct (is_char "-" d); [|destruct (is_char "+" d)].
      + pose proof (take_digits_length t) as L.
        destruct (take_digits t) as [[|x ds] r]; [discriminate|].
        intros [= _ <-]. cbn [snd String.length] in *. lia.
      + pose proof (take_digits_length t) as L.
        destruct (take_digits t) as [[|x ds] r]; [discriminate|].
        intros [= _ <-]. cbn [snd String.length] in *. lia.
      + pose proof (take_digits_length (String d t)) as L.
        destruct (take_digits (String d t)) as [[|x ds] r]; [discriminate|].
        intros [= _ <-]. cbn [snd String.length] in *. lia. }
  destruct s as [|c s'].
  - cbn. discriminate.
  - destruct (is_char "-" c).
    + cbn [mbind option_bind].
      destruct (parse_int_part s') as [[i s2]|] eqn:E1; [|discriminate]. cbn [mbind option_bind].
      destruct (parse_fraction s2) as [[f s3]|] eqn:E2; [|discriminate]. cbn [mbind option_bind].
      destruct (parse_exponent s3) as [[e s4]|] eqn:E3; [|discriminate]. cbn [mbind option_bind].
      intros [= _ <-]. apply Hint in E1. apply Hfrac in E2. apply Hexp in E3.
      cbn [String.length]. lia.
    + cbn [mbind option_bind].
      destruct (parse_int_part (String c s')) as [[i s2]|] eqn:E1; [|discriminate].
      cbn [mbind option_bind].
      destruct (parse_fraction s2) as [[f s3]|] eqn:E2; [|discriminate]. cbn [mbind option_bind].
      destruct (parse_exponent s3) as [[e s4]|] eqn:E3; [|discriminate]. cbn [mbind option_bind].
      intros [= _ <-]. apply Hint in E1. apply Hfrac in E2. apply Hexp in E3. lia.
Qed.

Lemma parse_elements_S (n : nat) (s : string) :
  parse_elements (S n) s =
  parse_value n s ≫= fun '(v, r) =>
  match skip_ws r with
  | String c r' =>
      if is_char "," c then parse_elements n r' ≫= fun '(vs, rest) => Some (v :: vs, rest)
      else if is_char "]" c then Some ([v], r')
      else None
  | EmptyString => None
  end.
Proof. reflexivity. Qed.

Lemma parsers_consume (n : nat) :
  (forall s v r, parse_value n s = Some (v, r) -> String.length r < String.length s) /\
  (forall s vs r, parse_elements n s = Some (vs, r) -> String.length r < String.length s) /\
  (forall s ms r, parse_members n s = Some (ms, r) -> String.length r < String.length s).
Proof.
  induction n as [|n (IHv & IHe & IHm)]; [repeat split; discriminate|].
  split; [|split].
  - intros s v r. rewrite parse_value_S.
    destruct (skip_ws s) as [|c t] eqn:Es; [discriminate|].
    apply skip_ws_cons in Es.
    destruct (is_char "{" c).
    { destruct (skip_ws t) as [|c' t'] eqn:Et; [discriminate|].
      pose proof (skip_ws_length t) as Lt. rewrite Et in Lt. cbn [String.length] in Lt.
      destruct (is_char "}" c'); [intros [= _ <-]; lia|].
      destruct (parse_members n (String c' t')) as [[ms rest]|] eqn:E; [|discriminate].
      intros [= _ <-]. apply IHm in E. cbn [String.length] in E. lia. }
    destruct (is_char "[" c).
    { destruct (skip_ws t) as [|c' t'] eqn:Et; [discriminate|].
      pose proof (skip_ws_length t) as Lt. rewrite Et in Lt. cbn [String.length] in Lt.
      destruct (is_char "]" c'); [intros [= _ <-]; lia|].
      destruct (parse_elements n (String c' t')) as [[vs rest]|] eqn:E; [|discriminate].
      intros [= _ <-]. apply IHe in E. cbn [String.length] in E. lia. }
    destruct (is_char dquote c).
    { destruct (parse_string t) as [[str rest]|] eqn:E; [|discriminate].
      intros [= _ <-]. apply parse_string_consumes in E. lia. }
    assert (Hexpect : forall word val, word <> EmptyString ->
              expect word val (String c t) = Some (v, r) -> String.length r < String.length s).
    { intros word val Hw. unfold expect.
      destruct (strip_prefix word (String c t)) as [rest|] eqn:E; [|discriminate].
      intros [= _ <-]. apply strip_prefix_length in E.
      destruct word; [contradiction|]. cbn [String.length] in E. lia. }
    destruct (is_char "t" c); [now apply Hexpect|].
    destruct (is_char "f" c); [now apply Hexpect|].
    destruct (is_char "n" c); [now apply Hexpect|].
    destruct (parse_number (String c t)) as [[q rest]|] eqn:E; [|discriminate].
    intros [= _ <-]. apply parse_number_consumes in E. cbn [String.length] in E. lia.
  - intros s vs r. rewrite parse_elements_S.
    destruct (parse_value n s) as [[v t]|] eqn:Ev; [|discriminate].
    apply IHv in Ev. cbn [mbind option_bind].
    destruct (skip_ws t) as [|c t'] eqn:Et; [discriminate|].
    apply skip_ws_cons in Et.
    destruct (is_char "," c).
    { destruct (parse_elements n t') as [[vs' rest]|] eqn:E; [|discriminate].
      intros [= _ <-]. apply IHe in E. lia. }
    destruct (is_char "]" c); [|discriminate].
    intros [= _ <-]. lia.
  - intros s ms r. rewrite parse_members_S.
    destruct (skip_ws s) as [|q t] eqn:Es; [discriminate|].
    apply skip_ws_cons in Es.
    destruct (is_char dquote q); [|discriminate].
    destruct (parse_string t) as [[k t1]|] eqn:Ek; [|discriminate].
    apply parse_string_consumes in Ek. cbn [mbind option_bind].
    destruct (skip_ws t1) as [|c t2] eqn:E1; [discriminate|].
    apply skip_ws_cons in E1.
    destruct (is_char ":" c); [|discriminate].
    destruct (parse_value n t2) as [[v t3]|] eqn:Ev; [|discriminate].
    apply IHv in Ev. cbn [mbind option_bind].
    destruct (skip_ws t3) as [|c' t4] eqn:E3; [discriminate|].
    apply skip_ws_cons in E3.
    destruct (is_char "," c').
    { destruct (parse_members n t4) as [[ms' rest]|] eqn:E; [|discriminate].
      intros [= _ <-]. apply IHm in E. lia. }
    destruct (is_char "}" c'); [|discriminate].
    intros [= _ <-]. lia.
Qed.

(** Beyond twice the length of the text, more fuel changes nothing. *)
Lemma fuel_stable (n : nat) :
  (forall s m, 2 * String.length s + 1 <= n -> n <= m -> parse_value m s = parse_value n s) /\
  (forall s m, 2 * String.length s + 2 <= n -> n <= m -> parse_elements m s = parse_elements n s) /\
  (forall s m, 2 * String.length s + 2 <= n -> n <= m -> parse_members m s = parse_members n s).
Proof.
  induction n as [|n (IHv & IHe & IHm)]; [repeat split; intros; lia|].
  split; [|split].
  - intros s [|m] Hn Hm; [lia|].
    rewrite !parse_value_S.
    destruct (skip_ws s) as [|c t] eqn:Es; [reflexivity|].
    apply skip_ws_cons in Es.
    destruct (is_char "{" c).
    { destruct (skip_ws t) as [|c' t'] eqn:Et; [reflexivity|].
      pose proof (skip_ws_length t) as Lt. rewrite Et in Lt.
      destruct (is_char "}" c'); [reflexivity|].
      rewrite (IHm (String c' t') m); [reflexivity | lia | lia]. }
    destruct (is_char "[" c).
    { destruct (skip_ws t) as [|c' t'] eqn:Et; [reflexivity|].
      pose proof (skip_ws_length t) as Lt. rewrite Et in Lt.
      destruct (is_char "]" c'); [reflexivity|].
      rewrite (IHe (String c' t') m); [reflexivity | lia | lia]. }
    reflexivity.
  - intros s [|m] Hn Hm; [lia|].
    rewrite !parse_elements_S.
    rewrite (IHv s m); [|lia|lia].
    destruct (parse_value n s) as [[v t]|] eqn:Ev; [|reflexivity].
    apply (proj1 (parsers_consume n)) in Ev. cbn [mbind option_bind].
    destruct (skip_ws t) as [|c t'] eqn:Et; [reflexivity|].
    apply skip_ws_cons in Et.
    destruct (is_char "," c); [|reflexivity].
    rewrite (IHe t' m); [reflexivity | lia | lia].
  - intros s [|m] Hn Hm; [lia|].
    rewrite !parse_members_S.
    destruct (skip_ws s) as [|q t] eqn:Es; [reflexivity|].
    apply skip_ws_cons in Es.
    destruct (is_char dquote q); [|reflexivity].
    destruct (parse_string t) as [[k t1]|] eqn:Ek; [|reflexivity].
    apply parse_string_consumes in Ek. cbn [mbind option_bind].
    destruct (skip_ws t1) as [|c t2] eqn:E1; [reflexivity|].
    apply skip_ws_cons in E1.
    destruct (is_char ":" c); [|reflexivity].
    rewrite (IHv t2 m); [|lia|lia].
    destruct (parse_value n t2) as [[v t3]|] eqn:Ev; [|reflexivity].
    apply (proj1 (parsers_consume n)) in Ev. cbn [mbind option_bind].
    destruct (skip_ws t3) as [|c' t4] eqn:E3; [reflexivity|].
    apply skip_ws_cons in E3.
    destruct (is_char "," c'); [|reflexivity].
    rewrite (IHm t4 m); [reflexivity | lia | lia].
Qed.

(** [JSON_parse] does not fail for lack of fuel: any larger amount gives
    the same value. *)
Lemma JSON_parse_fuel (s : string) (m : nat) :
  2 * String.length s + 2 <= m -> parse_value m s = parse_value (2 * String.length s + 2) s.
Proof.
  intros H. apply (proj1 (fuel_stable (2 * String.length s + 2))); lia.
Qed.

End JsonFuel.

(** ** AI analysis: the mock and the fallback tiers *)

Module AnalysisFacts.
Import Js Dashboard Props JsonFacts.

Lemma nonempty_not_empty (s : string) : nonempty s = true -> s <> EmptyString.
Proof. destruct s; [discriminate | discriminate]. Qed.

(** The static fallback has three or four suggestions. *)
Lemma generateFallbackAnalysis_shape (data : Data) (now : string) :
  nonempty_text (summary (generateFallbackAnalysis data now)) /\
  (3 <= length (suggestions (generateFallbackAnalysis data now)) <= 4)%nat.
Proof.
  unfold generateFallbackAnalysis. cbv zeta. cbn [summary suggestions].
  split.
  - eexists. split; [reflexivity|]. discriminate.
  - destruct (5 <? _)%nat; destruct (num_lt _ _);
      destruct (_ <? 5)%nat; try destruct (_ <? 60); cbn; lia.
Qed.

(** The heuristic summary starts with the word Journal. *)
Lemma fallback_summary_text (text : string) (error : option string) :
  exists rest, DeepSeek.summary (DeepSeek.generateFallbackSummary text error)
               = JStr (String "J" rest).
Proof. eexists. reflexivity. Qed.

(** The manual extraction yields a non-empty text without a double
    quote. *)
Lemma extracted_summary_text (responseText : string) :
  exists s, DeepSeek.summary (DeepSeek.extractManually responseText) = JStr s /\
            nonempty s = true /\ has_dquote s = false.
Proof.
  unfold DeepSeek.extractManually. cbv zeta. cbn [DeepSeek.summary].
  match goal with
  | |- context [foldl ?f None ?lines] =>
      assert (H : forall acc,
                 (forall s, acc = Some s -> has_dquote s = false) ->
                 forall s, foldl f acc lines = Some s -> has_dquote s = false)
  end.
  { generalize (List.filter (fun line => nonempty (trim line))
                  (split_on (is_char "010") responseText)).
    intros lines. induction lines as [|line lines IH]; intros acc Hacc s; cbn [foldl].
    - apply Hacc.
    - apply IH. intros s'.
      destruct (_ && _); [|apply Hacc].
      intros [= <-]. apply remove_quotes_free. }
  match goal with
  | |- context [foldl ?f None ?lines] => destruct (foldl f None lines) as [s|] eqn:E
  end.
  - destruct (nonempty s) eqn:Hs.
    + exists s. repeat split; [exact Hs|]. apply (H None); [discriminate | exact E].
    + eexists. repeat split.
  - eexists. repeat split.
Qed.

Section Facts.

Variable number_to_string : Q -> string.
Variable greater_than : JsVal -> Q -> bool.

Lemma generateAIAnalysis_analyse (env : DeepSeek.Env) (svc : DeepSeek.Service) (data : Data)
    (now : string) :
  generateAIAnalysis number_to_string greater_than env svc data now =
  try_catch
    (analyse number_to_string greater_than
       (DeepSeek.generateSummary number_to_string env svc
          (buildAnalysisPrompt number_to_string (goals data) (moods data) (medRuns data)
             (journalEntries data))
          analysisOptions)
       now)
    (fun _ => Return (generateFallbackAnalysis data now)).
Proof. reflexivity. Qed.

(** A summary text that is not JSON is passed on with the default
    suggestions. *)
Lemma analyse_plain_text (result : DeepSeek.SummaryResult) (data : Data) (now s : string) :
  DeepSeek.success result = true -> DeepSeek.summary result = JStr s ->
  nonempty s = true -> JSON_parse s = None ->
  exists a, try_catch (analyse number_to_string greater_than result now)
              (fun _ => Return (generateFallbackAnalysis data now)) = Return a /\ well_shaped a.
Proof.
  intros Hok Hs Hne Hp. unfold analyse. rewrite Hok, Hs. cbn [truthy is_object andb].
  rewrite Hne, Hp. cbv zeta.
  unfold parseAIAnalysis, parseAIAnalysis_try. cbn [is_object get mbind result_bind bind].
  replace (lookup_prop "summary" _) with (JStr s) by (vm_compute; reflexivity).
  replace (lookup_prop "suggestions" _) with JUndefined by (vm_compute; reflexivity).
  cbn [try_catch mbind result_bind bind].
  eexists. split; [reflexivity|].
  split; cbn [summary suggestions p_summary p_suggestions].
  - exists s. unfold or_else. cbn [truthy]. rewrite Hne.
    split; [reflexivity | now apply nonempty_not_empty].
  - cbn. lia.
Qed.

(** A summary text that is JSON without properties ends in the defaults
    of [parseAIAnalysis] (an array, the empty object) or, through the
    two [catch] blocks, in [generateFallbackAnalysis] (a number, a
    boolean, [null]). *)
Lemma analyse_keyless (result : DeepSeek.SummaryResult) (data : Data) (now s : string)
    (v : JsVal) :
  DeepSeek.success result = true -> DeepSeek.summary result = JStr s ->
  nonempty s = true -> JSON_parse s = Some v -> keyless v ->
  exists a, try_catch (analyse number_to_string greater_than result now)
              (fun _ => Return (generateFallbackAnalysis data now)) = Return a /\ well_shaped a.
Proof.
  intros Hok Hs Hne Hp Hk. unfold analyse. rewrite Hok, Hs. cbn [truthy is_object andb].
  rewrite Hne, Hp. cbv zeta.
  assert (Hfallback : exists a, Return (generateFallbackAnalysis data now) = Return a
                                /\ well_shaped a).
  { eexists. split; [reflexivity|].
    destruct (generateFallbackAnalysis_shape data now) as [H1 H2]. split; [exact H1 | lia]. }
  destruct v as [| |b|q|t|items|props]; try exact Hfallback; try contradiction.
  - vm_compute. eexists. split; [reflexivity|]. split.
    + eexists. split; [reflexivity | discriminate].
    + cbn. lia.
  - destruct props; [|contradiction].
    vm_compute. eexists. split; [reflexivity|]. split.
    + eexists. split; [reflexivity | discriminate].
    + cbn. lia.
Qed.

(** A response that was parsed carries neither of the two marks. *)
Lemma parsed_unmarked (responseText : string) (r : DeepSeek.SummaryResult) :
  DeepSeek.parseResponse_try responseText = Return r ->
  DeepSeek.fallback r = false /\ DeepSeek.extracted r = false.
Proof.
  unfold DeepSeek.parseResponse_try.
  destruct (match_braces _) as [jsonMatch|]; [|discriminate].
  unfold mbind, result_bind, bind.
  destruct (JSON_parse_result jsonMatch) as [parsed|]; [|discriminate].
  destruct (get parsed "sentiment") as [raw|]; [|discriminate].
  destruct (if truthy raw then DeepSeek.call_toLowerCase raw else Return "neutral")
    as [sent|]; [|discriminate].
  destruct (DeepSeek.array_includes DeepSeek.validSentiments sent).
  - destruct (get parsed "summary") as [text|]; [|discriminate].
    intros [= <-]. split; reflexivity.
  - destruct (get parsed "summary") as [text|]; [|discriminate].
    destruct (DeepSeek.call_toLowerCase _) as [lower|]; [|discriminate].
    intros [= <-]. split; reflexivity.
Qed.

(** The two tiers of failure give a summary text that is not JSON or
    has no double quote. *)
Lemma failure_tier_text (env : DeepSeek.Env) (svc : DeepSeek.Service) (text : string)
    (options : DeepSeek.Options) :
  let r := DeepSeek.generateSummary number_to_string env svc text options in
  DeepSeek.fallback r = true \/ DeepSeek.extracted r = true ->
  DeepSeek.success r = true /\
  exists s, DeepSeek.summary r = JStr s /\ nonempty s = true /\
            (JSON_parse s = None \/ has_dquote s = false).
Proof.
  cbv zeta. intros Hflag.
  destruct (DeepSeekFacts.generateSummary_tiers number_to_string env svc text options)
    as [E | [[e E] | [t E]]]; rewrite E in *.
  - destruct Hflag; discriminate.
  - split; [reflexivity|].
    destruct (fallback_summary_text text e) as [rest Hr]. rewrite Hr.
    eexists. split; [reflexivity|]. split; [reflexivity|]. left. apply JSON_parse_J.
  - unfold DeepSeek.parseResponse in *.
    destruct (DeepSeek.parseResponse_try t) as [r|msg] eqn:Et.
    + destruct (parsed_unmarked t r Et) as [H1 H2]. rewrite H1, H2 in Hflag.
      destruct Hflag; discriminate.
    + split; [reflexivity|].
      destruct (extracted_summary_text t) as (s & Hs & Hne & Hq).
      exists s. auto.
Qed.

(** When there is no client, or the provider rejects every call, the
    summary comes from the heuristic fallback. *)
Lemma provider_down_is_fallback (env : DeepSeek.Env) (svc : DeepSeek.Service) (text : string)
    (options : DeepSeek.Options) :
  DeepSeek.DEEPSEEK_MOCK env <> Some "true" ->
  DeepSeek.client svc = false \/
  (forall n, exists e, DeepSeek.chatCompletion svc n = DeepSeek.Rejected e) ->
  DeepSeek.fallback (DeepSeek.generateSummary number_to_string env svc text options) = true.
Proof.
  intros Hmock Hdown. unfold DeepSeek.generateSummary.
  rewrite bool_decide_eq_false_2 by assumption.
  unfold DeepSeek.generateSummary_try.
  destruct (DeepSeek.client svc); [|reflexivity].
  destruct Hdown as [?|Hrej]; [discriminate|]. cbn [negb].
  assert (Hloop : forall remaining attempt lastError,
            fst (DeepSeek.retry_loop svc remaining attempt lastError) = None).
  { induction remaining as [|k IH]; intros attempt lastError; [reflexivity|].
    cbn [DeepSeek.retry_loop]. destruct (Hrej attempt) as [e ->]. apply IH. }
  specialize (Hloop (DeepSeek.maxAttempts options) 1%nat None).
  destruct (DeepSeek.retry_loop _ _ _ _) as [completion lastError].
  cbn [fst] in Hloop. subst completion. reflexivity.
Qed.

(** A response in which no JSON object is found, or whose object is not
    valid JSON, is handled by the manual extraction. *)
Lemma unparsed_is_extracted (responseText msg : string) :
  DeepSeek.parseResponse_try responseText = Throw msg ->
  DeepSeek.extracted (DeepSeek.parseResponse responseText) = true.
Proof. intros H. unfold DeepSeek.parseResponse. now rewrite H. Qed.


(** C8. With [DEEPSEEK_MOCK] set to the text true, [generateSummary]
    returns the same canned object whatever the text, the options and
    the provider: its summary is the JSON text of the mock summary,
    its sentiment is neutral, its provider is mock. The analysis of the
    dashboard is then the same for all data: the mock summary text, the
    default suggestions and the provider mock (the time stamp is that
    of the call). *)
Theorem mock_is_constant (env : DeepSeek.Env)
    (svc1 svc2 : DeepSeek.Service) (text1 text2 : string) (options1 options2 : DeepSeek.Options)
    (data1 data2 : Data) (now : string) :
  DeepSeek.DEEPSEEK_MOCK env = Some "true" ->
  let r := DeepSeek.generateSummary number_to_string env svc1 text1 options1 in
  r = DeepSeek.generateSummary number_to_string env svc2 text2 options2 /\
  (exists text, DeepSeek.summary r = JStr text /\
     JSON_parse text =
       Some (JObj [("summary", JStr "Mock summary: consistent progress and steady mood.");
                   ("sentiment", JStr "neutral")])) /\
  DeepSeek.sentiment r = "neutral" /\
  DeepSeek.provider r = "mock" /\
  generateAIAnalysis number_to_string greater_than env svc1 data1 now =
    generateAIAnalysis number_to_string greater_than env svc2 data2 now /\
  exists a, generateAIAnalysis number_to_string greater_than env svc1 data1 now = Return a /\
            summary a = JStr "Mock summary: consistent progress and steady mood." /\
            suggestions a = defaultSuggestions /\
            provider a = JStr "mock" /\
            generatedAt a = now.
Proof.
  intros Hmock. cbv zeta.
  rewrite !generateAIAnalysis_analyse.
  rewrite !(DeepSeekFacts.generateSummary_mock number_to_string env) by assumption.
  split; [reflexivity|].
  split; [eexists; split; [reflexivity | vm_compute; reflexivity]|].
  split; [reflexivity|]. split; [reflexivity|]. split; [reflexivity|].
  eexists. split; [vm_compute; reflexivity|]. repeat split.
Qed.

End Facts.


(** C8 at work: two texts, two services, two sets of options. *)
Lemma mock_is_constant_witness :
  DeepSeek.generateSummary Samples.render_number (DeepSeek.mkEnv (Some "true")) Samples.unreachable
    "Today was a really good day!" (DeepSeek.mkOptions None)
  = DeepSeek.generateSummary Samples.render_number (DeepSeek.mkEnv (Some "true"))
      (DeepSeek.mkService false (fun _ => DeepSeek.Resolved None))
      "I had a really terrible day." (DeepSeek.mkOptions (Some 3)).
Proof.
  apply (mock_is_constant Samples.render_number Samples.number_greater
           (DeepSeek.mkEnv (Some "true")) Samples.unreachable
           (DeepSeek.mkService false (fun _ => DeepSeek.Resolved None))
           "Today was a really good day!" "I had a really terrible day."
           (DeepSeek.mkOptions None) (DeepSeek.mkOptions (Some 3))
           Samples.some_data (mkData None None None None) "2025-10-27T16:38:42.277Z").
  reflexivity.
Defined.

End AnalysisFacts.

(** * Further properties of the services *)

(** ** [JSON.stringify] then [JSON.parse] on a list of texts *)

Module RoundTripFacts.
Import Js.

(** Reading an escaped character gives the character back. *)
Lemma parse_escape_char (c : ascii) (t : string) :
  parse_string (escape_char c +:+ t) = push c (parse_string t).
Proof. destruct c as [[] [] [] [] [] [] [] []]; reflexivity. Qed.

Lemma append_assoc (a b c : string) : (a +:+ b) +:+ c = a +:+ (b +:+ c).
Proof.
  induction a as [|x a IH]; [reflexivity|].
  change (String x ((a +:+ b) +:+ c) = String x (a +:+ (b +:+ c))). now rewrite IH.
Qed.

Lemma parse_escape_string (s rest : string) :
  parse_string (escape_string s +:+ String dquote rest) = Some (s, rest).
Proof.
  induction s as [|c s IH]; [reflexivity|].
  cbn [escape_string]. rewrite append_assoc, parse_escape_char, IH. reflexivity.
Qed.

Lemma parse_value_quote (n : nat) (s rest : string) :
  parse_value (S n) (quote s +:+ rest) = Some (JStr s, rest).
Proof.
  unfold quote, dq. rewrite !append_assoc.
  change (String dquote "" +:+ ?x) with (String dquote x).
  cbn [parse_value].
  change (skip_ws (String dquote ?x)) with (String dquote x).
  change (is_char "{" dquote) with false.
  change (is_char "[" dquote) with false.
  change (is_char dquote dquote) with true. cbn iota.
  change (String dquote "" +:+ rest) with (String dquote rest).
  rewrite parse_escape_string. reflexivity.
Qed.

Lemma parse_elements_strings (l : list string) (x : string) (n : nat) (rest : string) :
  (length l + 2 <= n)%nat ->
  parse_elements n (String.concat "," (List.map quote (x :: l)) +:+ String "]" rest)
  = Some (List.map JStr (x :: l), rest).
Proof.
  revert x n. induction l as [|y l IH]; intros x n Hn.
  - destruct n as [|[|n]]; [simpl in Hn; lia..|].
    cbn [List.map String.concat]. rewrite JsonFuel.parse_elements_S.
    rewrite parse_value_quote. reflexivity.
  - destruct n as [|[|n]]; [simpl in Hn; lia..|].
    change (String.concat "," (List.map quote (x :: y :: l)))
      with (quote x +:+ String "," (String.concat "," (List.map quote (y :: l)))).
    rewrite append_assoc. rewrite JsonFuel.parse_elements_S.
    rewrite parse_value_quote.
    change (String "," ?a +:+ ?b) with (String "," (a +:+ b)).
    cbn [mbind option_bind].
    change (skip_ws (String "," ?a)) with (String "," a). cbn iota.
    change (is_char "," ",") with true. cbn iota.
    rewrite IH by (simpl in *; lia). reflexivity.
Qed.

Section Facts.

Variable number_to_string : Q -> string.

Lemma stringify_strings (l : list string) :
  JSON_stringify number_to_string (JArr (List.map JStr l))
  = "[" +:+ String.concat "," (List.map quote l) +:+ "]".
Proof. cbn [JSON_stringify]. rewrite List.map_map. reflexivity. Qed.

(** An array of texts that is written with [JSON.stringify] is read
    back by [JSON.parse] as it was, whatever characters the texts
    hold. *)
Lemma JSON_round_trip_strings (l : list string) :
  JSON_parse (JSON_stringify number_to_string (JArr (List.map JStr l)))
  = Some (JArr (List.map JStr l)).
Proof.
  rewrite stringify_strings. destruct l as [|x l]; [reflexivity|].
  unfold JSON_parse.
  set (text := "[" +:+ String.concat "," (List.map quote (x :: l)) +:+ "]").
  rewrite <- (proj1 (JsonFuel.fuel_stable (2 * String.length text + 2)%nat) text
                (S (2 * String.length text + 2 + (length l + 2)))%nat) by lia.
  unfold text.
  change ("[" +:+ ?a) with (String "[" a).
  rewrite JsonFacts.parse_value_S.
  change (skip_ws (String "[" ?a)) with (String "[" a). cbn iota.
  change (is_char "{" "[") with false. change (is_char "[" "[") with true. cbn iota.
  assert (Hq : exists t, String.concat "," (List.map quote (x :: l)) +:+ "]" = String dquote t).
  { destruct l; cbn [List.map String.concat]; unfold quote, dq; rewrite ?append_assoc;
      eexists; reflexivity. }
  destruct Hq as [t Ht].
  assert (Hs : skip_ws (String.concat "," (List.map quote (x :: l)) +:+ "]") = String dquote t).
  { rewrite Ht. reflexivity. }
  rewrite Hs. change (is_char "]" dquote) with false. cbn iota.
  rewrite <- Ht.
  rewrite parse_elements_strings by lia. reflexivity.
Qed.

End Facts.

End RoundTripFacts.

(** ** Goals: what the store keeps *)

Module GoalsStoreFacts.
Import Js Http Goals.

Lemma parseTagsValue_shape (raw : JsVal) :
  parseTagsValue raw = JNull \/ is_object (parseTagsValue raw) = true.
Proof.
  destruct raw as [| |b|q|text|items|props]; cbn [parseTagsValue is_object]; auto.
  destruct (JSON_parse text) as [[| |b|q|t|items|props]|];
    cbn [is_object]; auto;
    destruct (List.filter nonempty (List.map trim (split_on (is_char ",") text))); auto.
Qed.

Lemma parseTagsValue_fixed (v : JsVal) :
  v = JNull \/ is_object v = true -> parseTagsValue v = v.
Proof.
  intros [-> | H]; [reflexivity|].
  destruct v; try discriminate; reflexivity.
Qed.

(** X4. [parseTagsValue] gives [null], an array or an object, and
    leaves such a value as it is: applying it to its own result, as
    the controller does for a goal it has stored, changes nothing. *)
Theorem parseTagsValue_idempotent (raw : JsVal) :
  parseTagsValue (parseTagsValue raw) = parseTagsValue raw /\
  (parseTagsValue raw = JNull \/ is_object (parseTagsValue raw) = true).
Proof.
  split; [apply parseTagsValue_fixed|]; apply parseTagsValue_shape.
Qed.

Section Facts.

Variable number_to_string : Q -> string.

Lemma sql_update_lookup_ne (db : Table) (id userId j : Z) (ch : Changes) :
  j <> id -> sql_update number_to_string db id userId ch !! j = db !! j.
Proof.
  intros Hne. unfold sql_update.
  destruct (db !! id) as [g|]; [|reflexivity].
  destruct (user_id g =? userId); [|reflexivity].
  now rewrite lookup_insert_ne.
Qed.

Lemma sql_update_lookup (db : Table) (id userId : Z) (ch : Changes) :
  sql_update number_to_string db id userId ch !! id
  = (fun g => if user_id g =? userId then assign number_to_string ch g else g) <$> db !! id.
Proof.
  unfold sql_update. destruct (db !! id) as [g|] eqn:Hg; cbn [fmap option_fmap option_map].
  - destruct (user_id g =? userId); [now rewrite lookup_insert_eq | exact Hg].
  - exact Hg.
Qed.

(** X1. An update changes at most the row it names: every other row
    is as before, no row is created or removed, and the row keeps its
    owner and its creation time whatever the request carries. *)
Theorem updateGoal_frame (db : Table) (id userId j : Z) (ch : Changes) :
  j <> id ->
  let db' := fst (updateGoal number_to_string db id userId ch) in
  db' !! j = db !! j /\
  user_id <$> db' !! id = user_id <$> db !! id /\
  created_at <$> db' !! id = created_at <$> db !! id.
Proof.
  intros Hne. unfold updateGoal.
  destruct (no_fields ch); cbn [fst]; [auto|].
  split; [now apply sql_update_lookup_ne|].
  rewrite sql_update_lookup.
  destruct (db !! id) as [g|]; cbn [fmap option_fmap option_map]; [|auto].
  destruct (user_id g =? userId); auto.
Qed.

(** X2. When its owner deletes a goal, the answer is [true], the row
    is gone for every user, the other rows are as before, and deleting
    it once more gives [false]. *)
Theorem deleteGoal_by_owner (db : Table) (id j other : Z) (g : Goal) :
  db !! id = Some g -> j <> id ->
  let db' := fst (deleteGoal db id (user_id g)) in
  snd (deleteGoal db id (user_id g)) = true /\
  getGoalById db' id other = None /\
  db' !! j = db !! j /\
  deleteGoal db' id (user_id g) = (db', false).
Proof.
  intros Hg Hne. unfold deleteGoal at 1 2 3. rewrite Hg, Z.eqb_refl. cbn [fst snd].
  assert (Hgone : delete id db !! id = None) by apply lookup_delete_eq.
  repeat split.
  - unfold getGoalById. now rewrite Hgone.
  - now apply lookup_delete_ne.
  - unfold deleteGoal. now rewrite Hgone.
Qed.


(** X5. Tags survive the store: when the tags of an update are read by
    [parseTagsValue] as a list of texts (an array of strings, or a text
    with commas), the owner is answered with exactly this list, and
    reads the same list when the goal is fetched afterwards. *)
Theorem goal_tags_round_trip (db : Table) (id : Z) (g : Goal) (ch : Changes) (raw : JsVal)
    (l : list string) :
  db !! id = Some g -> c_tags ch = Some raw -> parseTagsValue raw = JArr (List.map JStr l) ->
  let out := update number_to_string db (user_id g) id ch in
  exists stored,
    fst out !! id = Some stored /\
    snd out = mkResponse 200 (goal_body id (with_tags stored (JArr (List.map JStr l)))) /\
    getOne (fst out) (user_id g) id = snd out.
Proof.
  intros Hg Hch Hraw. unfold update, updateGoal.
  assert (Hnf : forall a b c d e f, no_fields (mkChanges a b c d e f (option_map parseTagsValue (c_tags ch))) = false).
  { intros. rewrite Hch. unfold no_fields. cbn. destruct a, b, c, d, e, f; reflexivity. }
  rewrite Hnf. unfold sql_update. rewrite Hg, Z.eqb_refl.
  unfold getGoalById. rewrite lookup_insert_eq. cbn [user_id assign]. rewrite Z.eqb_refl.
  cbn [fst snd c_tags]. rewrite Hch. cbn [option_map]. rewrite Hraw. cbn [truthy tags].
  assert (Hread : parseTagsValue (JStr (JSON_stringify number_to_string (JArr (List.map JStr l))))
                  = JArr (List.map JStr l)).
  { cbn [parseTagsValue]. now rewrite RoundTripFacts.JSON_round_trip_strings. }
  match goal with |- context [assign number_to_string ?c g] => set (ch' := c) end.
  assert (Htags : tags (assign number_to_string ch' g)
                  = JStr (JSON_stringify number_to_string (JArr (List.map JStr l))))
    by reflexivity.
  rewrite Htags, Hread. eexists. split; [apply lookup_insert_eq|]. split; [reflexivity|].
  unfold getOne, getGoalById. rewrite lookup_insert_eq.
  change (user_id (assign number_to_string ch' g)) with (user_id g). rewrite Z.eqb_refl.
  rewrite Htags, Hread. reflexivity.
Qed.

End Facts.

(** X1 at work: user 8 ticks off goal 1; nothing appears under 2 and
    goal 1 stays with user 8. *)
Lemma updateGoal_frame_witness :
  fst (updateGoal Samples.render_number Samples.goals_table 1 8 Samples.toggle_completed) !! 2
    = Samples.goals_table !! 2 /\
  user_id <$> fst (updateGoal Samples.render_number Samples.goals_table 1 8
                     Samples.toggle_completed) !! 1 = Some 8.
Proof.
  destruct (updateGoal_frame Samples.render_number Samples.goals_table 1 8 2
              Samples.toggle_completed) as (H1 & H2 & _).
  - lia.
  - split; [exact H1|]. rewrite H2. reflexivity.
Defined.

(** X2 at work: user 8 deletes goal 1. *)
Lemma deleteGoal_by_owner_witness :
  snd (deleteGoal Samples.goals_table 1 8) = true /\
  getGoalById (fst (deleteGoal Samples.goals_table 1 8)) 1 8 = None.
Proof.
  destruct (deleteGoal_by_owner Samples.goals_table 1 2 8 Samples.run_5k) as (H1 & H2 & _).
  - reflexivity.
  - lia.
  - exact (conj H1 H2).
Defined.


(** X5 at work: the text with a comma comes back as two tags. *)
Lemma goal_tags_round_trip_witness :
  exists stored,
    fst (update Samples.render_number Samples.goals_table 8 1 Samples.tagged) !! 1 = Some stored /\
    snd (update Samples.render_number Samples.goals_table 8 1 Samples.tagged)
    = mkResponse 200 (goal_body 1 (with_tags stored (JArr [JStr "health"; JStr "running"]))).
Proof.
  destruct (goal_tags_round_trip Samples.render_number Samples.goals_table 1 Samples.run_5k
              Samples.tagged (JStr "health, running") ["health"; "running"])
    as (stored & H0 & H & _).
  - reflexivity.
  - reflexivity.
  - vm_compute. reflexivity.
  - exists stored. exact (conj H0 H).
Defined.

End GoalsStoreFacts.

(** ** Mood entries: the store and the controller *)

Module MoodStoreFacts.
Import Js Http Mood.

Section Facts.

Variable toMySQLDateTime_of : string -> option string.
Variable fromMySQLDateTime_of : string -> string.
Variable number_to_string : Q -> string.
Variable on_update : Row -> Row -> option string.

Lemma getEntry_other (db : Table) (id : string) (a : Z) (row : Row) :
  db !! id = Some row -> user_id row <> a -> getEntry fromMySQLDateTime_of db id a = None.
Proof.
  intros Hrow Hne. unfold getEntry. rewrite Hrow.
  destruct (Z.eqb_spec (user_id row) a); [contradiction | reflexivity].
Qed.

Lemma updateEntry_other (db : Table) (id : string) (a : Z) (row : Row) (changes : Changes) :
  db !! id = Some row -> user_id row <> a ->
  updateEntry toMySQLDateTime_of fromMySQLDateTime_of number_to_string on_update db id a changes = Return (db, None) \/
  exists e, updateEntry toMySQLDateTime_of fromMySQLDateTime_of number_to_string on_update db id a changes = Throw e.
Proof.
  intros Hrow Hne. unfold updateEntry.
  destruct (no_fields changes).
  - left. now rewrite (getEntry_other db id a row).
  - destruct (c_date changes) as [d|]; cbn [mbind result_bind bind].
    + destruct (toMySQLDateTime toMySQLDateTime_of d) as [d'|e]; cbn [mbind result_bind bind mret result_ret];
        [|right; eauto].
      left. rewrite Hrow. destruct (Z.eqb_spec (user_id row) a); [contradiction | reflexivity].
    + left. cbn [mret result_ret]. rewrite Hrow.
      destruct (Z.eqb_spec (user_id row) a); [contradiction | reflexivity].
Qed.

(** X6. A mood entry of one user does not exist for another: reading
    it gives [null], deleting it gives [false], an update gives [null]
    unless its date is rejected before the table is touched; the
    table stays as it was and the controller answers 404 (500 for the
    rejected date). *)
Theorem mood_entry_of_another_user (db : Table) (id : string) (a : Z) (row : Row)
    (changes : Changes) :
  db !! id = Some row -> user_id row <> a ->
  getEntry fromMySQLDateTime_of db id a = None /\
  deleteEntry db id a = (db, false) /\
  (updateEntry toMySQLDateTime_of fromMySQLDateTime_of number_to_string on_update db id a changes = Return (db, None) \/
   exists e, updateEntry toMySQLDateTime_of fromMySQLDateTime_of number_to_string on_update db id a changes = Throw e) /\
  status (MoodController.getEntry fromMySQLDateTime_of db a id) = 404 /\
  MoodController.deleteEntry db a id = (db, mkResponse 404 (MoodController.message_body "Entry not found")) /\
  (let out := MoodController.updateEntry toMySQLDateTime_of fromMySQLDateTime_of number_to_string
                on_update db a id changes in
   fst out = db /\ (status (snd out) = 404 \/ status (snd out) = 500)).
Proof.
  intros Hrow Hne.
  pose proof (getEntry_other db id a row Hrow Hne) as Hget.
  pose proof (updateEntry_other db id a row changes Hrow Hne) as Hupd.
  assert (Hdel : deleteEntry db id a = (db, false)).
  { unfold deleteEntry. rewrite Hrow.
    destruct (Z.eqb_spec (user_id row) a); [contradiction | reflexivity]. }
  repeat split; try assumption.
  - unfold MoodController.getEntry. now rewrite Hget.
  - unfold MoodController.deleteEntry. now rewrite Hdel.
  - unfold MoodController.updateEntry.
    destruct Hupd as [-> | [e ->]]; reflexivity.
  - unfold MoodController.updateEntry.
    destruct Hupd as [-> | [e ->]]; cbn; auto.
Qed.

(** X7. An update that returns touches at most the row it names: the
    other rows are as before, the row keeps its owner and its creation
    time, the answer is what [getEntry] gives afterwards, and a score
    that the update sets is never stored as 0 or [NULL]. *)
Theorem mood_updateEntry_frame (db db' : Table) (id j : string) (userId : Z) (changes : Changes)
    (answer : option Entry) :
  updateEntry toMySQLDateTime_of fromMySQLDateTime_of number_to_string on_update db id userId changes = Return (db', answer) -> j <> id ->
  db' !! j = db !! j /\
  user_id <$> db' !! id = user_id <$> db !! id /\
  created_at <$> db' !! id = created_at <$> db !! id /\
  answer = getEntry fromMySQLDateTime_of db' id userId /\
  (c_score changes <> None -> answer <> None ->
   exists z, score <$> db' !! id = Some (Some z) /\ z <> 0).
Proof.
  unfold updateEntry. intros H Hj.
  destruct (no_fields changes) eqn:Hnf.
  { injection H as <- <-. repeat split.
    intros Hs. unfold no_fields in Hnf. destruct (c_score changes); [discriminate | contradiction]. }
  destruct (match c_date changes with
            | Some d => toMySQLDateTime toMySQLDateTime_of d ≫= λ d', Return (Some d')
            | None => Return None
            end) as [date'|e] eqn:Hd; cbn [mbind result_bind bind] in H; [|discriminate].
  destruct (db !! id) as [row|] eqn:Hrow.
  - destruct (Z.eqb_spec (user_id row) userId) as [Hown|Hown].
    + injection H as <- <-. rewrite lookup_insert_eq, lookup_insert_ne by congruence.
      repeat split. intros Hs _.
      destruct (c_score changes) as [v|] eqn:Hv; [|contradiction].
      eexists. cbn [fmap option_fmap option_map stamp assign score]. rewrite Hv.
      split; [reflexivity|]. apply MoodFacts.or_int_nonzero. lia.
    + injection H as <- <-. rewrite Hrow. repeat split.
      * unfold getEntry. rewrite Hrow.
        destruct (Z.eqb_spec (user_id row) userId); [contradiction | reflexivity].
      * intros _ Habs. contradiction.
  - injection H as <- <-. rewrite Hrow. repeat split.
    + unfold getEntry. now rewrite Hrow.
    + intros _ Habs. contradiction.
Qed.

Lemma read_tags_strings (l : list string) :
  read_tags (JStr (JSON_stringify number_to_string (JArr (List.map JStr l)))) = List.map JStr l.
Proof.
  unfold read_tags.
  assert (Ht : truthy (JStr (JSON_stringify number_to_string (JArr (List.map JStr l)))) = true).
  { rewrite RoundTripFacts.stringify_strings. reflexivity. }
  rewrite Ht, RoundTripFacts.JSON_round_trip_strings. reflexivity.
Qed.

(** X8. The tags of a new mood entry survive the store: a list of
    texts sent as an array is returned as the same list, and read as
    the same list when the entry is fetched afterwards. *)
Theorem mood_tags_round_trip (db : Table) (fresh now : string) (userId : Z) (payload : Payload)
    (l : list string) (d : option string) :
  db !! default fresh (truthy_string (p_id payload)) = None ->
  toMySQLDateTime toMySQLDateTime_of (p_date payload) = Return d ->
  p_tags payload = JArr (List.map JStr l) ->
  exists db' e,
    createEntry toMySQLDateTime_of fromMySQLDateTime_of number_to_string db fresh now userId payload = Return (db', Some e) /\
    e_tags e = List.map JStr l /\
    getEntry fromMySQLDateTime_of db' (e_id e) userId = Some e.
Proof.
  intros Hfresh Hdate Htags. unfold createEntry.
  rewrite Hdate. cbn [mbind result_bind bind]. rewrite Hfresh, Htags.
  unfold getEntry. rewrite lookup_insert_eq. cbn [user_id]. rewrite Z.eqb_refl.
  eexists _, _. split; [reflexivity|]. cbn [sanitizeEntry e_tags e_id tags].
  split; [apply read_tags_strings|].
  rewrite lookup_insert_eq. cbn [user_id]. rewrite Z.eqb_refl. reflexivity.
Qed.

(** X9. [POST /api/mood/entries] is answered with 400 exactly when the
    score is falsy (missing, 0, empty) or the date is missing; the
    other answers are 201 and 500, and the table changes only with a
    201. *)
Theorem mood_create_validation (db : Table) (fresh now : string) (userId : Z) (body : Payload) :
  let out := MoodController.createEntry toMySQLDateTime_of fromMySQLDateTime_of number_to_string
               db fresh now userId body in
  (status (snd out) = 400 <->
   truthy (p_score body) = false \/ truthy_string (p_date body) = None) /\
  (status (snd out) = 400 \/ status (snd out) = 201 \/ status (snd out) = 500) /\
  (status (snd out) <> 201 -> fst out = db).
Proof.
  unfold MoodController.createEntry.
  destruct (truthy (p_score body)) eqn:Hs; cbn [negb orb].
  - destruct (truthy_string (p_date body)) as [iso|] eqn:Hd.
    + rewrite bool_decide_true by eauto. cbn [negb].
      destruct (createEntry _ _ _ db fresh now userId body) as [[db' created]|e]; cbn [fst snd status].
      * split; [split; [discriminate | intros [|]; discriminate]|]. split; [auto|]. intros H. contradiction.
      * split; [split; [discriminate | intros [|]; discriminate]|]. split; [auto|]. reflexivity.
    + rewrite bool_decide_false by (intros [x Hx]; discriminate). cbn [negb fst snd status].
      split; [split; auto|]. split; [auto|]. reflexivity.
  - cbn [fst snd status]. split; [split; auto|]. split; [auto|]. reflexivity.
Qed.

End Facts.

(** X6 at work: user 7 asks for an entry of user 8. *)
Lemma mood_entry_of_another_user_witness :
  getEntry (fun s => s) Samples.mood_table "mood-1" 7 = None /\
  deleteEntry Samples.mood_table "mood-1" 7 = (Samples.mood_table, false).
Proof.
  destruct (mood_entry_of_another_user Samples.sample_date (fun s => s) Samples.render_number
              Samples.touch Samples.mood_table "mood-1" 7 Samples.calm_evening Samples.rescore)
    as (H1 & H2 & _).
  - reflexivity.
  - simpl. lia.
  - exact (conj H1 H2).
Defined.

(** X7 at work: the owner sends a score that is no number; the entry
    is stored with a score that is not 0, no entry appears elsewhere. *)
Lemma mood_updateEntry_frame_witness :
  exists db' answer,
    updateEntry Samples.sample_date (fun s => s) Samples.render_number Samples.touch
      Samples.mood_table "mood-1" 8 Samples.rescore = Return (db', answer) /\
    db' !! "mood-9" = Samples.mood_table !! "mood-9" /\
    answer = getEntry (fun s => s) db' "mood-1" 8 /\
    exists z, score <$> db' !! "mood-1" = Some (Some z) /\ z <> 0.
Proof.
  destruct (updateEntry Samples.sample_date (fun s => s) Samples.render_number Samples.touch
              Samples.mood_table "mood-1" 8 Samples.rescore) as [[db' answer]|e] eqn:E;
    [|vm_compute in E; discriminate].
  destruct (mood_updateEntry_frame Samples.sample_date (fun s => s) Samples.render_number
              Samples.touch Samples.mood_table db' "mood-1" "mood-9" 8 Samples.rescore answer E)
    as (H1 & _ & _ & H4 & H5).
  - discriminate.
  - exists db', answer. split; [reflexivity|]. split; [exact H1|]. split; [exact H4|].
    apply H5; [discriminate|].
    vm_compute in E. injection E as _ <-. discriminate.
Defined.

(** X8 at work: two tags are stored and read back. *)
Lemma mood_tags_round_trip_witness :
  exists db' e,
    createEntry Samples.sample_date (fun s => s) Samples.render_number
      Samples.mood_table "mood-0" "2025-10-28 08:00:00" 8 Samples.calm_walk = Return (db', Some e) /\
    e_tags e = [JStr "calm"; JStr "walk"].
Proof.
  destruct (mood_tags_round_trip Samples.sample_date (fun s => s) Samples.render_number
              Samples.mood_table "mood-0" "2025-10-28 08:00:00" 8 Samples.calm_walk
              ["calm"; "walk"] (Some "2025-10-28T08:00:00.000Z"))
    as (db' & e & H1 & H2 & _).
  - reflexivity.
  - reflexivity.
  - reflexivity.
  - exists db', e. exact (conj H1 H2).
Defined.

End MoodStoreFacts.

(** ** Meditation: shared sessions, private sessions, runs *)

Module MeditationFacts.
Import Js Meditation.

Lemma sql_eq_null (user : option Z) : sql_eq None user = false.
Proof. reflexivity. Qed.

Lemma sql_eq_refl (u : Z) : sql_eq (Some u) (Some u) = true.
Proof. apply Z.eqb_refl. Qed.

Lemma sql_eq_other (u : Z) (other : option Z) : other <> Some u -> sql_eq (Some u) other = false.
Proof.
  intros H. destruct other as [v|]; [|reflexivity]. cbn [sql_eq].
  destruct (Z.eqb_spec u v); [congruence | reflexivity].
Qed.

Section Facts.

Variable toMySQLDateTime_of : string -> option string.
Variable fromMySQLDateTime_of : string -> string.
Variable on_update : SessionRow -> SessionRow -> option string.

(** X10. A session without an owner is shared and read-only: every
    caller, signed in or not, reads it; no caller changes or deletes
    it, whatever the update carries; the table stays as it was. *)
Theorem default_session_is_read_only (db : Sessions) (sessionId : string) (row : SessionRow)
    (user : option Z) (changes : SessionChanges) :
  db !! sessionId = Some row -> s_user_id row = None ->
  getSession fromMySQLDateTime_of db sessionId user
    = sanitizeSession fromMySQLDateTime_of (Some (sessionId, row)) /\
  fst (updateSession fromMySQLDateTime_of on_update db sessionId user changes) = db /\
  (no_fields changes = false ->
   snd (updateSession fromMySQLDateTime_of on_update db sessionId user changes) = None) /\
  deleteSession db sessionId user = (db, false).
Proof.
  intros Hrow Hnull. repeat split.
  - unfold getSession, visible. now rewrite Hrow, Hnull.
  - unfold updateSession. destruct (no_fields changes); [reflexivity|].
    now rewrite Hrow, Hnull.
  - intros Hnf. unfold updateSession. now rewrite Hnf, Hrow, Hnull.
  - unfold deleteSession. now rewrite Hrow, Hnull.
Qed.

(** X11. A session a user creates is private and lasts: it is
    returned with the user as its owner and with minutes that are never
    0 (10 when the request has none, or none that are a number); the
    owner reads it back, every other caller, signed in or not, gets
    [null] and can neither change nor delete it. *)
Theorem created_session_is_private (db : Sessions) (fresh now : string) (u : Z) (other : option Z)
    (payload : NewSession) (changes : SessionChanges) :
  db !! default fresh (Mood.truthy_string (n_id payload)) = None -> other <> Some u ->
  exists db' s,
    createSession fromMySQLDateTime_of db fresh now (Some u) payload = Return (db', Some s) /\
    userId s = Some u /\ minutes s <> 0 /\
    getSession fromMySQLDateTime_of db' (id s) (Some u) = Some s /\
    getSession fromMySQLDateTime_of db' (id s) other = None /\
    fst (updateSession fromMySQLDateTime_of on_update db' (id s) other changes) = db' /\
    deleteSession db' (id s) other = (db', false).
Proof.
  intros Hfresh Hother. unfold createSession. rewrite Hfresh.
  set (sessionId := default fresh (Mood.truthy_string (n_id payload))).
  match goal with |- context [<[sessionId := ?r]> db] => set (row := r) end.
  assert (Hrow : <[sessionId := row]> db !! sessionId = Some row) by apply lookup_insert_eq.
  assert (Hget : getSession fromMySQLDateTime_of (<[sessionId := row]> db) sessionId (Some u)
                 = sanitizeSession fromMySQLDateTime_of (Some (sessionId, row))).
  { unfold getSession, visible. rewrite Hrow. cbn [s_user_id row]. now rewrite sql_eq_refl. }
  rewrite Hget. eexists _, _. split; [reflexivity|]. cbn [sanitizeSession userId minutes id].
  split; [reflexivity|]. split.
  { cbn [s_minutes row]. rewrite MoodFacts.read_back by (apply MoodFacts.or_int_nonzero; lia).
    apply MoodFacts.or_int_nonzero; lia. }
  split; [exact Hget|].
  assert (Hno : sql_eq (s_user_id row) other = false) by (apply sql_eq_other; exact Hother).
  repeat split.
  - unfold getSession, visible. rewrite Hrow. cbn [s_user_id row] in *. now rewrite Hno.
  - unfold updateSession. destruct (no_fields changes); [reflexivity|]. now rewrite Hrow, Hno.
  - unfold deleteSession. now rewrite Hrow, Hno.
Qed.


End Facts.

(** X10 at work: user 8 tries to rename and to delete the session
    that comes with the application. *)
Lemma default_session_is_read_only_witness :
  fst (updateSession (fun s => s) Samples.touch Samples.sessions "s-breathing" (Some 8)
         Samples.rename) = Samples.sessions /\
  deleteSession Samples.sessions "s-breathing" (Some 8) = (Samples.sessions, false).
Proof.
  destruct (default_session_is_read_only (fun s => s) Samples.touch Samples.sessions
              "s-breathing" Samples.breathing (Some 8) Samples.rename) as (_ & H2 & _ & H4).
  - reflexivity.
  - reflexivity.
  - exact (conj H2 H4).
Defined.

(** X11 at work: user 8 creates a session whose minutes are no number;
    user 7 does not see it. *)
Lemma created_session_is_private_witness :
  exists db' s,
    createSession (fun s => s) Samples.sessions "s-0" "2025-10-28 08:00:00" (Some 8)
      Samples.evening = Return (db', Some s) /\
    minutes s <> 0 /\
    getSession (fun s => s) db' (id s) (Some 7) = None.
Proof.
  destruct (created_session_is_private (fun s => s) Samples.touch Samples.sessions "s-0"
              "2025-10-28 08:00:00" 8 (Some 7) Samples.evening Samples.rename)
    as (db' & s & H1 & _ & H3 & _ & H5 & _).
  - reflexivity.
  - discriminate.
  - exists db', s. exact (conj H1 (conj H3 H5)).
Defined.


End MeditationFacts.

(** ** Journal: the mood between the page and the table *)

Module JournalFacts.
Import Js Journal.



End JournalFacts.

(** ** Summaries: what every result has, and how often the provider is called *)

Module SummaryFacts.
Import Js DeepSeek.

(** What a result of the tier that parsed the response looks like. *)
Lemma parsed_fields (responseText : string) (r : SummaryResult) :
  parseResponse_try responseText = Return r ->
  success r = true /\ truthy (summary r) = true /\ error r = None /\ provider r = "deepseek".
Proof.
  unfold parseResponse_try.
  destruct (match_braces _) as [jsonMatch|]; [|discriminate].
  unfold mbind, result_bind, bind.
  destruct (JSON_parse_result jsonMatch) as [parsed|]; [|discriminate].
  destruct (get parsed "sentiment") as [raw|]; [|discriminate].
  destruct (if truthy raw then call_toLowerCase raw else Return "neutral")
    as [sent|]; [|discriminate].
  assert (Hor : forall text, truthy (or_else text (JStr "Summary not available")) = true).
  { intros text. unfold or_else. destruct (truthy text) eqn:E; [exact E | reflexivity]. }
  destruct (array_includes validSentiments sent).
  - destruct (get parsed "summary") as [text|]; [|discriminate].
    intros [= <-]. cbn [success summary error provider]. auto.
  - destruct (get parsed "summary") as [text|]; [|discriminate].
    destruct (call_toLowerCase _) as [lower|]; [|discriminate].
    intros [= <-]. cbn [success summary error provider]. auto.
Qed.

Lemma retry_loop_ext (svc1 svc2 : Service) (remaining attempt : nat) (lastError : option string) :
  (forall k, (attempt <= k < attempt + remaining)%nat ->
             chatCompletion svc1 k = chatCompletion svc2 k) ->
  retry_loop svc1 remaining attempt lastError = retry_loop svc2 remaining attempt lastError.
Proof.
  revert attempt lastError. induction remaining as [|n IH]; intros attempt lastError H;
    [reflexivity|].
  cbn [retry_loop]. rewrite <- (H attempt) by lia.
  destruct (chatCompletion svc1 attempt); [|reflexivity].
  apply IH. intros k Hk. apply H. lia.
Qed.

Section Facts.

Variable number_to_string : Q -> string.

(** X14. Every result of [generateSummary] reports success and has a
    truthy summary; it carries an error only together with the mark of
    the heuristic fallback; its provider is one of three names. So the
    callers' branches for a failed summary (an error without the mark,
    or no success or no summary) are never taken. *)
Theorem generateSummary_result_invariants (env : Env) (svc : Service) (text : string)
    (options : Options) :
  let r := generateSummary number_to_string env svc text options in
  success r = true /\
  truthy (summary r) = true /\
  (error r = None \/ fallback r = true) /\
  (provider r = "mock" \/ provider r = "deepseek" \/ provider r = "deepseek-fallback").
Proof.
  cbv zeta.
  destruct (DeepSeekFacts.generateSummary_tiers number_to_string env svc text options)
    as [E | [[e E] | [t E]]]; rewrite E.
  - repeat split; auto.
  - repeat split; auto.
  - unfold parseResponse. destruct (parseResponse_try t) as [r|msg] eqn:Et.
    + destruct (parsed_fields t r Et) as (H1 & H2 & H3 & H4). repeat split; auto.
    + destruct (AnalysisFacts.extracted_summary_text t) as (s & Hs & Hne & _).
      rewrite Hs. cbn [truthy]. repeat split; auto.
Qed.

(** X15. [generateSummary] calls the provider at most [maxAttempts]
    times, which is at least once: the result is the same for two
    providers that agree on these first calls, whatever they would
    answer later. *)
Theorem generateSummary_calls_bounded (env : Env) (svc1 svc2 : Service) (text : string)
    (options : Options) :
  client svc1 = client svc2 ->
  (forall k, (1 <= k <= maxAttempts options)%nat -> chatCompletion svc1 k = chatCompletion svc2 k) ->
  generateSummary number_to_string env svc1 text options
    = generateSummary number_to_string env svc2 text options /\
  (1 <= maxAttempts options)%nat.
Proof.
  intros Hc Hk. split.
  - unfold generateSummary, generateSummary_try. rewrite Hc.
    rewrite (retry_loop_ext svc1 svc2); [reflexivity|].
    intros k Hr. apply Hk. lia.
  - unfold maxAttempts. destruct (retries options) as [r|]; [|lia].
    destruct (Z.leb_spec 0 r); lia.
Qed.

(** X16. The self-test of the service, when a client is configured,
    succeeds exactly when the summary did not come from the heuristic
    fallback, and never reports an error text: a provider that is out
    of reach shows as [success: false] with [fallback: true] and no
    error. *)
Theorem testService_success (env : Env) (svc : Service) :
  client svc = true ->
  let t := testService number_to_string env svc in
  t_success t = negb (t_fallback t) /\ t_error t = None.
Proof.
  intros Hc. unfold testService. rewrite Hc. cbn [negb t_success t_fallback t_error].
  split; [|reflexivity].
  unfold generateSummary. destruct (bool_decide _); [reflexivity|].
  unfold generateSummary_try. rewrite Hc. cbn [negb].
  destruct (retry_loop _ _ _ _) as [completion lastError].
  destruct (first_message completion) as [msg|].
  - unfold parseResponse. destruct (parseResponse_try _) as [r|e] eqn:Et.
    + destruct (parsed_fields _ r Et) as (H1 & _ & H3 & _).
      destruct (AnalysisFacts.parsed_unmarked _ r Et) as [H4 _].
      rewrite H1, H3, H4. reflexivity.
    + reflexivity.
  - reflexivity.
Qed.

End Facts.

Lemma remove_chars_free (p : ascii -> bool) (s : string) :
  Props.has_char p (remove_chars p s) = false.
Proof.
  induction s as [|c s IH]; [reflexivity|]. cbn [remove_chars].
  destruct (p c) eqn:E; [exact IH|]. cbn [Props.has_char]. now rewrite E, IH.
Qed.

(** X17. The summary of the manual extraction is a text that is never
    empty and holds neither a single nor a double quote. *)
Theorem extractManually_summary_clean (responseText : string) :
  exists s, summary (extractManually responseText) = JStr s /\
            s <> EmptyString /\ Props.has_char is_quote s = false.
Proof.
  unfold extractManually. cbv zeta. cbn [summary].
  match goal with
  | |- context [foldl ?f None ?lines] =>
      assert (H : forall acc,
                 (forall s, acc = Some s -> Props.has_char is_quote s = false) ->
                 forall s, foldl f acc lines = Some s -> Props.has_char is_quote s = false)
  end.
  { generalize (List.filter (fun line => nonempty (trim line))
                  (split_on (is_char "010") responseText)).
    intros lines. induction lines as [|line lines IH]; intros acc Hacc s; cbn [foldl].
    - apply Hacc.
    - apply IH. intros s'.
      destruct (_ && _); [|apply Hacc].
      intros [= <-]. apply remove_chars_free. }
  match goal with
  | |- context [foldl ?f None ?lines] => destruct (foldl f None lines) as [s|] eqn:E
  end.
  - destruct (nonempty s) eqn:Hs.
    + exists s. split; [reflexivity|]. split; [now apply AnalysisFacts.nonempty_not_empty|].
      apply (H None); [discriminate | exact E].
    + eexists. split; [reflexivity|]. split; [discriminate | reflexivity].
  - eexists. split; [reflexivity|]. split; [discriminate | reflexivity].
Qed.

Lemma split_runs_nonempty (p : ascii -> bool) (in_sep : bool) (s : string) :
  (1 <= length (split_runs p in_sep s))%nat.
Proof.
  revert in_sep. induction s as [|c s IH]; intros in_sep; cbn [split_runs]; [cbn; lia|].
  destruct (p c).
  - destruct in_sep; [apply IH | cbn [length]; lia].
  - specialize (IH false). destruct (split_runs p false s); cbn [cons_head length] in *; lia.
Qed.

Lemma split_runs_length (p : ascii -> bool) (in_sep : bool) (s : string) :
  (length (split_runs p in_sep s) <= String.length s + 1)%nat.
Proof.
  revert in_sep. induction s as [|c s IH]; intros in_sep; cbn [split_runs String.length];
    [cbn; lia|].
  destruct (p c).
  - destruct in_sep; [specialize (IH true); lia | specialize (IH true); cbn [length]; lia].
  - specialize (IH false). destruct (split_runs p false s); cbn [cons_head length] in *; lia.
Qed.

(** X18. The heuristic fallback counts at least one word, also in the
    empty text, never more words than the text has characters plus one,
    and no more signals than it has key words. *)
Theorem fallback_counts (text : string) (e : option string) :
  exists a, analysis (generateFallbackSummary text e) = Some a /\
    (1 <= wordCount a <= String.length text + 1)%nat /\
    (positiveSignals a <= 25)%nat /\ (negativeSignals a <= 24)%nat.
Proof.
  unfold generateFallbackSummary. cbv zeta. cbn [analysis].
  eexists. split; [reflexivity|]. cbn [wordCount positiveSignals negativeSignals].
  split; [split; [apply split_runs_nonempty | apply split_runs_length]|].
  split.
  - etransitivity; [apply List.filter_length_le|]. reflexivity.
  - etransitivity; [apply List.filter_length_le|]. reflexivity.
Qed.

Lemma upto_last_close_head (c : ascii) (t m : string) :
  upto_last_close (String c t) = Some m -> exists t', m = String c t'.
Proof.
  cbn [upto_last_close]. destruct (upto_last_close t) as [u|].
  - intros [= <-]. eauto.
  - destruct (is_char "}" c); [|discriminate]. intros [= <-]. eauto.
Qed.

Lemma match_braces_head (s m : string) :
  match_braces s = Some m -> exists t, m = String "{" t.
Proof.
  unfold match_braces. induction s as [|c s IH]; [discriminate|].
  cbn [drop_until_open]. destruct (is_char "{" c) eqn:E; [|exact IH].
  apply Ascii.eqb_eq in E. subst c. apply upto_last_close_head.
Qed.

Lemma JSON_parse_open_brace (t : string) (v : JsVal) :
  JSON_parse (String "{" t) = Some v -> exists props, v = JObj props.
Proof.
  unfold JSON_parse.
  replace (2 * String.length (String "{" t) + 2)%nat
    with (S (2 * String.length (String "{" t) + 1))%nat by lia.
  rewrite JsonFacts.parse_value_S.
  change (skip_ws (String "{" t)) with (String "{" t). cbn iota.
  change (is_char "{" "{") with true. cbn iota.
  destruct (skip_ws t) as [|c' r']; [discriminate|].
  destruct (is_char "}" c').
  - destruct (skip_ws r'); [|discriminate]. intros [= <-]. eauto.
  - destruct (parse_members _ _) as [[ms rest]|]; cbn [mbind option_bind]; [|discriminate].
    destruct (skip_ws rest); [|discriminate]. intros [= <-]. eauto.
Qed.

(** X19. A response is taken as parsed only when the text between its
    first opening and its last closing brace is a JSON object: the
    result then carries the [summary] of that object, or the words
    Summary not available; an array or a primitive is never accepted. *)
Theorem parsed_response_is_an_object (responseText : string) :
  extracted (parseResponse responseText) = false ->
  exists jsonMatch props,
    match_braces (cleanResponse responseText) = Some jsonMatch /\
    JSON_parse jsonMatch = Some (JObj props) /\
    summary (parseResponse responseText)
      = or_else (lookup_prop "summary" props) (JStr "Summary not available").
Proof.
  unfold parseResponse.
  destruct (parseResponse_try responseText) as [r|e] eqn:E; [|discriminate].
  intros _. revert E. unfold parseResponse_try.
  destruct (match_braces (cleanResponse responseText)) as [jsonMatch|] eqn:Hm; [|discriminate].
  destruct (match_braces_head _ _ Hm) as [t ->].
  unfold JSON_parse_result.
  destruct (JSON_parse (String "{" t)) as [v|] eqn:Hp; [|discriminate].
  destruct (JSON_parse_open_brace t v Hp) as [props ->].
  unfold mbind, result_bind, bind. cbn [get].
  destruct (if truthy (lookup_prop "sentiment" props) then _ else _) as [sent|]; [|discriminate].
  destruct (array_includes validSentiments sent).
  - intros [= <-]. exists (String "{" t), props. auto.
  - destruct (call_toLowerCase _); [|discriminate].
    intros [= <-]. exists (String "{" t), props. auto.
Qed.

(** X15 at work: with the default of two attempts, a provider that
    would answer the third call gives the same result as one that is
    never reached. *)
Lemma generateSummary_calls_bounded_witness :
  generateSummary Samples.render_number (mkEnv None) Samples.unreachable
    "Walked to the lake." (mkOptions None)
  = generateSummary Samples.render_number (mkEnv None) Samples.recovering
      "Walked to the lake." (mkOptions None).
Proof.
  apply (generateSummary_calls_bounded Samples.render_number (mkEnv None) Samples.unreachable
           Samples.recovering "Walked to the lake." (mkOptions None)).
  - reflexivity.
  - intros k Hk. change (maxAttempts (mkOptions None)) with 2%nat in Hk.
    destruct k as [|[|[|k]]]; [reflexivity | reflexivity | reflexivity | lia].
Defined.

(** X16 at work: the provider is out of reach. *)
Lemma testService_success_witness :
  t_success (testService Samples.render_number (mkEnv None) Samples.unreachable) = false /\
  t_error (testService Samples.render_number (mkEnv None) Samples.unreachable) = None.
Proof.
  destruct (testService_success Samples.render_number (mkEnv None) Samples.unreachable)
    as [H1 H2].
  - reflexivity.
  - split; [|exact H2]. rewrite H1. vm_compute. reflexivity.
Defined.

(** X19 at work: an object with a summary and no sentiment. *)
Lemma parsed_response_is_an_object_witness :
  exists props,
    JSON_parse Samples.happy_without_sentiment = Some (JObj props) /\
    summary (parseResponse Samples.happy_without_sentiment) = JStr "A happy day".
Proof.
  destruct (parsed_response_is_an_object Samples.happy_without_sentiment)
    as (jsonMatch & props & H1 & H2 & H3).
  - reflexivity.
  - vm_compute in H1. injection H1 as <-.
    exists props. split; [exact H2|]. rewrite H3.
    vm_compute in H2. injection H2 as <-. reflexivity.
Defined.

End SummaryFacts.

(** ** Dashboard statistics: goals by priority, the average mood, the minutes *)

Module StatsMoreFacts.
Import Js Dashboard Props.

Lemma tally_loop (gs : list Goal) : forall acc : ByPriority,
  let r := foldl tally acc gs in
  (open (bp_low r) + open (bp_medium r) + open (bp_high r)
   = open (bp_low acc) + open (bp_medium acc) + open (bp_high acc)
     + (length gs - length (List.filter completed gs)))%nat /\
  (done (bp_low r) + done (bp_medium r) + done (bp_high r)
   = done (bp_low acc) + done (bp_medium acc) + done (bp_high acc)
     + length (List.filter completed gs))%nat.
Proof.
  induction gs as [|g gs IH]; intros acc; cbn [foldl List.filter length].
  - cbv zeta. lia.
  - specialize (IH (tally acc g)). cbv zeta in *. destruct IH as [IH1 IH2].
    rewrite IH1, IH2.
    pose proof (StatsFacts.filter_length_le completed gs) as Hle.
    unfold tally.
    destruct (completed g); destruct (default medium (priority g));
      cbn [bp_low bp_medium bp_high open done bump_open bump_done length]; lia.
Qed.


Lemma sum_NaN (ms : list Mood) : foldl add_score NaN ms = NaN.
Proof. induction ms as [|m ms IH]; [reflexivity | exact IH]. Qed.

Lemma sum_NaN_iff (ms : list Mood) : forall acc : Q,
  foldl add_score (Fin acc) ms = NaN <-> Exists (fun m => score m = None) ms.
Proof.
  induction ms as [|m ms IH]; intros acc; cbn [foldl].
  - split; [discriminate | intros H; inversion H].
  - unfold add_score at 2. destruct (score m) as [v|] eqn:E.
    + rewrite IH. split; [intros H; now apply Exists_cons_tl|].
      intros H. inversion H as [? ? Hm|? ? Hms]; subst; [congruence | exact Hms].
    + rewrite sum_NaN. split; [intros _; now apply Exists_cons_hd | reflexivity].
Qed.

Lemma avg_of_NaN_iff (ms : list Mood) :
  round1 (avg_of (Some ms)) = NaN <-> Exists (fun m => score m = None) ms.
Proof.
  destruct ms as [|m ms].
  - cbn. split; [discriminate | intros H; inversion H].
  - cbn [avg_of]. rewrite <- (sum_NaN_iff (m :: ms) 0).
    destruct (foldl add_score (Fin 0) (m :: ms)); cbn [round1]; split; congruence.
Qed.

Lemma sum_bounds (lo hi : Z) (ms : list Mood) : forall acc : Q,
  Forall (fun m => exists z, score m = Some z /\ lo <= z <= hi) ms ->
  exists s, foldl add_score (Fin acc) ms = Fin s /\
    (acc + inject_Z lo * inject_Z (Z.of_nat (length ms)) <= s)%Q /\
    (s <= acc + inject_Z hi * inject_Z (Z.of_nat (length ms)))%Q.
Proof.
  induction ms as [|m ms IH]; intros acc H.
  - exists acc. cbn [foldl length]. change (inject_Z (Z.of_nat 0)) with 0%Q.
    split; [reflexivity|]. split; lra.
  - inversion H as [|? ? (z & Hz & Hlo & Hhi) Hms]; subst.
    cbn [foldl]. unfold add_score at 2. rewrite Hz.
    destruct (IH (acc + inject_Z z)%Q Hms) as (s & Hs & H1 & H2).
    exists s. split; [exact Hs|].
    cbn [length]. rewrite Nat2Z.inj_succ, <- Z.add_1_r, inject_Z_plus.
    assert (Hl : (inject_Z lo <= inject_Z z)%Q) by (rewrite <- Zle_Qle; exact Hlo).
    assert (Hh : (inject_Z z <= inject_Z hi)%Q) by (rewrite <- Zle_Qle; exact Hhi).
    change (inject_Z 1) with 1%Q.
    split; lra.
Qed.

Lemma Math_round_bounds (q : Q) (lo hi : Z) :
  (inject_Z lo <= q)%Q -> (q <= inject_Z hi)%Q -> lo <= Math_round q <= hi.
Proof.
  intros Hlo Hhi. unfold Math_round.
  pose proof (Qfloor_le (q + (1 # 2))) as Hf.
  pose proof (Qlt_floor (q + (1 # 2))) as Hc.
  set (f := Qfloor (q + (1 # 2))) in *.
  rewrite inject_Z_plus in Hc. change (inject_Z 1) with 1%Q in Hc.
  split.
  - assert (H : (inject_Z lo < inject_Z (f + 1))%Q).
    { rewrite inject_Z_plus. change (inject_Z 1) with 1%Q. lra. }
    rewrite <- Zlt_Qlt in H. lia.
  - assert (H : (inject_Z f < inject_Z (hi + 1))%Q).
    { rewrite inject_Z_plus. change (inject_Z 1) with 1%Q. lra. }
    rewrite <- Zlt_Qlt in H. lia.
Qed.

Lemma round1_bounds (q : Q) (lo hi : Z) :
  (inject_Z lo <= q)%Q -> (q <= inject_Z hi)%Q ->
  (inject_Z lo <= inject_Z (Math_round (q * 10)) / 10)%Q /\
  (inject_Z (Math_round (q * 10)) / 10 <= inject_Z hi)%Q.
Proof.
  intros Hlo Hhi.
  destruct (Math_round_bounds (q * 10) (lo * 10) (hi * 10)) as [H1 H2].
  - rewrite inject_Z_mult. change (inject_Z 10) with 10%Q. lra.
  - rewrite inject_Z_mult. change (inject_Z 10) with 10%Q. lra.
  - rewrite Zle_Qle in H1, H2. rewrite inject_Z_mult in H1, H2.
    change (inject_Z 10) with 10%Q in H1, H2.
    split.
    + apply Qle_shift_div_l; [reflexivity | exact H1].
    + apply Qle_shift_div_r; [reflexivity | exact H2].
Qed.

(** X21. The average mood is [NaN] exactly when some entry of the list
    has no score. When every score lies between two integers (1 and 5
    for the scores of the mood page) and there is an entry, the
    average, rounded to one decimal, is a number between the same two
    integers. *)
Theorem avgMood_defined_and_bounded
    (goals : option (list Goal)) (ms : list Mood)
    (medRuns : option (list MedRun)) (journalEntries : option (list JournalEntry)) (lo hi : Z) :
  let st := calculateStats goals (Some ms) medRuns journalEntries in
  (avgMood st = NaN <-> Exists (fun m => score m = None) ms) /\
  (ms <> [] -> Forall (fun m => exists z, score m = Some z /\ lo <= z <= hi) ms ->
   exists q, avgMood st = Fin q /\ (inject_Z lo <= q)%Q /\ (q <= inject_Z hi)%Q).
Proof.
  cbv zeta. cbn [calculateStats avgMood]. split; [apply avg_of_NaN_iff|].
  intros Hne Hall. destruct ms as [|m ms]; [contradiction|].
  cbn [avg_of].
  destruct (sum_bounds lo hi (m :: ms) 0 Hall) as (s & Hs & H1 & H2).
  rewrite Hs. cbn [round1]. eexists. split; [reflexivity|].
  set (n := inject_Z (Z.of_nat (length (m :: ms)))) in *.
  assert (Hn : (0 < n)%Q).
  { unfold n. change 0%Q with (inject_Z 0). rewrite <- Zlt_Qlt. cbn [length]. lia. }
  apply round1_bounds.
  - apply Qle_shift_div_l; [exact Hn | lra].
  - apply Qle_shift_div_r; [exact Hn | lra].
Qed.

Lemma Math_round_sixtieth (s : Z) : Math_round (inject_Z s / 60) = (2 * s + 60) / 120.
Proof.
  unfold Math_round.
  assert (E : (inject_Z s / 60 + (1 # 2) == (2 * s + 60) # 120)%Q).
  { unfold Qeq, Qdiv, Qmult, Qinv, Qplus, inject_Z. simpl. lia. }
  rewrite (Qfloor_comp _ _ E). reflexivity.
Qed.

Lemma run_minutes_near (r : MedRun) : Z.abs (60 * run_minutes r - run_seconds r) <= 30.
Proof.
  unfold run_minutes. fold (run_seconds r). rewrite Math_round_sixtieth.
  pose proof (RoundFacts.half_up_nearest (run_seconds r) 60 ltac:(lia)) as H.
  cbv zeta in H. replace (2 * 60) with 120 in H by lia. lia.
Qed.

Lemma sum_minutes_loop (rs : list MedRun) : forall acc,
  foldl (fun sum r => sum + run_minutes r) acc rs
  = acc + foldr (fun r a => run_minutes r + a) 0 rs.
Proof.
  induction rs as [|r rs IH]; intros acc; cbn [foldl foldr]; [lia|].
  rewrite IH. lia.
Qed.

(** X22. The meditation minutes are rounded run by run: the total
    differs from the exact minutes by at most half a minute per run,
    and it is not negative when no run has negative seconds. *)
Theorem totalMedMinutes_near
    (goals : option (list Goal)) (moods : option (list Mood))
    (runs : list MedRun) (journalEntries : option (list JournalEntry)) :
  let st := calculateStats goals moods (Some runs) journalEntries in
  Z.abs (60 * totalMedMinutes st - total_seconds runs) <= 30 * Z.of_nat (length runs) /\
  (Forall (fun r => 0 <= run_seconds r) runs -> 0 <= totalMedMinutes st).
Proof.
  cbv zeta. cbn [calculateStats totalMedMinutes sum_minutes].
  rewrite sum_minutes_loop. rewrite Z.add_0_l.
  split.
  - induction runs as [|r rs IH]; cbn [foldr total_seconds length]; [cbn; lia|].
    pose proof (run_minutes_near r). unfold total_seconds in *. cbn [foldr]. lia.
  - induction 1 as [|r rs Hr Hrs IH]; cbn [foldr]; [lia|].
    assert (0 <= run_minutes r); [|lia].
    unfold run_minutes. fold (run_seconds r). rewrite Math_round_sixtieth.
    apply Z.div_pos; lia.
Qed.

(** X23. On the overview path the average mood is never [NaN]:
    [getMoods] gives every entry a score, 0 for a row without one. Such
    a row lowers the average as a 0 and is counted in the histogram
    under score 1. *)
Theorem overview_avgMood_is_a_number
    (goals : option (list Goal)) (query : Result (list (string * Mood.Row)))
    (medRuns : option (list MedRun)) (journalEntries : option (list JournalEntry)) :
  let ms := getMoods query in
  avgMood (calculateStats goals (Some ms) medRuns journalEntries) <> NaN /\
  Forall (fun m => exists z, score m = Some z) ms /\
  (forall rows, query = Return rows ->
   Forall2 (fun entry m => Mood.score (snd entry) = None -> score m = Some 0 /\ bucket_index m = 0%nat)
           rows ms).
Proof.
  cbv zeta.
  assert (Hall : Forall (fun m => exists z, score m = Some z) (getMoods query)).
  { unfold getMoods. destruct query as [rows|e]; [|constructor].
    induction rows as [|x rows IH]; cbn [List.map]; constructor; [eauto | exact IH]. }
  split; [|split; [exact Hall|]].
  - intros H. apply avgMood_defined_and_bounded in H; [|exact 0|exact 0].
    induction H as [m ms Hm|m ms Hms IH].
    + inversion Hall as [|? ? [z Hz] _]; subst. congruence.
    + inversion Hall; subst. auto.
  - intros rows ->. cbn [getMoods].
    clear Hall. induction rows as [|x rows IH]; cbn [List.map]; [constructor|].
    constructor; [|exact IH].
    intros Hx. cbn [score]. rewrite Hx. split; reflexivity.
Qed.

(** X21 at work: the scores 4 and 2. *)
Lemma avgMood_defined_and_bounded_witness :
  exists q, avgMood (calculateStats None (Some [mkMood (Some 4); mkMood (Some 2)]) None None)
            = Fin q /\ (1 <= q)%Q /\ (q <= 5)%Q.
Proof.
  destruct (avgMood_defined_and_bounded None [mkMood (Some 4); mkMood (Some 2)] None None 1 5)
    as [_ H].
  apply H.
  - discriminate.
  - repeat constructor; eexists; (split; [reflexivity | lia]).
Defined.

End StatsMoreFacts.

(** ** AI analysis: it always answers, with at most four suggestions *)

Module AnalysisMoreFacts.
Import Js Http Dashboard Props.

Section Facts.

Variable number_to_string : Q -> string.
Variable greater_than : JsVal -> Q -> bool.

Lemma take_4_length {A} (l : list A) : (length (take 4 l) <= 4)%nat.
Proof. rewrite length_take. lia. Qed.

Lemma parseAIAnalysis_try_suggestions (v : JsVal) (p : Parsed) :
  parseAIAnalysis_try greater_than v = Return p -> (length (p_suggestions p) <= 4)%nat.
Proof.
  unfold parseAIAnalysis_try. unfold mbind, result_bind, bind.
  destruct (if is_object v then _ else _) as [parsed|]; [|discriminate].
  destruct (get parsed "summary") as [p_sum|]; [|discriminate].
  destruct (get parsed "suggestions") as [p_sug|]; [|discriminate].
  destruct (get parsed "insights") as [p_ins|]; [|discriminate].
  destruct (get parsed "sentiment") as [p_sent|]; [|discriminate].
  destruct (get parsed "completionRate") as [p_rate|]; [|discriminate].
  destruct (get parsed "mindfulness") as [p_mind|]; [|discriminate].
  destruct (get parsed "confidence") as [p_conf|]; [|discriminate].
  intros [= <-]. cbn [p_suggestions].
  destruct p_sug; try apply take_4_length; cbn [truthy];
    try (cbn; lia); try (destruct (negb _); cbn; lia); try (destruct (nonempty _); cbn; lia).
  destruct b; cbn; lia.
Qed.

Lemma extractInsightsManually_suggestions (v : JsVal) (p : Parsed) :
  extractInsightsManually v = Return p -> length (p_suggestions p) = 4%nat.
Proof.
  unfold extractInsightsManually. unfold mbind, result_bind, bind.
  destruct (DeepSeek.call_toLowerCase v); [|discriminate].
  intros [= <-]. reflexivity.
Qed.

Lemma parseAIAnalysis_suggestions (v : JsVal) (p : Parsed) :
  parseAIAnalysis greater_than v = Return p -> (length (p_suggestions p) <= 4)%nat.
Proof.
  unfold parseAIAnalysis, try_catch.
  destruct (parseAIAnalysis_try greater_than v) as [p'|e] eqn:E.
  - intros [= <-]. now apply parseAIAnalysis_try_suggestions with v.
  - intros H. apply extractInsightsManually_suggestions in H. lia.
Qed.

Lemma get_object (v : JsVal) (k : string) :
  is_object v = true -> exists x, get v k = Return x.
Proof. destruct v; try discriminate; intros _; eexists; reflexivity. Qed.

(** X24. [parseAIAnalysis] answers every text, every array and every
    object, and throws for every other value; what it returns has at
    most four suggestions. *)
Theorem parseAIAnalysis_domain (v : JsVal) :
  ((exists p, parseAIAnalysis greater_than v = Return p) <->
   (is_object v = true \/ exists text, v = JStr text)) /\
  (forall p, parseAIAnalysis greater_than v = Return p -> (length (p_suggestions p) <= 4)%nat).
Proof.
  split; [|intros p; apply parseAIAnalysis_suggestions].
  split.
  - intros [p H]. destruct v as [| |b|q|text|items|props]; eauto;
      (unfold parseAIAnalysis, parseAIAnalysis_try in H; cbn in H; try destruct b; discriminate).
  - intros [Hobj | [text ->]].
    + unfold parseAIAnalysis, parseAIAnalysis_try. rewrite Hobj.
      cbn [mbind result_bind bind].
      destruct (get_object v "summary" Hobj) as [x1 ->].
      destruct (get_object v "suggestions" Hobj) as [x2 ->].
      destruct (get_object v "insights" Hobj) as [x3 ->].
      destruct (get_object v "sentiment" Hobj) as [x4 ->].
      destruct (get_object v "completionRate" Hobj) as [x5 ->].
      destruct (get_object v "mindfulness" Hobj) as [x6 ->].
      destruct (get_object v "confidence" Hobj) as [x7 ->].
      eexists. reflexivity.
    + unfold parseAIAnalysis, try_catch.
      destruct (parseAIAnalysis_try greater_than (JStr text)); [eauto|].
      eexists. reflexivity.
Qed.

(** X25. [generateAIAnalysis] returns for all data, whatever the
    provider does: it never throws, and its result has at most four
    suggestions. *)
Theorem generateAIAnalysis_always_returns (env : DeepSeek.Env) (svc : DeepSeek.Service)
    (data : Data) (now : string) :
  exists a, generateAIAnalysis number_to_string greater_than env svc data now = Return a /\
            (length (suggestions a) <= 4)%nat.
Proof.
  rewrite AnalysisFacts.generateAIAnalysis_analyse.
  match goal with |- context [analyse _ _ ?r now] => generalize r end.
  intros result. unfold analyse.
  assert (Hfallback : exists a, Return (generateFallbackAnalysis data now) = Return a /\
                                (length (suggestions a) <= 4)%nat).
  { eexists. split; [reflexivity|].
    destruct (AnalysisFacts.generateFallbackAnalysis_shape data now) as [_ H]. lia. }
  destruct (DeepSeek.success result && truthy (DeepSeek.summary result)); [|exact Hfallback].
  cbv zeta. unfold mbind, result_bind, bind. cbn [try_catch].
  match goal with |- context [parseAIAnalysis greater_than ?v] =>
    destruct (parseAIAnalysis greater_than v) as [parsed|e] eqn:E end.
  - eexists. split; [reflexivity|]. cbn [suggestions].
    eapply parseAIAnalysis_suggestions. exact E.
  - exact Hfallback.
Qed.

(** X26. The handler of [POST /api/dashboard/ai/analyze] answers 401
    exactly when the request carries no user id, 400 exactly when it
    has one and one of the three lists is missing, and 200 in every
    other case, with at most four suggestions: it never answers 500. *)
Theorem analyze_endpoint (env : DeepSeek.Env) (svc : DeepSeek.Service)
    (user : option (list (string * JsVal))) (reqBody : DashboardController.AnalyzeBody)
    (now : string) :
  let r := DashboardController.generateAIAnalysis number_to_string greater_than env svc user
             reqBody now in
  let authorised := truthy (DashboardController.extractUserId user) in
  let complete :=
    bool_decide (DashboardController.b_goals reqBody <> None /\
                 DashboardController.b_moods reqBody <> None /\
                 DashboardController.b_medRuns reqBody <> None) in
  status r = (if negb authorised then 401 else if negb complete then 400 else 200) /\
  (status r = 200 ->
   exists summary suggestions insights provider,
     body r = DashboardController.analysis_body summary suggestions insights provider now /\
     (length suggestions <= 4)%nat).
Proof.
  cbv zeta. unfold DashboardController.generateAIAnalysis.
  destruct (truthy (DashboardController.extractUserId user)); cbn [negb];
    [|split; [reflexivity | discriminate]].
  destruct (DashboardController.b_goals reqBody) as [goals|];
    [|rewrite bool_decide_false by (intros (H & _); congruence);
      split; [reflexivity | discriminate]].
  destruct (DashboardController.b_moods reqBody) as [moods|];
    [|rewrite bool_decide_false by (intros (_ & H & _); congruence);
      split; [reflexivity | discriminate]].
  destruct (DashboardController.b_medRuns reqBody) as [medRuns|];
    [|rewrite bool_decide_false by (intros (_ & _ & H); congruence);
      split; [reflexivity | discriminate]].
  rewrite bool_decide_true by (repeat split; discriminate). cbn [negb].
  destruct (generateAIAnalysis_always_returns env svc
              {| goals := Some goals; moods := Some moods; medRuns := Some medRuns;
                 journalEntries := None |} now) as (a & -> & Ha).
  split; [reflexivity|]. intros _. cbn [body]. eauto 6.
Qed.

End Facts.

End AnalysisMoreFacts.

(** ** Accounts: registering, signing in, the middleware *)

Module AccountFacts.
Import Js Http Auth Props.

Lemma find_app_none {A} (p : A -> bool) (l : list A) (x : A) :
  List.find p l = None -> List.find p (l ++ [x]) = (if p x then Some x else None).
Proof.
  induction l as [|y l IH]; cbn [List.find app]; [reflexivity|].
  destruct (p y); [discriminate | exact IH].
Qed.

Lemma find_none_filter {A} (p : A -> bool) (l : list A) :
  List.find p l = None -> List.filter p l = [].
Proof.
  induction l as [|x l IH]; cbn [List.find List.filter]; [reflexivity|].
  destruct (p x); [discriminate | exact IH].
Qed.

Lemma given_nonempty_text (s : option string) (t : string) :
  given s = Some t -> t <> EmptyString.
Proof.
  unfold given, Mood.truthy_string. destruct s as [u|]; [|discriminate].
  destruct u; [discriminate|]. intros [= <-]. discriminate.
Qed.

Lemma given_idem (s : option string) : given (given s) = given s.
Proof.
  unfold given, Mood.truthy_string. destruct s as [u|]; [|reflexivity].
  destruct u; reflexivity.
Qed.

Section Facts.

Variable bcrypt_hash : string -> string.
Variable bcrypt_compare : string -> JsVal -> Result bool.
Variable jwt_sign : JsVal -> JsVal -> string.
Variable column_defaults : list (string * JsVal).
Variable jwt_verify : string -> Result JsVal.

Lemma new_row_email (id : Z) (name email hash : string) :
  lookup_prop "email"
    (column_defaults ++ [("id", JNum (inject_Z id)); ("name", JStr name); ("email", JStr email);
                         ("password_hash", JStr hash)]) = JStr email.
Proof. rewrite AuthFacts.lookup_prop_app; [reflexivity | discriminate]. Qed.

Lemma new_row_hash (id : Z) (name email hash : string) :
  lookup_prop "password_hash"
    (column_defaults ++ [("id", JNum (inject_Z id)); ("name", JStr name); ("email", JStr email);
                         ("password_hash", JStr hash)]) = JStr hash.
Proof. rewrite AuthFacts.lookup_prop_app; [reflexivity | discriminate]. Qed.

(** X27. Who has registered can sign in: after a registration with an
    address that was not in use, [login] with the same address and
    password answers 200 with a token and the new user (given that
    [bcrypt.compare] accepts a password against its own hash). *)
Theorem register_then_login (db : Db) (req : Credentials) (n e p : string) :
  given (name req) = Some n -> given (email req) = Some e -> given (password req) = Some p ->
  findUserByEmail db e = None ->
  bcrypt_compare p (JStr (bcrypt_hash p)) = Return true ->
  let db' := fst (register bcrypt_hash jwt_sign column_defaults db req) in
  exists user token,
    findUserByEmail db' e = Some user /\
    lookup_prop "email" user = JStr e /\
    login bcrypt_compare jwt_sign db' req
      = mkResponse 200 [("token", JStr token); ("user", user_json (sanitizeUser (Some user)))].
Proof.
  intros Hn He Hp Hfree Hcmp. cbv zeta.
  unfold register. rewrite Hn, He, Hp, Hfree.
  destruct (AuthFacts.createUser_found bcrypt_hash column_defaults db n e p) as [u Hu].
  unfold createUser in *. cbn [snd] in Hu. rewrite Hu.
  cbn [generateJwt guarded mbind result_bind bind fst].
  match goal with |- context [rows db ++ [?r]] => set (row := r) in * end.
  assert (Hfind : findUserByEmail (mkDb (rows db ++ [row]) (auto_increment db + 1)) e
                  = Some row).
  { unfold findUserByEmail in *. cbn [rows]. rewrite (find_app_none _ _ _ Hfree).
    unfold row. rewrite new_row_email. cbn [same]. now rewrite String.eqb_refl. }
  exists row. eexists. split; [exact Hfind|]. split; [apply new_row_email|].
  unfold login. rewrite He, Hp, Hfind. unfold verifyPassword.
  assert (Hhash : lookup_prop "password_hash" row = JStr (bcrypt_hash p))
    by apply new_row_hash.
  rewrite Hhash, Hcmp.
  cbn [mbind result_bind bind generateJwt guarded snd]. reflexivity.
Qed.

Lemma email_count_app (db : Db) (row : User) (next : Z) (email : string) :
  email_count (mkDb (rows db ++ [row]) next) email
  = (email_count db email
     + (if same (lookup_prop "email" row) (JStr email) then 1 else 0))%nat.
Proof.
  unfold email_count. cbn [rows]. rewrite List.filter_app, List.length_app. cbn [List.filter].
  destruct (same _ _); reflexivity.
Qed.

Lemma guarded_fst {S} (d : S) (r : Result (S * Response Body)) :
  (forall out, r = Return out -> fst out = d) -> fst (guarded d r) = d.
Proof. destruct r as [out|e]; cbn [guarded]; [intros H; now apply H | reflexivity]. Qed.

(** X28. [register] never stores an address twice: a table without
    duplicates has none afterwards, and a request with an address that
    is in use leaves the table as it is and is answered with 409 (400
    when a field is missing). *)
Theorem register_keeps_emails_unique (db : Db) (req : Credentials) (e : string) :
  unique_emails db ->
  let out := register bcrypt_hash jwt_sign column_defaults db req in
  unique_emails (fst out) /\
  (given (email req) = Some e -> findUserByEmail db e <> None ->
   fst out = db /\ (status (snd out) = 409 \/ status (snd out) = 400)).
Proof.
  intros Huniq. cbv zeta. unfold register.
  destruct (given (name req)) as [n|];
    [|split; [exact Huniq | intros; cbn; auto]].
  destruct (given (email req)) as [e'|];
    [|split; [exact Huniq | intros; cbn; auto]].
  destruct (given (password req)) as [p|];
    [|split; [exact Huniq | intros; cbn; auto]].
  destruct (findUserByEmail db e') as [u|] eqn:Hfind.
  { split; [exact Huniq | intros; cbn; auto]. }
  split; [|intros [= <-] H; contradiction].
  unfold createUser. rewrite guarded_fst.
  - intros x. rewrite email_count_app. rewrite new_row_email. cbn [same].
    destruct (String.eqb_spec e' x) as [Heq|Hne].
    + subst x. unfold findUserByEmail in Hfind.
      assert (H0 : email_count db e' = 0%nat).
      { unfold email_count.
        pose proof (find_none_filter _ _ Hfind) as Hnil.
        exact (f_equal (@length _) Hnil). }
      rewrite H0. cbn. lia.
    + specialize (Huniq x). lia.
  - intros out. unfold mbind, result_bind, bind.
    destruct (generateJwt _ _); [|discriminate]. now intros [= <-].
Qed.

(** X29. The middleware lets a request through only with a token that
    [jwt.verify] accepts and whose payload names, under [id], a user
    of the table, who becomes [req.user]; every refusal has status
    401. *)
Theorem auth_outcomes (db : Db) (req : Request) :
  match auth jwt_verify db req with
  | Denied r => status r = 401
  | Next user =>
      exists token payload id,
        token <> EmptyString /\
        jwt_verify token = Return payload /\ get payload "id" = Return id /\
        findUserById db id = Some user /\ In user (rows db)
  end.
Proof.
  unfold auth.
  destruct (given (match given (either _ _) with Some _ => _ | None => _ end)) as [token|] eqn:Ht;
    [|reflexivity].
  unfold mbind, result_bind, bind.
  destruct (jwt_verify token) as [payload|] eqn:Hv; [|reflexivity].
  destruct (get payload "id") as [id|] eqn:Hid; [|reflexivity].
  cbn [mret result_ret].
  destruct (findUserById db id) as [user|] eqn:Hu; [|reflexivity].
  exists token, payload, id. repeat split; try assumption.
  - apply given_nonempty_text in Ht. exact Ht.
  - unfold findUserById in Hu. apply List.find_some in Hu. tauto.
Qed.

(** X30. A header that starts with the word Bearer decides alone: the
    cookie is not looked at, and when nothing follows the word and its
    space the request is refused as having no token, whatever the
    cookie holds. *)
Theorem bearer_header_overrides_cookie (db : Db) (req : Request) (h : string)
    (cookie : option string) :
  authorization req = Some h -> String.prefix "Bearer " h = true ->
  auth jwt_verify db req
    = auth jwt_verify db (mkRequest (authorization req) (Authorization req) cookie) /\
  (given (List.nth_error (split_on (is_char " ") h) 1) = None ->
   auth jwt_verify db req = Denied (message 401 "Missing auth token")).
Proof.
  intros Hh Hp.
  assert (Hne : given (Some h) = Some h).
  { destruct h; [discriminate | reflexivity]. }
  unfold auth. cbn [authorization Authorization cookie_token].
  unfold either. rewrite Hh, Hne, Hne, Hp. split; [reflexivity|].
  intros ->. reflexivity.
Qed.

End Facts.

(** X27 at work: Ada registers and signs in. *)
Lemma register_then_login_witness :
  exists user token,
    login Samples.sample_compare Samples.sample_sign
      (fst (register Samples.sample_hash Samples.sample_sign [] Samples.no_users Samples.ada))
      Samples.ada
    = mkResponse 200 [("token", JStr token); ("user", user_json (sanitizeUser (Some user)))].
Proof.
  destruct (register_then_login Samples.sample_hash Samples.sample_compare Samples.sample_sign []
              Samples.no_users Samples.ada "Ada" "ada@example.org" "correct horse")
    as (user & token & _ & _ & H).
  - reflexivity.
  - reflexivity.
  - reflexivity.
  - reflexivity.
  - vm_compute. reflexivity.
  - exists user, token. exact H.
Defined.

(** X28 at work: the first registration. *)
Lemma register_keeps_emails_unique_witness :
  (email_count (fst (register Samples.sample_hash Samples.sample_sign [] Samples.no_users
                       Samples.ada)) "ada@example.org" <= 1)%nat.
Proof.
  destruct (register_keeps_emails_unique Samples.sample_hash Samples.sample_sign []
              Samples.no_users Samples.ada "ada@example.org") as [H _].
  - intros email. vm_compute. lia.
  - apply H.
Defined.

(** X30 at work: the header holds the word Bearer and no token; the
    token of the cookie is not used. *)
Lemma bearer_header_overrides_cookie_witness :
  auth Samples.sample_verify Samples.no_users Samples.bearer_only
  = Denied (message 401 "Missing auth token").
Proof.
  destruct (bearer_header_overrides_cookie Samples.sample_verify Samples.no_users
              Samples.bearer_only "Bearer " None) as [_ H].
  - reflexivity.
  - reflexivity.
  - apply H. reflexivity.
Defined.

End AccountFacts.
